(** * Volatility Harvester: the trading-decision core

    A shallow embedding of the decision core of the volatility harvester
    (strategy engine, risk manager, ledger and execution engine) together
    with the properties of it that are stated in the specification.

    Conventions of the embedding.
    - [decimal.Decimal] values are rationals ([Q]).  The default decimal
      context rounds the result of every operation to 28 significant
      digits, ties to even: that is [Py.ctx].  The functions whose
      properties turn on the last digit ([Strategy.calculate_position_size_with]
      and the [_with] functions of [Fees]) take the rounding as a parameter
      and apply it to the result of each operation, so that [Py.ctx] gives
      the values of the code and [Py.unrounded] the exact ones; everywhere
      else the arithmetic is exact.
      The error paths of the context are: a zero divisor, and a floor
      division whose integer quotient does not fit the 28 digits.  Values
      are finite and within the exponent range of the context.
      Numeric comparison of two Decimals is [Qeq]/[Qle]/[Qlt], as in Python,
      where [Decimal("2.0") == Decimal("2")].
    - A finite float64 is the rational it denotes; [float(x)], [round(f, n)]
      and [str(f)] round as IEEE 754 and CPython do ([Py.to_float],
      [Py.float_round], [Py.float_repr]).
    - The float64 columns of a pandas frame are read as exact rationals.
      pandas itself is not embedded: [Strategy.calculate_atr_pct] computes
      the rolling mean exactly, and [Strategy.generate_signal_with] takes
      the ATR estimate as a parameter, so that what is proved of it holds
      for the float64 value pandas returns.
    - Python [int] is [Z]; a naive [datetime] is the number of microseconds
      since the epoch.
    - A method that mutates its [state] argument returns the new state next
      to its result; a raised exception is the [Raise] case of [result].
    - An f-string is kept as the list of its pieces, numbers unrendered. *)

From Stdlib Require Import QArith Qabs Qminmax Qround Qpower Lqa ZArith Lia.
From Stdlib Require Import List String Ascii Bool DecimalString.
Import ListNotations.

Open Scope Q_scope.

(* ------------------------------------------------------------------ *)
(** ** Python-level vocabulary *)

Module Py.

Definition Decimal := Q.
Definition datetime := Z.

(** Pieces of an f-string: literal text, a number under [:.Nf], an
    integer, or the rendering of [None]. *)
Inductive piece : Type :=
| Lit (s : string)
| Fixed (places : nat) (d : Decimal)
| IntP (n : Z)
| NoneP.

Definition text := list piece.

Inductive exn : Type :=
| ValueError (msg : text)
| TypeError
| DivisionByZero
| InvalidOperation
| DivisionImpossible
| AdapterError (msg : text).

Inductive result (A : Type) : Type :=
| Ok (a : A)
| Raise (e : exn).
Arguments Ok {A} a.
Arguments Raise {A} e.

Definition dec_eq (a b : Decimal) : bool := Qeq_bool a b.
Definition dec_le (a b : Decimal) : bool := Qle_bool a b.
Definition dec_lt (a b : Decimal) : bool := negb (Qle_bool b a).
Definition dec_ge (a b : Decimal) : bool := dec_le b a.
Definition dec_gt (a b : Decimal) : bool := dec_lt b a.

(** [str(e)].  [InvalidOperation] is the one raised for [0 / 0];
    [DivisionImpossible] is the [decimal.InvalidOperation] raised for a
    quotient that is too large. *)
Definition str_exn (e : exn) : text :=
  match e with
  | ValueError msg => msg
  | AdapterError msg => msg
  | TypeError => [Lit "unsupported operand type(s)"]
  | DivisionByZero => [Lit "[<class 'decimal.DivisionByZero'>]"]
  | InvalidOperation => [Lit "[<class 'decimal.DivisionUndefined'>]"]
  | DivisionImpossible => [Lit "[<class 'decimal.DivisionImpossible'>]"]
  end.

(** [a / b] on Decimals: a zero divisor raises, [0 / 0] as
    [InvalidOperation] and [a / 0] as [DivisionByZero]. *)
Definition dec_div (a b : Decimal) : result Decimal :=
  if dec_eq b 0 then
    if dec_eq a 0 then Raise InvalidOperation else Raise DivisionByZero
  else Ok (a / b).

(** The precision of the default decimal context. *)
Definition prec : Z := 28.

(** [a // b] on Decimals ([Decimal.__floordiv__]): the integer part of the
    quotient, truncated towards zero.  A zero divisor raises as for [/];
    an integer part of more than [prec] digits raises
    [InvalidOperation] with [DivisionImpossible]. *)
Definition dec_floordiv (a b : Decimal) : result Decimal :=
  if dec_eq b 0 then
    if dec_eq a 0 then Raise InvalidOperation else Raise DivisionByZero
  else
    let q := a / b in
    let n := Z.quot (Qnum q) (Zpos (Qden q)) in
    if (Z.abs n <? 10 ^ prec)%Z then Ok (inject_Z n)
    else Raise DivisionImpossible.

(** Truthiness of an optional Decimal, and [x or default]. *)
Definition truthy (x : option Decimal) : bool :=
  match x with
  | Some d => negb (dec_eq d 0)
  | None => false
  end.

Definition or_else (x : option Decimal) (default : Decimal) : Decimal :=
  match x with
  | Some d => if truthy x then d else default
  | None => default
  end.

(** [str.lower] on ASCII. *)
Definition lower_ascii (c : ascii) : ascii :=
  let n := nat_of_ascii c in
  if ((65 <=? n) && (n <=? 90))%nat then ascii_of_nat (n + 32) else c.

Fixpoint lower (s : string) : string :=
  match s with
  | EmptyString => EmptyString
  | String c r => String (lower_ascii c) (lower r)
  end.

Definition is_substring (needle hay : string) : bool :=
  match index 0 needle hay with
  | Some _ => true
  | None => false
  end.

(** Maximal runs of literal text in a message.  A rendered number is a
    non-empty string of digits, sign and point, so an alphabetic needle
    occurs in the rendered message exactly when it occurs in one run. *)
Fixpoint literal_runs (acc : string) (t : text) : list string :=
  match t with
  | [] => [acc]
  | Lit s :: r => literal_runs (acc ++ s)%string r
  | NoneP :: r => literal_runs (acc ++ "None")%string r
  | _ :: r => acc :: literal_runs EmptyString r
  end.

(** [needle in t.lower()] for a lower-case alphabetic [needle]. *)
Definition in_lower (needle : string) (t : text) : bool :=
  existsb (fun run => is_substring needle (lower run)) (literal_runs EmptyString t).

(** *** float64

    [round(x)] to the nearest integer, ties to even. *)
Definition round_half_even (x : Q) : Z :=
  let f := Qfloor x in
  match Qcompare (x - inject_Z f) (1 # 2) with
  | Lt => f
  | Gt => (f + 1)%Z
  | Eq => if Z.even f then f else (f + 1)%Z
  end.

Definition pow2 (e : Z) : Q := Qpower 2 e.
Definition pow10 (e : Z) : Q := Qpower 10 e.

(** [floor(log10 n)] for [n >= 1]; the binary logarithm bounds the number
    of steps. *)
Fixpoint zlog10_loop (fuel : nat) (n : Z) : Z :=
  match fuel with
  | O => 0
  | S fuel => if (n <? 10)%Z then 0 else (1 + zlog10_loop fuel (n / 10))%Z
  end.

Definition zlog10 (n : Z) : Z := zlog10_loop (Z.to_nat (Z.log2 n)) n.

(** [floor(log2 |x|)] and [floor(log10 |x|)] for [x <> 0]: the difference
    of the logarithms of numerator and denominator, or one less. *)
Definition ilog2 (x : Q) : Z :=
  let g := (Z.log2 (Z.abs (Qnum x)) - Z.log2 (Zpos (Qden x)))%Z in
  if Qle_bool (pow2 g) (Qabs x) then g else (g - 1)%Z.

Definition ilog10 (x : Q) : Z :=
  let g := (zlog10 (Z.abs (Qnum x)) - zlog10 (Zpos (Qden x)))%Z in
  if Qle_bool (pow10 g) (Qabs x) then g else (g - 1)%Z.

(** [float(x)]: the nearest binary64 number, ties to even; 53 bits of
    mantissa, fewer below [2 ^ -1022].  Overflow to infinity (from
    [2 ^ 1024] on) is outside the values of the embedding. *)
Definition to_float (x : Q) : Q :=
  if Qeq_bool x 0 then 0
  else
    let e := Z.max (ilog2 x - 52) (-1074) in
    inject_Z (round_half_even (x / pow2 e)) * pow2 e.

(** [round(f, ndigits)] on a float: the decimal expansion of [f] rounded
    to [ndigits] places, ties to even, read back as a float; beyond 323
    places [f] itself, below -308 places zero. *)
Definition float_round (f : Q) (ndigits : Z) : Q :=
  if (323 <? ndigits)%Z then f
  else if (ndigits <? -308)%Z then 0
  else to_float (inject_Z (round_half_even (f * pow10 ndigits)) / pow10 ndigits).

(** [Decimal(str(f))]: the shortest decimal that reads back as [f], the
    nearest to [f] among those of that length, found within 17 digits. *)
Fixpoint repr_search (fuel : nat) (k : Z) (a : Z) (f : Q) : Q :=
  match fuel with
  | O => f
  | S fuel =>
      let u := pow10 (a - k + 1) in
      let m := Qfloor (f / u) in
      let lo := inject_Z m * u in
      let hi := lo + u in
      let lo_ok := Qeq_bool (to_float lo) f in
      let hi_ok := Qeq_bool (to_float hi) f in
      if lo_ok && hi_ok then
        match Qcompare (f - lo) (hi - f) with
        | Lt => lo
        | Gt => hi
        | Eq => if Z.even m then lo else hi
        end
      else if lo_ok then lo
      else if hi_ok then hi
      else repr_search fuel (k + 1)%Z a f
  end.

Definition float_repr (f : Q) : Q :=
  if Qeq_bool f 0 then 0
  else
    let r := repr_search 17 1 (ilog10 f) (Qabs f) in
    if Qle_bool 0 f then r else - r.

(** *** The decimal context

    The rounding of the default context: to [prec] significant digits,
    ties to even ([ROUND_HALF_EVEN]).  An operation on Decimals returns
    its exact result rounded so. *)
Definition ctx (x : Decimal) : Decimal :=
  if Qeq_bool x 0 then 0
  else
    let e := (ilog10 x - (prec - 1))%Z in
    inject_Z (round_half_even (x / pow10 e)) * pow10 e.

(** No rounding: the exact result. *)
Definition unrounded (x : Decimal) : Decimal := x.

(** [a / b] with the quotient rounded by [rnd]. *)
Definition dec_div_with (rnd : Decimal -> Decimal) (a b : Decimal)
  : result Decimal :=
  if dec_eq b 0 then
    if dec_eq a 0 then Raise InvalidOperation else Raise DivisionByZero
  else Ok (rnd (a / b)).

End Py.
Import Py.

(* ------------------------------------------------------------------ *)
(** ** Enumerations ([core/enums.py]) *)

Module Enums.

Inductive Side := BUY_SIDE | SELL_SIDE.
Inductive OrderType := MARKET | LIMIT | POST_ONLY.
Inductive OrderStatus :=
| PENDING | OPEN | PARTIALLY_FILLED | FILLED | CANCELLED | REJECTED | EXPIRED.
Inductive StrategyState := FLAT | LONG | PAUSED.
Inductive CircuitBreakerReason :=
| MAX_DRAWDOWN | CONSECUTIVE_LOSSES | DAILY_LOSS_LIMIT | LOW_VOLATILITY
| HIGH_VOLATILITY | SPREAD_TOO_WIDE | STALE_DATA | MANUAL.
Inductive SignalType := BUY | SELL | HOLD.

End Enums.
Import Enums.

(* ------------------------------------------------------------------ *)
(** ** Settings ([core/config.py]), the fields the core reads *)

Module Config.

Record Settings : Type := {
  buy_threshold_pct : Decimal;
  sell_threshold_pct : Decimal;
  min_swing_pct : Decimal;
  max_swing_pct : Decimal;
  reserve_pct : Decimal;
  max_drawdown_pct : Decimal;
  max_consecutive_losses : Z;
  daily_loss_limit_pct : Decimal;
  min_activity_pct : Decimal;
  max_activity_pct : Decimal;
  max_spread_bps : Z;
  max_ws_stale_seconds : Z;
  maker_first : bool;
  taker_slippage_bps : Z;
  order_timeout_seconds : Z;
  maker_fee_pct : Decimal;
  taker_fee_pct : Decimal;
  use_trend_filter : bool;
  ma_short : nat;
  ma_long : nat
}.

(** The field defaults of [Settings]. *)
Definition defaults : Settings := {|
  buy_threshold_pct := 5;
  sell_threshold_pct := 5;
  min_swing_pct := 2;
  max_swing_pct := 8;
  reserve_pct := 8;
  max_drawdown_pct := 20;
  max_consecutive_losses := 5;
  daily_loss_limit_pct := 10;
  min_activity_pct := 2;
  max_activity_pct := 10;
  max_spread_bps := 10;
  max_ws_stale_seconds := 5;
  maker_first := true;
  taker_slippage_bps := 10;
  order_timeout_seconds := 30;
  maker_fee_pct := 0.10;
  taker_fee_pct := 0.30;
  use_trend_filter := false;
  ma_short := 50;
  ma_long := 200
|}.

End Config.

(* ------------------------------------------------------------------ *)
(** ** In-memory data ([core/models.py]) *)

Module Models.

Record StrategyStateData : Type := {
  state : StrategyState;
  last_peak : option Decimal;
  last_trough : option Decimal;
  last_buy_price : option Decimal;
  last_sell_price : option Decimal;
  current_position_qty : Decimal;
  realized_pnl : Decimal;
  unrealized_pnl : Decimal;
  total_equity : Decimal;
  peak_equity : Decimal;
  current_drawdown_pct : Decimal;
  consecutive_losses : Z;
  consecutive_wins : Z;
  total_trades : Z;
  winning_trades : Z;
  atr_pct : option Decimal;
  adaptive_buy_threshold : option Decimal;
  adaptive_sell_threshold : option Decimal;
  paused : bool;
  pause_reason : option text;
  last_update : datetime
}.

(** [StrategyStateData()], created at time [now]. *)
Definition fresh (now : datetime) : StrategyStateData := {|
  state := FLAT; last_peak := None; last_trough := None;
  last_buy_price := None; last_sell_price := None;
  current_position_qty := 0; realized_pnl := 0; unrealized_pnl := 0;
  total_equity := 0; peak_equity := 0; current_drawdown_pct := 0;
  consecutive_losses := 0; consecutive_wins := 0; total_trades := 0;
  winning_trades := 0; atr_pct := None; adaptive_buy_threshold := None;
  adaptive_sell_threshold := None; paused := false; pause_reason := None;
  last_update := now
|}.

(** Attribute assignment [state.f = v], one definition per attribute. *)
Definition set_state (v : StrategyState) (s : StrategyStateData) : StrategyStateData :=
  {| state := v; last_peak := last_peak s; last_trough := last_trough s;
    last_buy_price := last_buy_price s; last_sell_price := last_sell_price s;
    current_position_qty := current_position_qty s; realized_pnl := realized_pnl s;
    unrealized_pnl := unrealized_pnl s; total_equity := total_equity s;
    peak_equity := peak_equity s; current_drawdown_pct := current_drawdown_pct s;
    consecutive_losses := consecutive_losses s; consecutive_wins := consecutive_wins s;
    total_trades := total_trades s; winning_trades := winning_trades s; atr_pct := atr_pct s;
    adaptive_buy_threshold := adaptive_buy_threshold s;
    adaptive_sell_threshold := adaptive_sell_threshold s; paused := paused s;
    pause_reason := pause_reason s; last_update := last_update s |}.

Definition set_last_peak (v : option Decimal) (s : StrategyStateData) : StrategyStateData :=
  {| state := state s; last_peak := v; last_trough := last_trough s;
    last_buy_price := last_buy_price s; last_sell_price := last_sell_price s;
    current_position_qty := current_position_qty s; realized_pnl := realized_pnl s;
    unrealized_pnl := unrealized_pnl s; total_equity := total_equity s;
    peak_equity := peak_equity s; current_drawdown_pct := current_drawdown_pct s;
    consecutive_losses := consecutive_losses s; consecutive_wins := consecutive_wins s;
    total_trades := total_trades s; winning_trades := winning_trades s; atr_pct := atr_pct s;
    adaptive_buy_threshold := adaptive_buy_threshold s;
    adaptive_sell_threshold := adaptive_sell_threshold s; paused := paused s;
    pause_reason := pause_reason s; last_update := last_update s |}.

Definition set_last_trough (v : option Decimal) (s : StrategyStateData) : StrategyStateData :=
  {| state := state s; last_peak := last_peak s; last_trough := v;
    last_buy_price := last_buy_price s; last_sell_price := last_sell_price s;
    current_position_qty := current_position_qty s; realized_pnl := realized_pnl s;
    unrealized_pnl := unrealized_pnl s; total_equity := total_equity s;
    peak_equity := peak_equity s; current_drawdown_pct := current_drawdown_pct s;
    consecutive_losses := consecutive_losses s; consecutive_wins := consecutive_wins s;
    total_trades := total_trades s; winning_trades := winning_trades s; atr_pct := atr_pct s;
    adaptive_buy_threshold := adaptive_buy_threshold s;
    adaptive_sell_threshold := adaptive_sell_threshold s; paused := paused s;
    pause_reason := pause_reason s; last_update := last_update s |}.

Definition set_last_buy_price (v : option Decimal) (s : StrategyStateData) : StrategyStateData :=
  {| state := state s; last_peak := last_peak s; last_trough := last_trough s;
    last_buy_price := v; last_sell_price := last_sell_price s;
    current_position_qty := current_position_qty s; realized_pnl := realized_pnl s;
    unrealized_pnl := unrealized_pnl s; total_equity := total_equity s;
    peak_equity := peak_equity s; current_drawdown_pct := current_drawdown_pct s;
    consecutive_losses := consecutive_losses s; consecutive_wins := consecutive_wins s;
    total_trades := total_trades s; winning_trades := winning_trades s; atr_pct := atr_pct s;
    adaptive_buy_threshold := adaptive_buy_threshold s;
    adaptive_sell_threshold := adaptive_sell_threshold s; paused := paused s;
    pause_reason := pause_reason s; last_update := last_update s |}.

Definition set_last_sell_price (v : option Decimal) (s : StrategyStateData) : StrategyStateData :=
  {| state := state s; last_peak := last_peak s; last_trough := last_trough s;
    last_buy_price := last_buy_price s; last_sell_price := v;
    current_position_qty := current_position_qty s; realized_pnl := realized_pnl s;
    unrealized_pnl := unrealized_pnl s; total_equity := total_equity s;
    peak_equity := peak_equity s; current_drawdown_pct := current_drawdown_pct s;
    consecutive_losses := consecutive_losses s; consecutive_wins := consecutive_wins s;
    total_trades := total_trades s; winning_trades := winning_trades s; atr_pct := atr_pct s;
    adaptive_buy_threshold := adaptive_buy_threshold s;
    adaptive_sell_threshold := adaptive_sell_threshold s; paused := paused s;
    pause_reason := pause_reason s; last_update := last_update s |}.

Definition set_current_position_qty (v : Decimal) (s : StrategyStateData) : StrategyStateData :=
  {| state := state s; last_peak := last_peak s; last_trough := last_trough s;
    last_buy_price := last_buy_price s; last_sell_price := last_sell_price s;
    current_position_qty := v; realized_pnl := realized_pnl s;
    unrealized_pnl := unrealized_pnl s; total_equity := total_equity s;
    peak_equity := peak_equity s; current_drawdown_pct := current_drawdown_pct s;
    consecutive_losses := consecutive_losses s; consecutive_wins := consecutive_wins s;
    total_trades := total_trades s; winning_trades := winning_trades s; atr_pct := atr_pct s;
    adaptive_buy_threshold := adaptive_buy_threshold s;
    adaptive_sell_threshold := adaptive_sell_threshold s; paused := paused s;
    pause_reason := pause_reason s; last_update := last_update s |}.

Definition set_realized_pnl (v : Decimal) (s : StrategyStateData) : StrategyStateData :=
  {| state := state s; last_peak := last_peak s; last_trough := last_trough s;
    last_buy_price := last_buy_price s; last_sell_price := last_sell_price s;
    current_position_qty := current_position_qty s; realized_pnl := v;
    unrealized_pnl := unrealized_pnl s; total_equity := total_equity s;
    peak_equity := peak_equity s; current_drawdown_pct := current_drawdown_pct s;
    consecutive_losses := consecutive_losses s; consecutive_wins := consecutive_wins s;
    total_trades := total_trades s; winning_trades := winning_trades s; atr_pct := atr_pct s;
    adaptive_buy_threshold := adaptive_buy_threshold s;
    adaptive_sell_threshold := adaptive_sell_threshold s; paused := paused s;
    pause_reason := pause_reason s; last_update := last_update s |}.

Definition set_unrealized_pnl (v : Decimal) (s : StrategyStateData) : StrategyStateData :=
  {| state := state s; last_peak := last_peak s; last_trough := last_trough s;
    last_buy_price := last_buy_price s; last_sell_price := last_sell_price s;
    current_position_qty := current_position_qty s; realized_pnl := realized_pnl s;
    unrealized_pnl := v; total_equity := total_equity s; peak_equity := peak_equity s;
    current_drawdown_pct := current_drawdown_pct s; consecutive_losses := consecutive_losses s;
    consecutive_wins := consecutive_wins s; total_trades := total_trades s;
    winning_trades := winning_trades s; atr_pct := atr_pct s;
    adaptive_buy_threshold := adaptive_buy_threshold s;
    adaptive_sell_threshold := adaptive_sell_threshold s; paused := paused s;
    pause_reason := pause_reason s; last_update := last_update s |}.

Definition set_total_equity (v : Decimal) (s : StrategyStateData) : StrategyStateData :=
  {| state := state s; last_peak := last_peak s; last_trough := last_trough s;
    last_buy_price := last_buy_price s; last_sell_price := last_sell_price s;
    current_position_qty := current_position_qty s; realized_pnl := realized_pnl s;
    unrealized_pnl := unrealized_pnl s; total_equity := v; peak_equity := peak_equity s;
    current_drawdown_pct := current_drawdown_pct s; consecutive_losses := consecutive_losses s;
    consecutive_wins := consecutive_wins s; total_trades := total_trades s;
    winning_trades := winning_trades s; atr_pct := atr_pct s;
    adaptive_buy_threshold := adaptive_buy_threshold s;
    adaptive_sell_threshold := adaptive_sell_threshold s; paused := paused s;
    pause_reason := pause_reason s; last_update := last_update s |}.

Definition set_peak_equity (v : Decimal) (s : StrategyStateData) : StrategyStateData :=
  {| state := state s; last_peak := last_peak s; last_trough := last_trough s;
    last_buy_price := last_buy_price s; last_sell_price := last_sell_price s;
    current_position_qty := current_position_qty s; realized_pnl := realized_pnl s;
    unrealized_pnl := unrealized_pnl s; total_equity := total_equity s; peak_equity := v;
    current_drawdown_pct := current_drawdown_pct s; consecutive_losses := consecutive_losses s;
    consecutive_wins := consecutive_wins s; total_trades := total_trades s;
    winning_trades := winning_trades s; atr_pct := atr_pct s;
    adaptive_buy_threshold := adaptive_buy_threshold s;
    adaptive_sell_threshold := adaptive_sell_threshold s; paused := paused s;
    pause_reason := pause_reason s; last_update := last_update s |}.

Definition set_current_drawdown_pct (v : Decimal) (s : StrategyStateData) : StrategyStateData :=
  {| state := state s; last_peak := last_peak s; last_trough := last_trough s;
    last_buy_price := last_buy_price s; last_sell_price := last_sell_price s;
    current_position_qty := current_position_qty s; realized_pnl := realized_pnl s;
    unrealized_pnl := unrealized_pnl s; total_equity := total_equity s;
    peak_equity := peak_equity s; current_drawdown_pct := v;
    consecutive_losses := consecutive_losses s; consecutive_wins := consecutive_wins s;
    total_trades := total_trades s; winning_trades := winning_trades s; atr_pct := atr_pct s;
    adaptive_buy_threshold := adaptive_buy_threshold s;
    adaptive_sell_threshold := adaptive_sell_threshold s; paused := paused s;
    pause_reason := pause_reason s; last_update := last_update s |}.

Definition set_consecutive_losses (v : Z) (s : StrategyStateData) : StrategyStateData :=
  {| state := state s; last_peak := last_peak s; last_trough := last_trough s;
    last_buy_price := last_buy_price s; last_sell_price := last_sell_price s;
    current_position_qty := current_position_qty s; realized_pnl := realized_pnl s;
    unrealized_pnl := unrealized_pnl s; total_equity := total_equity s;
    peak_equity := peak_equity s; current_drawdown_pct := current_drawdown_pct s;
    consecutive_losses := v; consecutive_wins := consecutive_wins s;
    total_trades := total_trades s; winning_trades := winning_trades s; atr_pct := atr_pct s;
    adaptive_buy_threshold := adaptive_buy_threshold s;
    adaptive_sell_threshold := adaptive_sell_threshold s; paused := paused s;
    pause_reason := pause_reason s; last_update := last_update s |}.

Definition set_consecutive_wins (v : Z) (s : StrategyStateData) : StrategyStateData :=
  {| state := state s; last_peak := last_peak s; last_trough := last_trough s;
    last_buy_price := last_buy_price s; last_sell_price := last_sell_price s;
    current_position_qty := current_position_qty s; realized_pnl := realized_pnl s;
    unrealized_pnl := unrealized_pnl s; total_equity := total_equity s;
    peak_equity := peak_equity s; current_drawdown_pct := current_drawdown_pct s;
    consecutive_losses := consecutive_losses s; consecutive_wins := v;
    total_trades := total_trades s; winning_trades := winning_trades s; atr_pct := atr_pct s;
    adaptive_buy_threshold := adaptive_buy_threshold s;
    adaptive_sell_threshold := adaptive_sell_threshold s; paused := paused s;
    pause_reason := pause_reason s; last_update := last_update s |}.

Definition set_total_trades (v : Z) (s : StrategyStateData) : StrategyStateData :=
  {| state := state s; last_peak := last_peak s; last_trough := last_trough s;
    last_buy_price := last_buy_price s; last_sell_price := last_sell_price s;
    current_position_qty := current_position_qty s; realized_pnl := realized_pnl s;
    unrealized_pnl := unrealized_pnl s; total_equity := total_equity s;
    peak_equity := peak_equity s; current_drawdown_pct := current_drawdown_pct s;
    consecutive_losses := consecutive_losses s; consecutive_wins := consecutive_wins s;
    total_trades := v; winning_trades := winning_trades s; atr_pct := atr_pct s;
    adaptive_buy_threshold := adaptive_buy_threshold s;
    adaptive_sell_threshold := adaptive_sell_threshold s; paused := paused s;
    pause_reason := pause_reason s; last_update := last_update s |}.

Definition set_winning_trades (v : Z) (s : StrategyStateData) : StrategyStateData :=
  {| state := state s; last_peak := last_peak s; last_trough := last_trough s;
    last_buy_price := last_buy_price s; last_sell_price := last_sell_price s;
    current_position_qty := current_position_qty s; realized_pnl := realized_pnl s;
    unrealized_pnl := unrealized_pnl s; total_equity := total_equity s;
    peak_equity := peak_equity s; current_drawdown_pct := current_drawdown_pct s;
    consecutive_losses := consecutive_losses s; consecutive_wins := consecutive_wins s;
    total_trades := total_trades s; winning_trades := v; atr_pct := atr_pct s;
    adaptive_buy_threshold := adaptive_buy_threshold s;
    adaptive_sell_threshold := adaptive_sell_threshold s; paused := paused s;
    pause_reason := pause_reason s; last_update := last_update s |}.

Definition set_atr_pct (v : option Decimal) (s : StrategyStateData) : StrategyStateData :=
  {| state := state s; last_peak := last_peak s; last_trough := last_trough s;
    last_buy_price := last_buy_price s; last_sell_price := last_sell_price s;
    current_position_qty := current_position_qty s; realized_pnl := realized_pnl s;
    unrealized_pnl := unrealized_pnl s; total_equity := total_equity s;
    peak_equity := peak_equity s; current_drawdown_pct := current_drawdown_pct s;
    consecutive_losses := consecutive_losses s; consecutive_wins := consecutive_wins s;
    total_trades := total_trades s; winning_trades := winning_trades s; atr_pct := v;
    adaptive_buy_threshold := adaptive_buy_threshold s;
    adaptive_sell_threshold := adaptive_sell_threshold s; paused := paused s;
    pause_reason := pause_reason s; last_update := last_update s |}.

Definition set_adaptive_buy_threshold (v : option Decimal) (s : StrategyStateData) : StrategyStateData :=
  {| state := state s; last_peak := last_peak s; last_trough := last_trough s;
    last_buy_price := last_buy_price s; last_sell_price := last_sell_price s;
    current_position_qty := current_position_qty s; realized_pnl := realized_pnl s;
    unrealized_pnl := unrealized_pnl s; total_equity := total_equity s;
    peak_equity := peak_equity s; current_drawdown_pct := current_drawdown_pct s;
    consecutive_losses := consecutive_losses s; consecutive_wins := consecutive_wins s;
    total_trades := total_trades s; winning_trades := winning_trades s; atr_pct := atr_pct s;
    adaptive_buy_threshold := v; adaptive_sell_threshold := adaptive_sell_threshold s;
    paused := paused s; pause_reason := pause_reason s; last_update := last_update s |}.

Definition set_adaptive_sell_threshold (v : option Decimal) (s : StrategyStateData) : StrategyStateData :=
  {| state := state s; last_peak := last_peak s; last_trough := last_trough s;
    last_buy_price := last_buy_price s; last_sell_price := last_sell_price s;
    current_position_qty := current_position_qty s; realized_pnl := realized_pnl s;
    unrealized_pnl := unrealized_pnl s; total_equity := total_equity s;
    peak_equity := peak_equity s; current_drawdown_pct := current_drawdown_pct s;
    consecutive_losses := consecutive_losses s; consecutive_wins := consecutive_wins s;
    total_trades := total_trades s; winning_trades := winning_trades s; atr_pct := atr_pct s;
    adaptive_buy_threshold := adaptive_buy_threshold s; adaptive_sell_threshold := v;
    paused := paused s; pause_reason := pause_reason s; last_update := last_update s |}.

Definition set_paused (v : bool) (s : StrategyStateData) : StrategyStateData :=
  {| state := state s; last_peak := last_peak s; last_trough := last_trough s;
    last_buy_price := last_buy_price s; last_sell_price := last_sell_price s;
    current_position_qty := current_position_qty s; realized_pnl := realized_pnl s;
    unrealized_pnl := unrealized_pnl s; total_equity := total_equity s;
    peak_equity := peak_equity s; current_drawdown_pct := current_drawdown_pct s;
    consecutive_losses := consecutive_losses s; consecutive_wins := consecutive_wins s;
    total_trades := total_trades s; winning_trades := winning_trades s; atr_pct := atr_pct s;
    adaptive_buy_threshold := adaptive_buy_threshold s;
    adaptive_sell_threshold := adaptive_sell_threshold s; paused := v;
    pause_reason := pause_reason s; last_update := last_update s |}.

Definition set_pause_reason (v : option text) (s : StrategyStateData) : StrategyStateData :=
  {| state := state s; last_peak := last_peak s; last_trough := last_trough s;
    last_buy_price := last_buy_price s; last_sell_price := last_sell_price s;
    current_position_qty := current_position_qty s; realized_pnl := realized_pnl s;
    unrealized_pnl := unrealized_pnl s; total_equity := total_equity s;
    peak_equity := peak_equity s; current_drawdown_pct := current_drawdown_pct s;
    consecutive_losses := consecutive_losses s; consecutive_wins := consecutive_wins s;
    total_trades := total_trades s; winning_trades := winning_trades s; atr_pct := atr_pct s;
    adaptive_buy_threshold := adaptive_buy_threshold s;
    adaptive_sell_threshold := adaptive_sell_threshold s; paused := paused s;
    pause_reason := v; last_update := last_update s |}.

Definition set_last_update (v : datetime) (s : StrategyStateData) : StrategyStateData :=
  {| state := state s; last_peak := last_peak s; last_trough := last_trough s;
    last_buy_price := last_buy_price s; last_sell_price := last_sell_price s;
    current_position_qty := current_position_qty s; realized_pnl := realized_pnl s;
    unrealized_pnl := unrealized_pnl s; total_equity := total_equity s;
    peak_equity := peak_equity s; current_drawdown_pct := current_drawdown_pct s;
    consecutive_losses := consecutive_losses s; consecutive_wins := consecutive_wins s;
    total_trades := total_trades s; winning_trades := winning_trades s; atr_pct := atr_pct s;
    adaptive_buy_threshold := adaptive_buy_threshold s;
    adaptive_sell_threshold := adaptive_sell_threshold s; paused := paused s;
    pause_reason := pause_reason s; last_update := v |}.

Record MarketData : Type := {
  symbol : string;
  timestamp : datetime;
  bid : Decimal;
  ask : Decimal;
  last : Decimal;
  volume_24h : option Decimal
}.

Definition mid (m : MarketData) : Decimal := (bid m + ask m) / 2.

Definition spread_bps (m : MarketData) : Decimal :=
  if dec_eq (mid m) 0 then 0
  else ((ask m - bid m) / mid m) * 10000.

Record Signal : Type := {
  sig_timestamp : datetime;
  signal_type : SignalType;
  price : Decimal;
  reason : text;
  metadata : list (string * option Decimal)
}.

Record OrderRequest : Type := {
  side : Side;
  order_type : OrderType;
  qty : Decimal;
  limit_price : option Decimal;
  post_only : bool;
  timeout_seconds : Z;
  idempotency_key : option string
}.

Record OrderFill : Type := {
  order_id : string;
  fill_timestamp : datetime;
  fill_side : Side;
  fill_qty : Decimal;
  fill_price : Decimal;
  fee : Decimal;
  fee_asset : string
}.

(** One row of a candle frame: the columns the strategy reads. *)
Record Candle : Type := { high : Q; low : Q; close : Q }.
Definition DataFrame := list Candle.

End Models.
Import Models.

(* ------------------------------------------------------------------ *)
(** ** Strategy engine ([core/strategy.py]) *)

Module Strategy.

Record VolatilityHarvester : Type := {
  buy_threshold_pct : Decimal;
  sell_threshold_pct : Decimal;
  adaptive : bool;
  min_swing_pct : Decimal;
  max_swing_pct : Decimal
}.

(** [x.rolling(window).mean().iloc[-1]]: the mean of the last [window]
    entries, [None] (NaN) when fewer are available. *)
Definition Qsum (xs : list Q) : Q := fold_right Qplus 0 xs.

Definition rolling_mean_last (window : nat) (xs : list Q) : option Q :=
  if ((window =? 0) || (List.length xs <? window))%nat then None
  else Some (Qsum (skipn (List.length xs - window) xs) / inject_Z (Z.of_nat window)).

(** True range of a row given the previous close; the first row has no
    previous close and its NaN columns are skipped by [max(axis=1)]. *)
Definition true_range (prev_close : option Q) (c : Candle) : Q :=
  let high_low := high c - low c in
  match prev_close with
  | None => high_low
  | Some pc => Qmax high_low (Qmax (Qabs (high c - pc)) (Qabs (low c - pc)))
  end.

Fixpoint true_ranges (prev_close : option Q) (candles : DataFrame) : list Q :=
  match candles with
  | [] => []
  | c :: rest => true_range prev_close c :: true_ranges (Some (close c)) rest
  end.

Definition calculate_atr_pct (candles : DataFrame) (period : nat) : Decimal :=
  if (List.length candles <? period + 1)%nat then 0
  else
    match rolling_mean_last period (true_ranges None candles),
          List.last (map (fun c => Some (close c)) candles) None with
    | Some atr, Some current_price =>
        if dec_eq current_price 0 then 0
        else (atr / current_price) * 100
    | _, _ => 0
    end.

Definition adapt_thresholds (self : VolatilityHarvester) (atr_pct : Decimal)
  : Decimal * Decimal :=
  if negb (adaptive self) then (buy_threshold_pct self, sell_threshold_pct self)
  else
    let atr_min : Decimal := 2 in
    let atr_max : Decimal := 6 in
    let adapted_threshold :=
      if dec_le atr_pct atr_min then min_swing_pct self
      else if dec_ge atr_pct atr_max then max_swing_pct self
      else
        let ratio := (atr_pct - atr_min) / (atr_max - atr_min) in
        min_swing_pct self + ratio * (max_swing_pct self - min_swing_pct self) in
    (adapted_threshold, adapted_threshold).

Definition update_state_after_buy (s : StrategyStateData)
    (fill_price qty : Decimal) (timestamp : datetime) : StrategyStateData :=
  let s := set_state LONG s in
  let s := set_last_buy_price (Some fill_price) s in
  let s := set_current_position_qty qty s in
  let s := set_last_trough (Some fill_price) s in
  set_last_update timestamp s.

Definition update_state_after_sell (s : StrategyStateData)
    (fill_price realized_pnl : Decimal) (timestamp : datetime) : StrategyStateData :=
  let s := set_state FLAT s in
  let s := set_last_sell_price (Some fill_price) s in
  let s := set_current_position_qty 0 s in
  let s := set_realized_pnl (Models.realized_pnl s + realized_pnl) s in
  let s := set_last_peak (Some fill_price) s in
  let s := set_last_update timestamp s in
  let s :=
    if dec_gt realized_pnl 0 then
      let s := set_consecutive_wins (consecutive_wins s + 1)%Z s in
      let s := set_consecutive_losses 0%Z s in
      set_winning_trades (winning_trades s + 1)%Z s
    else
      let s := set_consecutive_losses (consecutive_losses s + 1)%Z s in
      set_consecutive_wins 0%Z s in
  set_total_trades (total_trades s + 1)%Z s.

Definition hold (ts : datetime) (p : Decimal) (why : text) : Signal :=
  {| sig_timestamp := ts; signal_type := HOLD; price := p; reason := why;
     metadata := [] |}.

(** [float(x) if x else None] *)
Definition float_if (x : option Decimal) : option Decimal :=
  if truthy x then x else None.

(** The rendering of an optional message inside an f-string. *)
Definition show_opt (t : option text) : text :=
  match t with
  | Some m => m
  | None => [NoneP]
  end.

Section WithSettings.

Variable settings : Config.Settings.

(** [VolatilityHarvester(buy, sell, adaptive, min_swing, max_swing)] *)
Definition new (buy sell : option Decimal) (adaptive : bool)
    (min_swing max_swing : option Decimal) : VolatilityHarvester :=
  {| buy_threshold_pct := or_else buy (Config.buy_threshold_pct settings);
     sell_threshold_pct := or_else sell (Config.sell_threshold_pct settings);
     adaptive := adaptive;
     min_swing_pct := or_else min_swing (Config.min_swing_pct settings);
     max_swing_pct := or_else max_swing (Config.max_swing_pct settings) |}.

(** A comparison with NaN is false.  Validated settings have
    [ma_long >= 100], so the frame is non-empty where the means are taken. *)
Definition check_trend_filter (candles : DataFrame) : bool :=
  if negb (Config.use_trend_filter settings) then true
  else if (List.length candles <? Config.ma_long settings)%nat then true
  else
    let closes := map close candles in
    match rolling_mean_last (Config.ma_short settings) closes,
          rolling_mean_last (Config.ma_long settings) closes with
    | Some ma_short, Some ma_long => dec_gt ma_short ma_long
    | _, _ => false
    end.

(** [generate_signal], with what [self.calculate_atr_pct] returns on a
    frame and a period given by [estimate]. *)
Definition generate_signal_with (estimate : DataFrame -> nat -> Decimal)
    (self : VolatilityHarvester) (s : StrategyStateData)
    (market_data : MarketData) (candles : option DataFrame)
  : result Signal * StrategyStateData :=
  let current_price := mid market_data in
  let ts := timestamp market_data in
  let '(atr_pct, buy_threshold, sell_threshold, s) :=
    match candles with
    | Some c =>
        if (15 <=? List.length c)%nat then
          let atr_pct := estimate c 14%nat in
          let s := set_atr_pct (Some atr_pct) s in
          let '(buy_threshold, sell_threshold) := adapt_thresholds self atr_pct in
          let s := set_adaptive_buy_threshold (Some buy_threshold) s in
          let s := set_adaptive_sell_threshold (Some sell_threshold) s in
          (Some atr_pct, buy_threshold, sell_threshold, s)
        else (None, buy_threshold_pct self, sell_threshold_pct self, s)
    | None => (None, buy_threshold_pct self, sell_threshold_pct self, s)
    end in
  if paused s then
    (Ok (hold ts current_price (Lit "Paused: " :: show_opt (pause_reason s))), s)
  else if match candles with
          | Some c => negb (check_trend_filter c)
          | None => false
          end then
    (Ok (hold ts current_price [Lit "Trend filter: bearish trend"]), s)
  else
    match state s with
    | FLAT =>
        let s :=
          if match last_peak s with
             | None => true
             | Some lp => dec_gt current_price lp
             end
          then set_last_peak (Some current_price) s else s in
        match last_peak s with
        | None => (Raise TypeError, s)
        | Some peak =>
            match dec_div (peak - current_price) peak with
            | Raise e => (Raise e, s)
            | Ok q =>
                let drop_pct := q * 100 in
                if dec_ge drop_pct buy_threshold then
                  (Ok {| sig_timestamp := ts; signal_type := BUY;
                         price := current_price;
                         reason := [Lit "Price dropped "; Fixed 2 drop_pct;
                                    Lit "% from peak $"; Fixed 2 peak];
                         metadata := [("drop_pct", Some drop_pct);
                                      ("peak_price", Some peak);
                                      ("buy_threshold", Some buy_threshold);
                                      ("atr_pct", float_if atr_pct)]%string |}, s)
                else (Ok (hold ts current_price [Lit "No trigger met"]), s)
            end
        end
    | LONG =>
        let s :=
          if match last_trough s with
             | None => true
             | Some lt => dec_lt current_price lt
             end
          then set_last_trough (Some current_price) s else s in
        match last_buy_price s with
        | None => (Ok (hold ts current_price [Lit "Missing buy price"]), s)
        | Some entry =>
            match dec_div (current_price - entry) entry with
            | Raise e => (Raise e, s)
            | Ok q =>
                let rise_pct := q * 100 in
                if dec_ge rise_pct sell_threshold then
                  (Ok {| sig_timestamp := ts; signal_type := SELL;
                         price := current_price;
                         reason := [Lit "Price rose "; Fixed 2 rise_pct;
                                    Lit "% from entry $"; Fixed 2 entry];
                         metadata := [("rise_pct", Some rise_pct);
                                      ("entry_price", Some entry);
                                      ("sell_threshold", Some sell_threshold);
                                      ("atr_pct", float_if atr_pct)]%string |}, s)
                else (Ok (hold ts current_price [Lit "No trigger met"]), s)
            end
        end
    | PAUSED => (Ok (hold ts current_price [Lit "No trigger met"]), s)
    end.

(** [generate_signal] on the exact ATR. *)
Definition generate_signal (self : VolatilityHarvester) (s : StrategyStateData)
    (market_data : MarketData) (candles : option DataFrame)
  : result Signal * StrategyStateData :=
  generate_signal_with calculate_atr_pct self s market_data candles.

(** [calculate_position_size], every operation rounded by [rnd]. *)
Definition calculate_position_size_with (rnd : Decimal -> Decimal)
    (available_capital current_price : Decimal)
    (reserve_pct : option Decimal) : result Decimal :=
  let reserve := or_else reserve_pct (Config.reserve_pct settings) in
  let deployable_capital :=
    rnd (rnd (available_capital * rnd (100 - reserve)) / 100) in
  if dec_le deployable_capital 0 then Ok 0
  else dec_div_with rnd deployable_capital current_price.

(** [calculate_position_size] in exact arithmetic. *)
Definition calculate_position_size (available_capital current_price : Decimal)
    (reserve_pct : option Decimal) : result Decimal :=
  let reserve := or_else reserve_pct (Config.reserve_pct settings) in
  let deployable_capital := available_capital * (100 - reserve) / 100 in
  if dec_le deployable_capital 0 then Ok 0
  else dec_div deployable_capital current_price.

End WithSettings.

End Strategy.

(* ------------------------------------------------------------------ *)
(** ** Risk manager ([core/risk.py]) *)

Module Risk.

Record RiskManager : Type := {
  daily_pnl_reset_time : option datetime;
  daily_pnl : Decimal
}.

Definition new : RiskManager :=
  {| daily_pnl_reset_time := None; daily_pnl := 0 |}.

(** [t.date()] as a day number, and [(a - b).total_seconds()]. *)
Definition date (t : datetime) : Z := (t / 86400000000)%Z.
Definition total_seconds (a b : datetime) : Q := inject_Z (a - b) / 1000000.

(** [needle in reason.lower()]; the reason is never [None] where this is
    evaluated. *)
Definition reason_mentions (needle : string) (reason : option text) : bool :=
  match reason with
  | Some t => in_lower needle t
  | None => false
  end.

Definition update_daily_pnl (self : RiskManager) (pnl : Decimal) : RiskManager :=
  {| daily_pnl_reset_time := daily_pnl_reset_time self;
     daily_pnl := daily_pnl self + pnl |}.

Definition update_drawdown (s : StrategyStateData) : StrategyStateData :=
  if dec_gt (total_equity s) (peak_equity s) then
    let s := set_peak_equity (total_equity s) s in
    set_current_drawdown_pct 0 s
  else if dec_gt (peak_equity s) 0 then
    let dd := (peak_equity s - total_equity s) / peak_equity s * 100 in
    set_current_drawdown_pct dd s
  else s.

Section WithSettings.

Variable settings : Config.Settings.

Definition check_drawdown (s : StrategyStateData) : bool * option text :=
  if dec_eq (peak_equity s) 0 then (false, None)
  else
    let current_dd_pct := current_drawdown_pct s in
    if dec_ge current_dd_pct (Config.max_drawdown_pct settings) then
      (true, Some [Lit "Drawdown "; Fixed 2 current_dd_pct;
                   Lit "% exceeds limit ";
                   Fixed 2 (Config.max_drawdown_pct settings); Lit "%"])
    else (false, None).

Definition check_consecutive_losses (s : StrategyStateData) : bool * option text :=
  if (Config.max_consecutive_losses settings <=? consecutive_losses s)%Z then
    (true, Some [Lit "Consecutive losses "; IntP (consecutive_losses s);
                 Lit " exceeds limit ";
                 IntP (Config.max_consecutive_losses settings)])
  else (false, None).

(** Reads the clock once ([now]) and may reset the daily counter. *)
Definition check_daily_loss_limit (self : RiskManager) (now : datetime)
    (s : StrategyStateData) : (bool * option text) * RiskManager :=
  let self :=
    if match daily_pnl_reset_time self with
       | None => true
       | Some t => (date t <? date now)%Z
       end
    then {| daily_pnl_reset_time := Some now; daily_pnl := 0 |}
    else self in
  if dec_eq (total_equity s) 0 then ((false, None), self)
  else
    let daily_loss_pct := Qabs (daily_pnl self / total_equity s * 100) in
    if dec_lt (daily_pnl self) 0
       && dec_ge daily_loss_pct (Config.daily_loss_limit_pct settings) then
      ((true, Some [Lit "Daily loss "; Fixed 2 daily_loss_pct;
                    Lit "% exceeds limit ";
                    Fixed 2 (Config.daily_loss_limit_pct settings); Lit "%"]),
       self)
    else ((false, None), self).

Definition check_volatility_bounds (atr_pct : option Decimal) : bool * option text :=
  match atr_pct with
  | None => (false, None)
  | Some atr_pct =>
      if dec_lt atr_pct (Config.min_activity_pct settings) then
        (true, Some [Lit "ATR "; Fixed 2 atr_pct; Lit "% below minimum ";
                     Fixed 2 (Config.min_activity_pct settings);
                     Lit "% (too choppy)"])
      else if dec_gt atr_pct (Config.max_activity_pct settings) then
        (true, Some [Lit "ATR "; Fixed 2 atr_pct; Lit "% above maximum ";
                     Fixed 2 (Config.max_activity_pct settings);
                     Lit "% (too volatile)"])
      else (false, None)
  end.

Definition check_spread (market_data : MarketData) : bool * option text :=
  let spread_bps := Models.spread_bps market_data in
  if dec_gt spread_bps (inject_Z (Config.max_spread_bps settings)) then
    (true, Some [Lit "Spread "; Fixed 1 spread_bps; Lit " bps exceeds limit ";
                 IntP (Config.max_spread_bps settings); Lit " bps"])
  else (false, None).

(** Reads the clock once ([now]) when a heartbeat is present. *)
Definition check_stale_data (now : datetime) (last_heartbeat : option datetime)
  : bool * option text :=
  match last_heartbeat with
  | None => (true, Some [Lit "No heartbeat received"])
  | Some hb =>
      let time_since_heartbeat := total_seconds now hb in
      if dec_gt time_since_heartbeat
                (inject_Z (Config.max_ws_stale_seconds settings)) then
        (true, Some [Lit "Data stale for "; Fixed 1 time_since_heartbeat;
                     Lit "s (limit ";
                     IntP (Config.max_ws_stale_seconds settings); Lit "s)"])
      else (false, None)
  end.

(** The two clock readings of one evaluation are the arguments
    [now_daily] (daily-loss check) and [now_stale] (heartbeat check). *)
Definition check_all_circuit_breakers (self : RiskManager)
    (now_daily now_stale : datetime) (s : StrategyStateData)
    (market_data : MarketData) (last_heartbeat : option datetime)
  : (bool * option CircuitBreakerReason * option text) * RiskManager :=
  let '(should_pause, reason) := check_drawdown s in
  if should_pause then ((true, Some MAX_DRAWDOWN, reason), self)
  else
  let '(should_pause, reason) := check_consecutive_losses s in
  if should_pause then ((true, Some CONSECUTIVE_LOSSES, reason), self)
  else
  let '((should_pause, reason), self) := check_daily_loss_limit self now_daily s in
  if should_pause then ((true, Some DAILY_LOSS_LIMIT, reason), self)
  else
  let '(should_pause, reason) := check_volatility_bounds (atr_pct s) in
  if should_pause then
    if reason_mentions "too choppy" reason
    then ((true, Some LOW_VOLATILITY, reason), self)
    else ((true, Some HIGH_VOLATILITY, reason), self)
  else
  let '(should_pause, reason) := check_spread market_data in
  if should_pause then ((true, Some SPREAD_TOO_WIDE, reason), self)
  else
  let '(should_pause, reason) := check_stale_data now_stale last_heartbeat in
  if should_pause then ((true, Some STALE_DATA, reason), self)
  else ((false, None, None), self).

Definition should_flatten_position (self : RiskManager)
    (now_daily now_stale : datetime) (s : StrategyStateData)
    (market_data : MarketData) (last_heartbeat : option datetime)
  : (bool * option text) * RiskManager :=
  let '((should_pause, cb_reason, reason_text), self) :=
    check_all_circuit_breakers self now_daily now_stale s market_data
      last_heartbeat in
  if should_pause then
    match cb_reason with
    | Some MAX_DRAWDOWN | Some STALE_DATA => ((true, reason_text), self)
    | _ => ((false, None), self)
    end
  else ((false, None), self).

End WithSettings.

(** [(is_valid, error_reason, adjusted_qty)]; the floor division raises on
    a zero lot size. *)
Definition validate_order_size (qty price min_notional lot_size : Decimal)
  : result (bool * option text * Decimal) :=
  let notional := qty * price in
  if dec_lt notional min_notional then
    Ok (false,
        Some [Lit "Notional $"; Fixed 2 notional; Lit " below minimum $";
              Fixed 2 min_notional], 0)
  else
    match dec_floordiv qty lot_size with
    | Raise e => Raise e
    | Ok n =>
        let adjusted_qty := n * lot_size in
        if dec_le adjusted_qty 0 then
          Ok (false, Some [Lit "Quantity too small after rounding to lot size"], 0)
        else Ok (true, None, adjusted_qty)
    end.

End Risk.

(* ------------------------------------------------------------------ *)
(** ** Ledger ([core/portfolio.py]) *)

Module Portfolio.

Record Portfolio : Type := {
  cash : Decimal;
  btc : Decimal;
  initial_equity : Decimal;
  realized_pnl : Decimal
}.

Definition new (initial_cash initial_btc : Decimal) : Portfolio :=
  {| cash := initial_cash; btc := initial_btc;
     initial_equity := initial_cash; realized_pnl := 0 |}.

Definition get_equity (self : Portfolio) (btc_price : Decimal) : Decimal :=
  cash self + (btc self * btc_price).

Definition get_unrealized_pnl (self : Portfolio) (btc_price : Decimal) : Decimal :=
  let current_equity := get_equity self btc_price in
  current_equity - initial_equity self - realized_pnl self.

(** Returns the total cost, or raises [ValueError] and leaves the ledger
    as it was. *)
Definition execute_buy (self : Portfolio) (qty price fee : Decimal)
  : result Decimal * Portfolio :=
  let cost := qty * price in
  let total_cost := cost + fee in
  if dec_lt (cash self) total_cost then
    (Raise (ValueError [Lit "Insufficient cash: have $"; Fixed 2 (cash self);
                        Lit ", need $"; Fixed 2 total_cost]), self)
  else
    (Ok total_cost,
     {| cash := cash self - total_cost; btc := btc self + qty;
        initial_equity := initial_equity self;
        realized_pnl := realized_pnl self |}).

(** Returns the net proceeds, or raises [ValueError] and leaves the ledger
    as it was. *)
Definition execute_sell (self : Portfolio) (qty price fee : Decimal)
  : result Decimal * Portfolio :=
  if dec_lt (btc self) qty then
    (Raise (ValueError [Lit "Insufficient BTC: have "; Fixed 8 (btc self);
                        Lit ", need "; Fixed 8 qty]), self)
  else
    let revenue := qty * price in
    let net_proceeds := revenue - fee in
    (Ok net_proceeds,
     {| cash := cash self + net_proceeds; btc := btc self - qty;
        initial_equity := initial_equity self;
        realized_pnl := realized_pnl self + (net_proceeds - (qty * price)) |}).

Definition sync_state (self : Portfolio) (s : StrategyStateData)
    (btc_price : Decimal) : StrategyStateData :=
  let s := set_total_equity (get_equity self btc_price) s in
  let s := set_unrealized_pnl (get_unrealized_pnl self btc_price) s in
  let s := set_realized_pnl (realized_pnl self) s in
  let s := set_current_position_qty (btc self) s in
  let s :=
    if dec_gt (total_equity s) (peak_equity s)
    then set_peak_equity (total_equity s) s else s in
  if dec_gt (peak_equity s) 0 then
    let dd_pct := ((peak_equity s - total_equity s) / peak_equity s) * 100 in
    set_current_drawdown_pct dd_pct s
  else set_current_drawdown_pct 0 s.

End Portfolio.


(* ------------------------------------------------------------------ *)
(** ** Fees and slippage ([core/fees.py], [core/slippage.py]) *)

Module Fees.

(** [calculate_trading_fee] in exact arithmetic. *)
Definition calculate_trading_fee (settings : Config.Settings)
    (notional : Decimal) (is_maker : bool) : Decimal :=
  let fee_pct :=
    if is_maker then Config.maker_fee_pct settings
    else Config.taker_fee_pct settings in
  notional * (fee_pct / 100).

Definition adjust_fill_price_for_slippage (settings : Config.Settings)
    (price : Decimal) (side : Side) (atr_pct : Decimal) (is_maker : bool)
  : Decimal :=
  if is_maker then price
  else
    let base_slippage_bps := inject_Z (Config.taker_slippage_bps settings) in
    let volatility_slippage_bps := (atr_pct / 5) * 5 in
    let total_slippage_bps := base_slippage_bps + volatility_slippage_bps in
    let slippage_pct := total_slippage_bps / 10000 in
    match side with
    | BUY_SIDE => price * (1 + slippage_pct)
    | SELL_SIDE => price * (1 - slippage_pct)
    end.

(** [estimate_slippage]: the slippage of an order in USD. *)
Definition estimate_slippage (settings : Config.Settings)
    (price qty atr_pct : Decimal) (is_maker : bool) : Decimal :=
  if is_maker then 0
  else
    let base_slippage_bps := inject_Z (Config.taker_slippage_bps settings) in
    let volatility_slippage_bps := (atr_pct / 5) * 5 in
    let total_slippage_bps := base_slippage_bps + volatility_slippage_bps in
    let slippage_pct := total_slippage_bps / 10000 in
    price * qty * slippage_pct.

(** [calculate_trading_fee], every operation rounded by [rnd]. *)
Definition calculate_trading_fee_with (rnd : Decimal -> Decimal)
    (settings : Config.Settings) (notional : Decimal) (is_maker : bool)
  : Decimal :=
  let fee_pct :=
    if is_maker then Config.maker_fee_pct settings
    else Config.taker_fee_pct settings in
  rnd (notional * rnd (fee_pct / 100)).

(** [calculate_round_trip_cost], every operation rounded by [rnd]:
    [(total_fees, total_fees_pct_of_notional)]; a zero notional raises in
    the division. *)
Definition calculate_round_trip_cost_with (rnd : Decimal -> Decimal)
    (settings : Config.Settings)
    (entry_price qty : Decimal) (maker_entry maker_exit : bool)
  : result (Decimal * Decimal) :=
  let notional := rnd (entry_price * qty) in
  let entry_fee := calculate_trading_fee_with rnd settings notional maker_entry in
  let exit_fee := calculate_trading_fee_with rnd settings notional maker_exit in
  let total_fees := rnd (entry_fee + exit_fee) in
  match dec_div_with rnd total_fees notional with
  | Raise e => Raise e
  | Ok q => Ok (total_fees, rnd (q * 100))
  end.

(** [minimum_profitable_move], every operation rounded by [rnd]. *)
Definition minimum_profitable_move_with (rnd : Decimal -> Decimal)
    (settings : Config.Settings)
    (is_maker_entry is_maker_exit : bool) : result Decimal :=
  let entry_fee_pct :=
    if is_maker_entry then Config.maker_fee_pct settings
    else Config.taker_fee_pct settings in
  let exit_fee_pct :=
    if is_maker_exit then Config.maker_fee_pct settings
    else Config.taker_fee_pct settings in
  let total_fee_pct := rnd (entry_fee_pct + exit_fee_pct) in
  dec_div_with rnd total_fee_pct (rnd (1 - rnd (exit_fee_pct / 100))).

End Fees.

(* ------------------------------------------------------------------ *)
(** ** What the drivers do around a sell
       ([services/paper_trader.py], [services/live_trader.py],
        [services/backtester.py]) *)

Module Drivers.

(** A Python number is a Decimal or a float; [-] between the two kinds
    raises [TypeError]. *)
Inductive number : Type :=
| DecimalValue (d : Decimal)
| FloatValue (f : Q).

Definition number_sub (a b : number) : result number :=
  match a, b with
  | DecimalValue x, DecimalValue y => Ok (DecimalValue (x - y))
  | FloatValue x, FloatValue y => Ok (FloatValue (x - y))
  | _, _ => Raise TypeError
  end.

(** [float(d)] and [Decimal(str(x))]. *)
Definition to_float (d : Decimal) : number := FloatValue d.
Definition decimal_of_str (x : number) : Decimal :=
  match x with
  | DecimalValue d => d
  | FloatValue f => f
  end.

(** The P&L that [_execute_sell] of the paper and live traders computes
    from a sell fill. *)
Definition trader_realized_pnl (s : StrategyStateData) (fill : OrderFill)
  : Decimal :=
  match last_buy_price s with
  | Some entry_price =>
      if truthy (last_buy_price s) then
        let entry_cost := entry_price * fill_qty fill in
        let exit_revenue := fill_price fill * fill_qty fill - fee fill in
        exit_revenue - entry_cost
      else 0
  | None => 0
  end.

(** [_execute_sell] from the fill onwards. *)
Definition trader_book_sell (s : StrategyStateData) (rm : Risk.RiskManager)
    (fill : OrderFill) : StrategyStateData * Risk.RiskManager :=
  let realized_pnl := trader_realized_pnl s fill in
  (Strategy.update_state_after_sell s (fill_price fill) realized_pnl
     (fill_timestamp fill),
   Risk.update_daily_pnl rm realized_pnl).

(** The sell branch of [Backtester.run] for one candle: [price] is the
    close, [is_maker] the outcome of the random draw.  A [ValueError] of
    the ledger is caught and logged; anything else propagates. *)
Definition backtester_sell (settings : Config.Settings)
    (s : StrategyStateData) (portfolio : Portfolio.Portfolio)
    (rm : Risk.RiskManager) (price atr_pct : Decimal) (is_maker : bool)
    (timestamp : datetime)
  : result (StrategyStateData * Portfolio.Portfolio * Risk.RiskManager) :=
  let qty := Portfolio.btc portfolio in
  if dec_gt qty 0 then
    let fill_price :=
      Fees.adjust_fill_price_for_slippage settings price SELL_SIDE atr_pct is_maker in
    let notional := qty * fill_price in
    let fee := Fees.calculate_trading_fee settings notional is_maker in
    match last_buy_price s with
    | None => Raise TypeError
    | Some entry_price =>
        let entry_cost := entry_price * qty in
        let exit_revenue := fill_price * qty - fee in
        match number_sub (DecimalValue exit_revenue) (to_float entry_cost) with
        | Raise e => Raise e
        | Ok realized_pnl =>
            match Portfolio.execute_sell portfolio qty fill_price fee with
            | (Ok _, portfolio) =>
                let pnl := decimal_of_str realized_pnl in
                Ok (Strategy.update_state_after_sell s fill_price pnl timestamp,
                    portfolio, Risk.update_daily_pnl rm pnl)
            | (Raise (ValueError _), portfolio) => Ok (s, portfolio, rm)
            | (Raise e, _) => Raise e
            end
        end
    end
  else Ok (s, portfolio, rm).

(** The quote [Backtester.run] builds around a close: a spread of 5 basis
    points of the price. *)
Definition backtester_quote (symbol : string) (timestamp : datetime)
    (price : Decimal) : MarketData :=
  let spread := price * 0.0005 in
  {| Models.symbol := symbol; Models.timestamp := timestamp;
     bid := price - spread / 2; ask := price + spread / 2; last := price;
     volume_24h := None |}.

(** One candle of [Backtester.run] up to the signal: the quote, the ATR
    stored on the state, the breakers evaluated with the candle's timestamp
    as heartbeat, the pause flag, the signal. *)
Definition backtester_observe (settings : Config.Settings)
    (strategy : Strategy.VolatilityHarvester) (rm : Risk.RiskManager)
    (now_daily now_stale : datetime) (s : StrategyStateData)
    (symbol : string) (timestamp : datetime) (price : Decimal)
    (recent_candles : DataFrame)
  : result Signal * StrategyStateData * Risk.RiskManager :=
  let market_data := backtester_quote symbol timestamp price in
  let atr_pct := Strategy.calculate_atr_pct recent_candles 14 in
  let s := set_atr_pct (Some atr_pct) s in
  let '((should_pause, cb_reason, reason), rm) :=
    Risk.check_all_circuit_breakers settings rm now_daily now_stale s
      market_data (Some timestamp) in
  let s :=
    if should_pause && negb (paused s) then
      set_pause_reason reason (set_paused true s)
    else s in
  let '(signal, s) :=
    Strategy.generate_signal settings strategy s market_data
      (Some recent_candles) in
  (signal, s, rm).

(** The buy branch of [Backtester.run] for one candle. *)
Definition backtester_buy (settings : Config.Settings)
    (reserve_pct : Decimal) (s : StrategyStateData)
    (portfolio : Portfolio.Portfolio) (price atr_pct : Decimal)
    (is_maker : bool) (timestamp : datetime)
  : result (StrategyStateData * Portfolio.Portfolio) :=
  let available_cash := Portfolio.cash portfolio in
  match Strategy.calculate_position_size settings available_cash price
          (Some reserve_pct) with
  | Raise e => Raise e
  | Ok qty =>
      if dec_gt qty 0 then
        let fill_price :=
          Fees.adjust_fill_price_for_slippage settings price BUY_SIDE atr_pct
            is_maker in
        let notional := qty * fill_price in
        let fee := Fees.calculate_trading_fee settings notional is_maker in
        match Portfolio.execute_buy portfolio qty fill_price fee with
        | (Ok _, portfolio) =>
            Ok (Strategy.update_state_after_buy s fill_price qty timestamp,
                portfolio)
        | (Raise (ValueError _), portfolio) => Ok (s, portfolio)
        | (Raise e, _) => Raise e
        end
      else Ok (s, portfolio)
  end.

End Drivers.

(* ------------------------------------------------------------------ *)
(** ** Execution engine ([core/execution.py]) over an exchange adapter
       ([adapters/exchange_base.py]) *)

Module Execution.

Section Engine.

(** Everything outside the engine: the exchange, the clock, the other
    tasks of the event loop. *)
Variable World : Type.

(** An awaited computation: it runs on the world and returns or raises.
    Loops are cut off by a bound on their iterations; [None] means the
    bound was reached. *)
Definition Task (A : Type) : Type := World -> option (result A * World).

Definition ret {A : Type} (a : A) : Task A := fun w => Some (Ok a, w).

Definition bind {A B : Type} (t : Task A) (k : A -> Task B) : Task B :=
  fun w =>
    match t w with
    | None => None
    | Some (Ok a, w') => k a w'
    | Some (Raise e, w') => Some (Raise e, w')
    end.

Definition call {A : Type} (op : World -> result A * World) : Task A :=
  fun w => Some (op w).

Definition draw {A : Type} (op : World -> A * World) : Task A :=
  fun w => let '(a, w') := op w in Some (Ok a, w').

Definition lift {A : Type} (r : result A) : Task A := fun w => Some (r, w).

(** [try: body except Exception as e: handler(e)] *)
Definition try_except {A : Type} (body : Task A) (handler : exn -> Task A)
  : Task A :=
  fun w =>
    match body w with
    | None => None
    | Some (Ok a, w') => Some (Ok a, w')
    | Some (Raise e, w') => handler e w'
    end.

Notation "x <- t ;; k" := (bind t (fun x => k))
  (at level 100, t at next level, right associativity).

(** The abstract methods of [ExchangeAdapter] that the engine calls. *)
Class ExchangeAdapter : Type := {
  place_order : string -> OrderRequest -> World -> result string * World;
  cancel_order : string -> string -> World -> result bool * World;
  get_order_status : string -> string -> World -> result OrderStatus * World;
  get_order_fills : string -> string -> World -> result (list OrderFill) * World;
  get_min_notional : string -> Decimal;
  get_lot_size : string -> Decimal;
  get_price_precision : string -> Z
}.

(** [datetime.utcnow()], [asyncio.sleep(seconds)], [uuid.uuid4().hex[:16]]. *)
Class Runtime : Type := {
  utcnow : World -> datetime;
  sleep : Q -> World -> World;
  uuid4_hex16 : World -> string * World
}.

Context {exchange : ExchangeAdapter} {runtime : Runtime}.

Variable settings : Config.Settings.

(** [ExchangeAdapter.round_price]: [Decimal(str(round(float(price),
    precision)))], the rounding done on the float. *)
Definition round_price (symbol : string) (price : Decimal) : Decimal :=
  let precision := get_price_precision symbol in
  float_repr (float_round (to_float price) precision).

(** [ExchangeAdapter.round_quantity]: [(qty // lot_size) * lot_size]. *)

Definition round_quantity (symbol : string) (qty : Decimal) : result Decimal :=
  let lot_size := get_lot_size symbol in
  match dec_floordiv qty lot_size with
  | Ok n => Ok (n * lot_size)
  | Raise e => Raise e
  end.

Record ExecutionEngine : Type := { symbol : string }.

Definition calculate_fee (notional : Decimal) (is_maker : bool) : Decimal :=
  let fee_pct :=
    if is_maker then Config.maker_fee_pct settings / 100
    else Config.taker_fee_pct settings / 100 in
  notional * fee_pct.

(** The polling loop of [_wait_for_fill]; [polls] bounds its iterations. *)
Fixpoint wait_loop (polls : nat) (self : ExecutionEngine) (order_id : string)
    (start_time : datetime) (timeout : Z) : Task (option OrderFill) :=
  fun w =>
    match polls with
    | O => None
    | S polls =>
        if dec_lt (Risk.total_seconds (utcnow w) start_time) (inject_Z timeout) then
          (status <- call (get_order_status (symbol self) order_id) ;;
           match status with
           | FILLED =>
               fills <- call (get_order_fills (symbol self) order_id) ;;
               match fills with
               | f :: _ => ret (Some f)
               | [] => ret None
               end
           | CANCELLED | REJECTED | EXPIRED => ret None
           | _ =>
               fun w => wait_loop polls self order_id start_time timeout
                          (sleep (1 # 2) w)
           end) w
        else ret None w
    end.

Definition wait_for_fill (polls : nat) (self : ExecutionEngine)
    (order_id : string) (timeout : Z) : Task (option OrderFill) :=
  fun w => wait_loop polls self order_id (utcnow w) timeout w.

Definition Outcome : Type := bool * option OrderFill * option text.

Definition execute_buy (polls : nat) (self : ExecutionEngine) (qty : Decimal)
    (market_data : MarketData) (maker_first : bool) : Task Outcome :=
  qty <- lift (round_quantity (symbol self) qty) ;;
  let min_notional := get_min_notional (symbol self) in
  let notional := qty * ask market_data in
  if dec_lt notional min_notional then
    ret (false, None,
         Some [Lit "Order size $"; Fixed 2 notional; Lit " below minimum $";
               Fixed 2 min_notional])
  else
    maker <-
      (if maker_first && Config.maker_first settings then
         let limit_price :=
           bid market_data + (ask market_data - bid market_data) * 0.25 in
         let limit_price := round_price (symbol self) limit_price in
         key <- draw uuid4_hex16 ;;
         let order :=
           {| side := BUY_SIDE; order_type := POST_ONLY; Models.qty := qty;
              limit_price := Some limit_price; post_only := true;
              timeout_seconds := Config.order_timeout_seconds settings;
              idempotency_key := Some ("buy_" ++ key)%string |} in
         try_except
           (order_id <- call (place_order (symbol self) order) ;;
            fill <- wait_for_fill polls self order_id (timeout_seconds order) ;;
            match fill with
            | Some f => ret (Some (true, Some f, None))
            | None =>
                _ <- call (cancel_order (symbol self) order_id) ;;
                ret None
            end)
           (fun _ => ret None)
       else ret None) ;;
    match maker with
    | Some outcome => ret outcome
    | None =>
        let estimated_price :=
          ask market_data
          * (1 + inject_Z (Config.taker_slippage_bps settings) / 10000) in
        key <- draw uuid4_hex16 ;;
        let order :=
          {| side := BUY_SIDE; order_type := MARKET; Models.qty := qty;
             limit_price := Some estimated_price; post_only := false;
             timeout_seconds := 30;
             idempotency_key := Some ("buy_mkt_" ++ key)%string |} in
        try_except
          (order_id <- call (place_order (symbol self) order) ;;
           fill <- wait_for_fill polls self order_id 10 ;;
           match fill with
           | Some f => ret (true, Some f, None)
           | None => ret (false, None, Some [Lit "Market order failed to fill"])
           end)
          (fun e =>
             ret (false, None, Some (Lit "Buy execution failed: " :: str_exn e)))
    end.

Definition execute_sell (polls : nat) (self : ExecutionEngine) (qty : Decimal)
    (market_data : MarketData) (maker_first : bool) : Task Outcome :=
  qty <- lift (round_quantity (symbol self) qty) ;;
  let min_notional := get_min_notional (symbol self) in
  let notional := qty * bid market_data in
  if dec_lt notional min_notional then
    ret (false, None,
         Some [Lit "Order size $"; Fixed 2 notional; Lit " below minimum $";
               Fixed 2 min_notional])
  else
    maker <-
      (if maker_first && Config.maker_first settings then
         let limit_price :=
           ask market_data - (ask market_data - bid market_data) * 0.25 in
         let limit_price := round_price (symbol self) limit_price in
         key <- draw uuid4_hex16 ;;
         let order :=
           {| side := SELL_SIDE; order_type := POST_ONLY; Models.qty := qty;
              limit_price := Some limit_price; post_only := true;
              timeout_seconds := Config.order_timeout_seconds settings;
              idempotency_key := Some ("sell_" ++ key)%string |} in
         try_except
           (order_id <- call (place_order (symbol self) order) ;;
            fill <- wait_for_fill polls self order_id (timeout_seconds order) ;;
            match fill with
            | Some f => ret (Some (true, Some f, None))
            | None =>
                _ <- call (cancel_order (symbol self) order_id) ;;
                ret None
            end)
           (fun _ => ret None)
       else ret None) ;;
    match maker with
    | Some outcome => ret outcome
    | None =>
        let estimated_price :=
          bid market_data
          * (1 - inject_Z (Config.taker_slippage_bps settings) / 10000) in
        key <- draw uuid4_hex16 ;;
        let order :=
          {| side := SELL_SIDE; order_type := MARKET; Models.qty := qty;
             limit_price := Some estimated_price; post_only := false;
             timeout_seconds := 30;
             idempotency_key := Some ("sell_mkt_" ++ key)%string |} in
        try_except
          (order_id <- call (place_order (symbol self) order) ;;
           fill <- wait_for_fill polls self order_id 10 ;;
           match fill with
           | Some f => ret (true, Some f, None)
           | None => ret (false, None, Some [Lit "Market order failed to fill"])
           end)
          (fun e =>
             ret (false, None, Some (Lit "Sell execution failed: " :: str_exn e)))
    end.

Definition execute_signal (polls : nat) (self : ExecutionEngine)
    (signal : Signal) (qty : Decimal) (market_data : MarketData) : Task Outcome :=
  match signal_type signal with
  | BUY => execute_buy polls self qty market_data true
  | SELL => execute_sell polls self qty market_data true
  | HOLD => ret (false, None, Some [Lit "Invalid signal type: hold"])
  end.

End Engine.

Arguments ret {World A} a.
Arguments bind {World A B} t k.
Arguments call {World A} op.
Arguments draw {World A} op.
Arguments lift {World A} r.
Arguments try_except {World A} body handler.
Arguments place_order {World ExchangeAdapter} _ _ _.
Arguments cancel_order {World ExchangeAdapter} _ _ _.
Arguments get_order_status {World ExchangeAdapter} _ _ _.
Arguments get_order_fills {World ExchangeAdapter} _ _ _.
Arguments get_min_notional {World ExchangeAdapter} _.
Arguments get_lot_size {World ExchangeAdapter} _.
Arguments get_price_precision {World ExchangeAdapter} _.
Arguments utcnow {World Runtime} _.
Arguments sleep {World Runtime} _ _.
Arguments uuid4_hex16 {World Runtime} _.
Arguments execute_buy {World exchange runtime} settings polls self qty
  market_data maker_first.
Arguments execute_sell {World exchange runtime} settings polls self qty
  market_data maker_first.
Arguments execute_signal {World exchange runtime} settings polls self signal
  qty market_data.
Arguments wait_loop {World exchange runtime} polls self order_id start_time
  timeout.
Arguments wait_for_fill {World exchange runtime} polls self order_id timeout.
Arguments round_quantity {World exchange} symbol qty.
Arguments round_price {World exchange} symbol price.

End Execution.

(* ------------------------------------------------------------------ *)
(** ** The simulated exchange ([adapters/fake_exchange.py])

    The order book of [FakeExchange] with its price held still: the
    background price walk, run by another task, is not part of it, so a
    resting limit order stays open.  Balances are the USD and BTC entries
    of the dictionary. *)

Module FakeExchange.

Record Order : Type := {
  id : string;
  order_side : Side;
  kind : OrderType;
  order_qty : Decimal;
  order_price : option Decimal;
  status : OrderStatus
}.

Record World : Type := {
  now : datetime;
  current_price : Decimal;
  usd : Decimal;
  btc : Decimal;
  orders : list Order;
  fills : list (string * OrderFill);
  uuids : nat
}.

Definition maker_fee : Decimal := 0.001.
Definition taker_fee : Decimal := 0.003.

(** A world with 10000 USD, no BTC and no orders. *)
Definition opened (price : Decimal) : World :=
  {| now := 0%Z; current_price := price; usd := 10000; btc := 0;
     orders := []; fills := []; uuids := 0 |}.

Definition next_uuid (w : World) : string * World :=
  (NilEmpty.string_of_uint (Nat.to_uint (uuids w)),
   {| now := now w; current_price := current_price w; usd := usd w;
      btc := btc w; orders := orders w; fills := fills w;
      uuids := S (uuids w) |}).

Definition with_status (st : OrderStatus) (o : Order) : Order :=
  {| id := id o; order_side := order_side o; kind := kind o;
     order_qty := order_qty o; order_price := order_price o; status := st |}.

Definition find_order (order_id : string) (w : World) : option Order :=
  find (fun o => String.eqb (id o) order_id) (orders w).

(** [self.orders[order_id] = order] *)
Definition store_order (o : Order) (w : World) : World :=
  {| now := now w; current_price := current_price w; usd := usd w;
     btc := btc w;
     orders := o :: filter (fun x => negb (String.eqb (id x) (id o))) (orders w);
     fills := fills w; uuids := uuids w |}.

Definition settle (o : Order) (usd' btc' : Decimal) (f : OrderFill) (w : World)
  : World :=
  store_order (with_status FILLED o)
    {| now := now w; current_price := current_price w; usd := usd'; btc := btc';
       orders := orders w; fills := fills w ++ [(id o, f)]; uuids := uuids w |}.

(** [_fill_order]: fills against the balances or rejects the order.  The
    order always carries a price entry, which may be [None]; multiplying by
    it then raises. *)
Definition fill_order (o : Order) (w : World) : result unit * World :=
  let qty := order_qty o in
  let fee_rate :=
    match kind o with
    | MARKET => taker_fee
    | _ => maker_fee
    end in
  match order_side o with
  | BUY_SIDE =>
      match order_price o with
      | None => (Raise TypeError, w)
      | Some price =>
          let cost := qty * price in
          let fee := cost * fee_rate in
          let total_cost := cost + fee in
          if dec_ge (usd w) total_cost then
            (Ok tt,
             settle o (usd w - total_cost) (btc w + qty)
               {| order_id := id o; fill_timestamp := now w;
                  fill_side := BUY_SIDE; fill_qty := qty; fill_price := price;
                  Models.fee := fee; fee_asset := "USD" |} w)
          else (Ok tt, store_order (with_status REJECTED o) w)
      end
  | SELL_SIDE =>
      if dec_ge (btc w) qty then
        match order_price o with
        | None => (Raise TypeError, w)
        | Some price =>
            let revenue := qty * price in
            let fee := revenue * fee_rate in
            let net_revenue := revenue - fee in
            (Ok tt,
             settle o (usd w + net_revenue) (btc w - qty)
               {| order_id := id o; fill_timestamp := now w;
                  fill_side := SELL_SIDE; fill_qty := qty; fill_price := price;
                  Models.fee := fee; fee_asset := "USD" |} w)
        end
      else (Ok tt, store_order (with_status REJECTED o) w)
  end.

Definition place_order (symbol : string) (order : OrderRequest) (w : World)
  : result string * World :=
  let '(order_id, w) := next_uuid w in
  let o := {| id := order_id; order_side := side order;
              kind := order_type order; order_qty := qty order;
              order_price := limit_price order; status := OPEN |} in
  let w := store_order o w in
  match order_type order with
  | MARKET =>
      match fill_order o w with
      | (Ok _, w) => (Ok order_id, w)
      | (Raise e, w) => (Raise e, w)
      end
  | _ => (Ok order_id, w)
  end.

Definition cancel_order (symbol order_id : string) (w : World)
  : result bool * World :=
  match find_order order_id w with
  | Some o =>
      match status o with
      | OPEN => (Ok true, store_order (with_status CANCELLED o) w)
      | _ => (Ok false, w)
      end
  | None => (Ok false, w)
  end.

Definition get_order_status (symbol order_id : string) (w : World)
  : result OrderStatus * World :=
  match find_order order_id w with
  | Some o => (Ok (status o), w)
  | None => (Ok REJECTED, w)
  end.

Definition get_order_fills (symbol order_id : string) (w : World)
  : result (list OrderFill) * World :=
  (Ok (map snd (filter (fun p => String.eqb (fst p) order_id) (fills w))), w).

(** [asyncio.sleep]: only the clock moves. *)
Definition sleep (seconds : Q) (w : World) : World :=
  {| now := (now w + Qfloor (seconds * 1000000))%Z;
     current_price := current_price w; usd := usd w; btc := btc w;
     orders := orders w; fills := fills w; uuids := uuids w |}.

#[export] Instance adapter : Execution.ExchangeAdapter World := {|
  Execution.place_order := place_order;
  Execution.cancel_order := cancel_order;
  Execution.get_order_status := get_order_status;
  Execution.get_order_fills := get_order_fills;
  Execution.get_min_notional := fun _ => 10;
  Execution.get_lot_size := fun _ => 0.00001;
  Execution.get_price_precision := fun _ => 2%Z
|}.

#[export] Instance runtime : Execution.Runtime World := {|
  Execution.utcnow := now;
  Execution.sleep := sleep;
  Execution.uuid4_hex16 := next_uuid
|}.

(** The engine of the traders. *)
Definition engine : Execution.ExecutionEngine := {| Execution.symbol := "BTC-USD" |}.

End FakeExchange.

(* ------------------------------------------------------------------ *)
(** ** Derived notions used in the statements *)

Module Spec.

Import Strategy.

(** The thresholds [generate_signal] works with: adapted from the ATR of
    the window when it has at least 15 rows, the configured ones otherwise. *)
Definition effective_thresholds (self : VolatilityHarvester)
    (candles : option DataFrame) : Decimal * Decimal :=
  match candles with
  | Some c =>
      if (15 <=? List.length c)%nat
      then adapt_thresholds self (calculate_atr_pct c 14)
      else (buy_threshold_pct self, sell_threshold_pct self)
  | None => (buy_threshold_pct self, sell_threshold_pct self)
  end.

(** The same for [generate_signal_with]: adapted from the estimate. *)
Definition thresholds_with (estimate : DataFrame -> nat -> Decimal)
    (self : VolatilityHarvester) (candles : option DataFrame)
  : Decimal * Decimal :=
  match candles with
  | Some c =>
      if (15 <=? List.length c)%nat
      then adapt_thresholds self (estimate c 14%nat)
      else (buy_threshold_pct self, sell_threshold_pct self)
  | None => (buy_threshold_pct self, sell_threshold_pct self)
  end.

(** The ATR bookkeeping that [generate_signal] performs on the state
    before anything else. *)
Definition refresh_volatility (self : VolatilityHarvester)
    (candles : option DataFrame) (s : StrategyStateData) : StrategyStateData :=
  match candles with
  | Some c =>
      if (15 <=? List.length c)%nat then
        let atr := calculate_atr_pct c 14 in
        set_adaptive_sell_threshold (Some (snd (adapt_thresholds self atr)))
          (set_adaptive_buy_threshold (Some (fst (adapt_thresholds self atr)))
             (set_atr_pct (Some atr) s))
      else s
  | None => s
  end.

(** The trend filter lets the evaluation through. *)
Definition trend_allows (settings : Config.Settings)
    (candles : option DataFrame) : bool :=
  match candles with
  | Some c => check_trend_filter settings c
  | None => true
  end.

(** The conditions of the six circuit breakers, on the state, the risk
    manager, the quote, the heartbeat and the clock. *)
Section Breakers.

Variable settings : Config.Settings.

Definition drawdown_breached (s : StrategyStateData) : Prop :=
  ~ peak_equity s == 0 /\
  Config.max_drawdown_pct settings <= current_drawdown_pct s.

Definition losses_breached (s : StrategyStateData) : Prop :=
  (Config.max_consecutive_losses settings <= consecutive_losses s)%Z.

(** The daily counter counts on the day of its last reset only: on the
    first call and on a later day it restarts at zero. *)
Definition daily_loss_breached (rm : Risk.RiskManager) (now : datetime)
    (s : StrategyStateData) : Prop :=
  (exists t, Risk.daily_pnl_reset_time rm = Some t /\
             (Risk.date now <= Risk.date t)%Z) /\
  ~ total_equity s == 0 /\
  Risk.daily_pnl rm < 0 /\
  Config.daily_loss_limit_pct settings
    <= Qabs (Risk.daily_pnl rm / total_equity s * 100).

Definition volatility_low (s : StrategyStateData) (a : Decimal) : Prop :=
  atr_pct s = Some a /\ a < Config.min_activity_pct settings.

Definition volatility_high (s : StrategyStateData) (a : Decimal) : Prop :=
  atr_pct s = Some a /\ Config.min_activity_pct settings <= a /\
  Config.max_activity_pct settings < a.

Definition volatility_in_band (s : StrategyStateData) : Prop :=
  match atr_pct s with
  | Some a =>
      Config.min_activity_pct settings <= a <= Config.max_activity_pct settings
  | None => True
  end.

Definition spread_breached (md : MarketData) : Prop :=
  inject_Z (Config.max_spread_bps settings) < spread_bps md.

Definition heartbeat_stale (now : datetime) (hb : option datetime) : Prop :=
  match hb with
  | Some t =>
      inject_Z (Config.max_ws_stale_seconds settings) < Risk.total_seconds now t
  | None => True
  end.

End Breakers.

(** Field-wise [==] of two states, as the dataclass [__eq__] computes it:
    Decimals compare by value. *)
Definition opt_eq (a b : option Decimal) : Prop :=
  match a, b with
  | Some x, Some y => x == y
  | None, None => True
  | _, _ => False
  end.

Definition state_eq (a b : StrategyStateData) : Prop :=
  state a = state b /\
  opt_eq (last_peak a) (last_peak b) /\
  opt_eq (last_trough a) (last_trough b) /\
  opt_eq (last_buy_price a) (last_buy_price b) /\
  opt_eq (last_sell_price a) (last_sell_price b) /\
  current_position_qty a == current_position_qty b /\
  Models.realized_pnl a == Models.realized_pnl b /\
  unrealized_pnl a == unrealized_pnl b /\
  total_equity a == total_equity b /\
  peak_equity a == peak_equity b /\
  current_drawdown_pct a == current_drawdown_pct b /\
  consecutive_losses a = consecutive_losses b /\
  consecutive_wins a = consecutive_wins b /\
  total_trades a = total_trades b /\
  winning_trades a = winning_trades b /\
  opt_eq (atr_pct a) (atr_pct b) /\
  opt_eq (adaptive_buy_threshold a) (adaptive_buy_threshold b) /\
  opt_eq (adaptive_sell_threshold a) (adaptive_sell_threshold b) /\
  paused a = paused b /\
  pause_reason a = pause_reason b /\
  last_update a = last_update b.

(** The two shapes of an execution outcome: a fill and no error, or no
    fill and an error message. *)
Definition well_formed (o : Execution.Outcome) : Prop :=
  match o with
  | (true, Some _, None) => True
  | (false, None, Some _) => True
  | _ => False
  end.

(** A task that returns an outcome of one of those shapes and does not
    raise. *)
Definition returns_outcome (r : result Execution.Outcome) : Prop :=
  match r with
  | Ok o => well_formed o
  | Raise _ => False
  end.

(** A failure: [(False, None, message)], returned and not raised. *)
Definition fails (r : result Execution.Outcome) : Prop :=
  match r with
  | Ok (false, None, Some _) => True
  | _ => False
  end.

(** Whatever a task answers satisfies [Q]; and: a task answers. *)
Definition ensures {World A : Type} (t : Execution.Task World A)
    (Q : result A -> Prop) : Prop :=
  forall w,
    match t w with
    | Some (r, _) => Q r
    | None => True
    end.

Definition terminates {World A : Type} (t : Execution.Task World A) : Prop :=
  forall w, t w <> None.

(** A task answers, and its answer satisfies [Q]. *)
Definition answers {World A : Type} (t : Execution.Task World A)
    (Q : result A -> Prop) : Prop :=
  forall w, exists r w', t w = Some (r, w') /\ Q r.

(** What an exchange may do to the orders it is given. *)
Definition unfilled (st : OrderStatus) : bool :=
  match st with
  | FILLED => false
  | _ => true
  end.

Section Exchanges.

Context {World : Type} {exchange : Execution.ExchangeAdapter World}.

(** No order is ever reported FILLED: it stays pending or open until the
    engine gives up, it ends cancelled, rejected or expired, or asking for
    it raises. *)
Definition never_fills : Prop :=
  forall sym order_id w,
    fst (Execution.get_order_status sym order_id w) <> Ok FILLED.

(** Every order is refused: placing it raises. *)
Definition refuses_orders : Prop :=
  forall sym order w, exists e, fst (Execution.place_order sym order w) = Raise e.

(** Every order is accepted, and its status is always reported and never
    FILLED. *)
Definition accepts_orders : Prop :=
  forall sym order w,
    exists order_id, fst (Execution.place_order sym order w) = Ok order_id.

Definition reports_unfilled : Prop :=
  forall sym order_id w,
    exists st,
      fst (Execution.get_order_status sym order_id w) = Ok st /\
      unfilled st = true.

End Exchanges.

(** *** Rounding *)

(** Half a unit in the last of the 28 places, relative to the value. *)
Definition unit_roundoff : Q := 1 # (2 * 10 ^ 27).

(** [rnd] returns its argument to within that relative error, as the
    rounding of the context does and no rounding does. *)
Definition rounds (rnd : Decimal -> Decimal) : Prop :=
  forall x, Qabs (rnd x - x) <= unit_roundoff * Qabs x.

(** [a] is [b] to within the relative error [r], for [b] not negative. *)
Definition within (r a b : Q) : Prop :=
  b * (1 - r) <= a /\ a <= b * (1 + r).

(** The relative error after one more rounding. *)
Definition rounded (r : Q) : Q := r + unit_roundoff + r * unit_roundoff.

End Spec.

(* ------------------------------------------------------------------ *)
(** ** Concrete engines, states and market data *)

Module Scenarios.

Import Strategy.

(** The engine of the unit tests: 5%/5%, not adaptive. *)
Definition static_engine : VolatilityHarvester :=
  new Config.defaults (Some 5) (Some 5) false None None.

(** The adaptive engine of the unit tests: swings [2, 8]. *)
Definition adaptive_engine : VolatilityHarvester :=
  new Config.defaults (Some 5) (Some 5) true (Some 2) (Some 8).

(** The default settings with the trend filter switched on. *)
Definition trend_settings : Config.Settings :=
  {| Config.buy_threshold_pct := 5; Config.sell_threshold_pct := 5;
     Config.min_swing_pct := 2; Config.max_swing_pct := 8;
     Config.reserve_pct := 8; Config.max_drawdown_pct := 20;
     Config.max_consecutive_losses := 5; Config.daily_loss_limit_pct := 10;
     Config.min_activity_pct := 2; Config.max_activity_pct := 10;
     Config.max_spread_bps := 10; Config.max_ws_stale_seconds := 5;
     Config.maker_first := true; Config.taker_slippage_bps := 10;
     Config.order_timeout_seconds := 30; Config.maker_fee_pct := 0.10;
     Config.taker_fee_pct := 0.30; Config.use_trend_filter := true;
     Config.ma_short := 50; Config.ma_long := 200 |}.

Definition flat_candle (c : Q) : Candle :=
  {| high := c + 2; low := c - 2; close := c |}.

(** 200 bars: 150 closing at 200 followed by 50 closing at 100, so the
    50-bar mean (100) is below the 200-bar mean (175). *)
Definition bearish_window : DataFrame :=
  repeat (flat_candle 200) 150 ++ repeat (flat_candle 100) 50.

(** 200 bars: 150 closing at 100 followed by 50 closing at 200. *)
Definition bullish_window : DataFrame :=
  repeat (flat_candle 100) 150 ++ repeat (flat_candle 200) 50.

(** 15 bars closing at 128 with range 4: ATR is 3.125% of price. *)
Definition quiet_window : DataFrame := repeat (flat_candle 128) 15.

Definition tick (b a : Decimal) : MarketData :=
  {| symbol := "BTC-USD"; timestamp := 0%Z; bid := b; ask := a;
     last := (b + a) / 2; volume_24h := None |}.

(** LONG since a buy at 100. *)
Definition long_state : StrategyStateData :=
  update_state_after_buy (fresh 0%Z) 100 1 0%Z.

(** FLAT with the peak at 50000, as in the unit tests. *)
Definition flat_state : StrategyStateData := set_last_peak (Some 50000) (fresh 0%Z).

(** A fresh state paused by the drawdown breaker. *)
Definition paused_state : StrategyStateData :=
  set_pause_reason (Some [Lit "Drawdown "; Fixed 2 25; Lit "% exceeds limit ";
                          Fixed 2 20; Lit "%"])
    (set_paused true (fresh 0%Z)).

(** Every breaker input is bad at once: a 25% drawdown from a peak of
    10000, seven losses in a row and an ATR of 1%. *)
Definition distressed_state : StrategyStateData :=
  set_atr_pct (Some 1)
    (set_consecutive_losses 7%Z
       (set_current_drawdown_pct 25
          (set_peak_equity 10000 (set_total_equity 7500 (fresh 0%Z))))).

(** The same without the drawdown. *)
Definition losing_state : StrategyStateData :=
  set_atr_pct (Some 1)
    (set_consecutive_losses 7%Z
       (set_peak_equity 10000 (set_total_equity 10000 (fresh 0%Z)))).

(** Nothing wrong: equity 5000 at its peak, no streak, an ATR of 3%. *)
Definition healthy_state : StrategyStateData :=
  set_atr_pct (Some 3)
    (set_peak_equity 5000 (set_total_equity 5000 (fresh 0%Z))).

(** A quote 10 wide around 105: about 952 basis points of spread. *)
Definition wide_tick : MarketData := tick 100 110.

(** A ledger opened with 10000 in cash, and the same after buying 1 at 100
    for a fee of 1 and selling it at 110 for a fee of 2. *)
Definition opening_ledger : Portfolio.Portfolio := Portfolio.new 10000 0.

Definition ledger_after_buy : Portfolio.Portfolio :=
  snd (Portfolio.execute_buy opening_ledger 1 100 1).

Definition ledger_after_sell : Portfolio.Portfolio :=
  snd (Portfolio.execute_sell ledger_after_buy 1 110 2).

(** The sell fill of that round trip. *)
Definition sell_fill : OrderFill :=
  {| order_id := "sell-1"; fill_timestamp := 0%Z; fill_side := SELL_SIDE;
     fill_qty := 1; fill_price := 110; fee := 2; fee_asset := "USD" |}.

(** 20 bars whose high lies below their low. *)
Definition inverted_window : DataFrame :=
  repeat {| high := 98; low := 102; close := 100 |} 20.

(** A risk manager whose counter was reset at the epoch and has booked a
    loss of 700 since. *)
Definition yesterdays_losses : Risk.RiskManager :=
  {| Risk.daily_pnl_reset_time := Some 0%Z; Risk.daily_pnl := -700 |}.

(** A post-only bid for 0.1 at 49000, and a market buy of 0.1 priced at
    50000. *)
Definition resting_bid : OrderRequest :=
  {| side := BUY_SIDE; order_type := POST_ONLY; qty := 0.1;
     limit_price := Some 49000; post_only := true; timeout_seconds := 30;
     idempotency_key := None |}.

Definition market_buy : OrderRequest :=
  {| side := BUY_SIDE; order_type := MARKET; qty := 0.1;
     limit_price := Some 50000; post_only := false; timeout_seconds := 30;
     idempotency_key := None |}.

Definition unpriced_market_buy : OrderRequest :=
  {| side := BUY_SIDE; order_type := MARKET; qty := 0.1;
     limit_price := None; post_only := false; timeout_seconds := 30;
     idempotency_key := None |}.

(** Two exchanges whose world is the clock, in microseconds: one accepts
    every order and leaves it open, the other cannot be reached. *)
Definition idle_exchange : Execution.ExchangeAdapter Z :=
  {| Execution.place_order := fun _ _ w => (Ok "order-1"%string, w);
     Execution.cancel_order := fun _ _ w => (Ok true, w);
     Execution.get_order_status := fun _ _ w => (Ok OPEN, w);
     Execution.get_order_fills := fun _ _ w => (Ok [], w);
     Execution.get_min_notional := fun _ => 10;
     Execution.get_lot_size := fun _ => 0.00001;
     Execution.get_price_precision := fun _ => 2%Z |}.

Definition unreachable : exn := AdapterError [Lit "connection refused"].

Definition offline_exchange : Execution.ExchangeAdapter Z :=
  {| Execution.place_order := fun _ _ w => (Raise unreachable, w);
     Execution.cancel_order := fun _ _ w => (Raise unreachable, w);
     Execution.get_order_status := fun _ _ w => (Raise unreachable, w);
     Execution.get_order_fills := fun _ _ w => (Raise unreachable, w);
     Execution.get_min_notional := fun _ => 10;
     Execution.get_lot_size := fun _ => 0.00001;
     Execution.get_price_precision := fun _ => 2%Z |}.

Definition wall_clock : Execution.Runtime Z :=
  {| Execution.utcnow := fun w => w;
     Execution.sleep := fun seconds w => (w + Qfloor (seconds * 1000000))%Z;
     Execution.uuid4_hex16 := fun w => ("0123456789abcdef"%string, w) |}.

(** The 20 bars of the unit test of [calculate_atr_pct]: every true range
    of the last 14 is 2 and the last close is 99, an ATR of 200/99 percent. *)
Definition unit_test_frame : DataFrame :=
  map (fun c => {| high := c + 1; low := c - 1; close := c |})
    [100; 101; 102; 101; 100; 99; 98; 99; 100; 101;
     102; 103; 104; 103; 102; 101; 100; 99; 98; 99].

(** An estimator standing for pandas on that frame: [2.0 / 99.0 * 100] in
    float64, quotient and product rounded to a float, read through [str];
    it gives 2.0202020202020203 whatever the frame. *)
Definition unit_test_estimate (candles : DataFrame) (period : nat) : Decimal :=
  float_repr (to_float (to_float (2 / 99) * 100)).

(** FLAT with the peak at 3300 and LONG since a buy at 3300. *)
Definition flat_at_3300 : StrategyStateData :=
  set_last_peak (Some 3300) (fresh 0%Z).

Definition long_at_3300 : StrategyStateData :=
  update_state_after_buy (fresh 0%Z) 3300 1 0%Z.

(** A ledger with 100 in cash and nothing else. *)
Definition small_ledger : Portfolio.Portfolio := Portfolio.new 100 0.

End Scenarios.
(* ================================================================== *)
(** * Properties *)

(** ** Decimal comparisons *)

Module DecFacts.

Lemma dec_leP (a b : Decimal) : reflect (a <= b) (dec_le a b).
Proof.
  unfold dec_le. destruct (Qle_bool a b) eqn:E; constructor.
  - now apply Qle_bool_iff.
  - intro H. apply Qle_bool_iff in H. congruence.
Qed.

Lemma dec_ltP (a b : Decimal) : reflect (a < b) (dec_lt a b).
Proof.
  unfold dec_lt. destruct (Qle_bool b a) eqn:E; constructor; cbn.
  - apply Qle_bool_iff in E. now apply Qle_not_lt.
  - apply Qnot_le_lt. intro H. apply Qle_bool_iff in H. congruence.
Qed.

Lemma dec_geP (a b : Decimal) : reflect (b <= a) (dec_ge a b).
Proof. apply dec_leP. Qed.

Lemma dec_gtP (a b : Decimal) : reflect (b < a) (dec_gt a b).
Proof. apply dec_ltP. Qed.

Lemma dec_eqP (a b : Decimal) : reflect (a == b) (dec_eq a b).
Proof.
  unfold dec_eq. destruct (Qeq_bool a b) eqn:E; constructor.
  - now apply Qeq_bool_iff.
  - intro H. apply Qeq_bool_iff in H. congruence.
Qed.

Lemma dec_div_ok (a b : Decimal) : ~ b == 0 -> dec_div a b = Ok (a / b).
Proof. intro H. unfold dec_div. now destruct (dec_eqP b 0). Qed.

Lemma dec_div_zero (a b : Decimal) :
  b == 0 -> exists e, dec_div a b = Raise e.
Proof.
  intro H. unfold dec_div. destruct (dec_eqP b 0); [|contradiction].
  destruct (dec_eq a 0); eauto.
Qed.

(** *** Truncating division *)

Lemma Qfloor_num_den (x : Q) : Qfloor x = (Qnum x / Zpos (Qden x))%Z.
Proof. destruct x. reflexivity. Qed.

(** [Z.quot] of numerator by denominator is the integer part of [x],
    towards zero. *)
Lemma trunc_spec (x : Q) :
  let n := Z.quot (Qnum x) (Zpos (Qden x)) in
  (0 <= x -> (0 <= n)%Z /\ inject_Z n <= x /\ x < inject_Z n + 1) /\
  (x <= 0 -> (n <= 0)%Z /\ x <= inject_Z n /\ inject_Z n < x + 1).
Proof.
  cbv zeta. split; intro Hx.
  - assert (Hn : (0 <= Qnum x)%Z).
    { unfold Qle in Hx. cbn in Hx. lia. }
    rewrite Z.quot_div_nonneg by lia. rewrite <- Qfloor_num_den.
    split; [|split].
    + rewrite Qfloor_num_den. apply Z.div_pos; lia.
    + apply Qfloor_le.
    + pose proof (Qlt_floor x) as H. rewrite inject_Z_plus in H. exact H.
  - assert (Hn : (Qnum x <= 0)%Z).
    { unfold Qle in Hx. cbn in Hx. lia. }
    assert (E : Z.quot (Qnum x) (Zpos (Qden x))
                = (- Qfloor (- x))%Z).
    { rewrite Qfloor_num_den. cbn [Qopp Qnum Qden].
      rewrite <- Z.quot_div_nonneg by lia.
      rewrite Z.quot_opp_l by lia. lia. }
    rewrite E. rewrite inject_Z_opp.
    pose proof (Qfloor_le (- x)) as Hle.
    pose proof (Qlt_floor (- x)) as Hlt. rewrite inject_Z_plus in Hlt.
    change (inject_Z 1) with 1 in Hlt.
    assert (H0 : (0 <= Qfloor (- x))%Z).
    { rewrite Qfloor_num_den. apply Z.div_pos; cbn; lia. }
    split; [lia|]. split; lra.
Qed.

(** The integer part stays below an integer bound exactly when the number
    does. *)
Lemma trunc_below (x : Q) (bound : Z) :
  (Z.abs (Z.quot (Qnum x) (Zpos (Qden x))) < bound)%Z <->
  Qabs x < inject_Z bound.
Proof.
  pose proof (trunc_spec x) as [Hpos Hneg]. cbv zeta in Hpos, Hneg.
  set (n := Z.quot (Qnum x) (Zpos (Qden x))) in *.
  destruct (Qlt_le_dec x 0) as [L|L].
  - destruct Hneg as (Hn & Hle & Hlt); [lra|].
    rewrite Qabs_neg by lra. rewrite Z.abs_neq by exact Hn.
    split; intro H.
    + assert (Hb : inject_Z (- n + 1) <= inject_Z bound)
        by (rewrite <- Zle_Qle; lia).
      rewrite inject_Z_plus, inject_Z_opp in Hb.
      change (inject_Z 1) with 1 in Hb. lra.
    + rewrite Zlt_Qlt, inject_Z_opp. lra.
  - destruct Hpos as (Hn & Hle & Hlt); [lra|].
    rewrite Qabs_pos by lra. rewrite Z.abs_eq by exact Hn.
    split; intro H.
    + assert (Hb : inject_Z (n + 1) <= inject_Z bound)
        by (rewrite <- Zle_Qle; lia).
      rewrite inject_Z_plus in Hb. change (inject_Z 1) with 1 in Hb. lra.
    + rewrite Zlt_Qlt. lra.
Qed.

(** The three ways [a // b] ends. *)
Lemma dec_floordiv_zero (a b : Decimal) :
  b == 0 -> exists e, dec_floordiv a b = Raise e.
Proof.
  intro H. unfold dec_floordiv. destruct (dec_eqP b 0); [|contradiction].
  destruct (dec_eq a 0); eauto.
Qed.

Lemma dec_floordiv_ok (a b : Decimal) :
  ~ b == 0 -> Qabs (a / b) < inject_Z (10 ^ prec) ->
  dec_floordiv a b
  = Ok (inject_Z (Z.quot (Qnum (a / b)) (Zpos (Qden (a / b))))).
Proof.
  intros Hb H. unfold dec_floordiv. destruct (dec_eqP b 0); [contradiction|].
  apply trunc_below in H. apply Z.ltb_lt in H. now rewrite H.
Qed.

Lemma dec_floordiv_large (a b : Decimal) :
  ~ b == 0 -> inject_Z (10 ^ prec) <= Qabs (a / b) ->
  dec_floordiv a b = Raise DivisionImpossible.
Proof.
  intros Hb H. unfold dec_floordiv. destruct (dec_eqP b 0); [contradiction|].
  destruct (Z.ltb_spec (Z.abs (Z.quot (Qnum (a / b)) (Zpos (Qden (a / b)))))
              (10 ^ prec)) as [L|L]; [|reflexivity].
  apply trunc_below in L. lra.
Qed.

Lemma dec_floordiv_inv (a b n : Decimal) :
  dec_floordiv a b = Ok n ->
  ~ b == 0 /\ Qabs (a / b) < inject_Z (10 ^ prec) /\
  n = inject_Z (Z.quot (Qnum (a / b)) (Zpos (Qden (a / b)))).
Proof.
  unfold dec_floordiv. destruct (dec_eqP b 0) as [Hb|Hb].
  - destruct (dec_eq a 0); discriminate.
  - destruct (Z.ltb_spec (Z.abs (Z.quot (Qnum (a / b)) (Zpos (Qden (a / b)))))
                (10 ^ prec)) as [L|L]; [|discriminate].
    intro H. injection H as <-. split; [exact Hb|]. split; [|reflexivity].
    now apply trunc_below.
Qed.

(** A lot size of [places] decimal places, and a quantity of fewer than
    [prec - places] integer digits: the division goes through, and the
    number of lots times the units of the lot size stays within the
    precision of the context, so that multiplying back loses no digit. *)
Lemma floordiv_lots (qty lot : Q) (k : Z) (places : nat) :
  (1 <= k)%Z ->
  lot * inject_Z (10 ^ Z.of_nat places) == inject_Z k ->
  Qabs qty * inject_Z (10 ^ Z.of_nat places) < inject_Z (10 ^ prec) ->
  0 < lot /\
  exists n : Z,
    dec_floordiv qty lot = Ok (inject_Z n) /\
    (Z.abs n * k < 10 ^ prec)%Z /\
    (0 <= qty ->
     (0 <= n)%Z /\ inject_Z n * lot <= qty /\ qty < inject_Z n * lot + lot) /\
    (qty <= 0 ->
     (n <= 0)%Z /\ qty <= inject_Z n * lot /\ inject_Z n * lot < qty + lot).
Proof.
  intros Hk Elot Hqty.
  set (S := inject_Z (10 ^ Z.of_nat places)) in *.
  set (B := inject_Z (10 ^ prec)) in *.
  assert (HS : 0 < S).
  { unfold S. change 0 with (inject_Z 0). rewrite <- Zlt_Qlt.
    apply Z.pow_pos_nonneg; lia. }
  assert (HK : 1 <= inject_Z k).
  { change 1 with (inject_Z 1). now rewrite <- Zle_Qle. }
  assert (Hlot : 0 < lot) by nra.
  split; [exact Hlot|].
  set (x := qty / lot).
  assert (Ex : x * lot == qty) by (unfold x; field; lra).
  assert (Hx : Qabs x < B).
  { destruct (Qlt_le_dec qty 0) as [L|L].
    - assert (x <= 0) by (unfold x; apply Qle_shift_div_r; lra).
      rewrite Qabs_neg in * by lra.
      assert (- x * inject_Z k == - qty * S).
      { rewrite <- Elot, <- Ex. ring. }
      nra.
    - assert (0 <= x) by (unfold x; apply Qle_shift_div_l; lra).
      rewrite Qabs_pos in * by lra.
      assert (x * inject_Z k == qty * S).
      { rewrite <- Elot, <- Ex. ring. }
      nra. }
  rewrite (dec_floordiv_ok qty lot) by (fold x; (lra || assumption)).
  fold x. pose proof (trunc_spec x) as [Hpos Hneg]. cbv zeta in Hpos, Hneg.
  set (n := Z.quot (Qnum x) (Zpos (Qden x))) in *.
  exists n. split; [reflexivity|].
  assert (Hp : 0 <= qty ->
               (0 <= n)%Z /\ inject_Z n * lot <= qty /\
               qty < inject_Z n * lot + lot).
  { intro Hq. destruct Hpos as (H0 & Hle & Hlt);
      [unfold x; apply Qle_shift_div_l; lra|].
    split; [exact H0|]. split; nra. }
  assert (Hn : qty <= 0 ->
               (n <= 0)%Z /\ qty <= inject_Z n * lot /\
               inject_Z n * lot < qty + lot).
  { intro Hq. destruct Hneg as (H0 & Hle & Hlt);
      [unfold x; apply Qle_shift_div_r; lra|].
    split; [exact H0|]. split; nra. }
  split; [|split; assumption].
  rewrite Zlt_Qlt. fold B. rewrite inject_Z_mult.
  destruct (Qlt_le_dec qty 0) as [L|L].
  - destruct Hn as (H0 & Hle & _); [lra|].
    rewrite Z.abs_neq by exact H0. rewrite inject_Z_opp.
    rewrite Qabs_neg in Hqty by lra.
    assert (- inject_Z n * inject_Z k == - (inject_Z n * lot) * S)
      by (rewrite <- Elot; ring).
    nra.
  - destruct Hp as (H0 & Hle & _); [lra|].
    rewrite Z.abs_eq by exact H0.
    rewrite Qabs_pos in Hqty by lra.
    assert (inject_Z n * inject_Z k == inject_Z n * lot * S)
      by (rewrite <- Elot; ring).
    nra.
Qed.

End DecFacts.
Import DecFacts.

(** Case analysis on the first Decimal comparison in the goal. *)
Ltac dec_case :=
  match goal with
  | |- context [dec_le ?a ?b] => destruct (dec_leP a b)
  | |- context [dec_ge ?a ?b] => destruct (dec_geP a b)
  | |- context [dec_lt ?a ?b] => destruct (dec_ltP a b)
  | |- context [dec_gt ?a ?b] => destruct (dec_gtP a b)
  | |- context [dec_eq ?a ?b] => destruct (dec_eqP a b)
  end.

(** ** Strategy engine *)

Module StrategyFacts.

Import Strategy.

Section Adapt.

Variable self : VolatilityHarvester.
Hypothesis adaptive_on : adaptive self = true.

Lemma adapt_low (a : Decimal) : a <= 2 -> adapt_thresholds self a = (min_swing_pct self, min_swing_pct self).
Proof.
  intro H. unfold adapt_thresholds. rewrite adaptive_on. cbn.
  dec_case; [reflexivity | contradiction].
Qed.

Lemma adapt_high (a : Decimal) : 6 <= a -> adapt_thresholds self a = (max_swing_pct self, max_swing_pct self).
Proof.
  intro H. unfold adapt_thresholds. rewrite adaptive_on. cbn.
  dec_case; [lra|]. dec_case; [reflexivity | contradiction].
Qed.

Lemma adapt_between (a : Decimal) :
  2 < a < 6 ->
  adapt_thresholds self a =
    (min_swing_pct self + (a - 2) / (6 - 2) * (max_swing_pct self - min_swing_pct self), min_swing_pct self + (a - 2) / (6 - 2) * (max_swing_pct self - min_swing_pct self)).
Proof.
  intro H. unfold adapt_thresholds. rewrite adaptive_on. cbn.
  dec_case; [lra|]. dec_case; [lra | reflexivity].
Qed.

Lemma adapt_same (a : Decimal) :
  snd (adapt_thresholds self a) = fst (adapt_thresholds self a).
Proof. unfold adapt_thresholds. rewrite adaptive_on. reflexivity. Qed.

Hypothesis swing_ordered : min_swing_pct self <= max_swing_pct self.

Lemma adapt_bounded (a : Decimal) :
  min_swing_pct self <= fst (adapt_thresholds self a) <= max_swing_pct self.
Proof.
  destruct (Qlt_le_dec 2 a) as [H2|H2]; [destruct (Qlt_le_dec a 6) as [H6|H6]|].
  - rewrite adapt_between by auto. cbn [fst].
    assert (E : (a - 2) / (6 - 2) == (a - 2) * (1 # 4)) by (field; discriminate).
    rewrite E. nra.
  - rewrite adapt_high by auto. cbn [fst]. lra.
  - rewrite adapt_low by auto. cbn [fst]. lra.
Qed.

Lemma adapt_monotone (a b : Decimal) :
  a <= b -> fst (adapt_thresholds self a) <= fst (adapt_thresholds self b).
Proof.
  intro Hab.
  destruct (Qlt_le_dec 2 a) as [H2|H2].
  2:{ rewrite (adapt_low a) by auto. apply (adapt_bounded b). }
  destruct (Qlt_le_dec b 6) as [H6|H6].
  2:{ rewrite (adapt_high b) by auto. apply (adapt_bounded a). }
  rewrite (adapt_between a), (adapt_between b) by lra. cbn [fst].
  assert (Ea : (a - 2) / (6 - 2) == (a - 2) * (1 # 4)) by (field; discriminate).
  assert (Eb : (b - 2) / (6 - 2) == (b - 2) * (1 # 4)) by (field; discriminate).
  rewrite Ea, Eb. nra.
Qed.

End Adapt.


(** [generate_signal] starts with the volatility bookkeeping; what follows
    only sees the refreshed state and the effective thresholds. *)
Lemma prelude_paused (self : VolatilityHarvester) candles s :
  paused (Spec.refresh_volatility self candles s) = paused s.
Proof.
  unfold Spec.refresh_volatility. destruct candles as [c|]; [|reflexivity].
  destruct (15 <=? List.length c)%nat; reflexivity.
Qed.

Lemma prelude_frame (self : VolatilityHarvester) candles s :
  let s' := Spec.refresh_volatility self candles s in
  state s' = state s /\ last_peak s' = last_peak s /\
  last_trough s' = last_trough s /\ last_buy_price s' = last_buy_price s /\
  pause_reason s' = pause_reason s.
Proof.
  unfold Spec.refresh_volatility. destruct candles as [c|]; [|now cbn].
  destruct (15 <=? List.length c)%nat; now cbn.
Qed.

Ltac prelude_unfold :=
  unfold generate_signal, generate_signal_with, Spec.refresh_volatility,
    Spec.effective_thresholds, Spec.trend_allows in *.

Ltac prelude_simpl :=
  cbn [fst snd paused state last_peak last_trough last_buy_price pause_reason
       set_atr_pct set_adaptive_buy_threshold set_adaptive_sell_threshold
       set_last_peak set_last_trough] in *.

Ltac prelude_some self c :=
  prelude_unfold;
  destruct (15 <=? List.length c)%nat eqn:?Hlen;
  [ destruct (adapt_thresholds self (calculate_atr_pct c 14))
      as [?buy_thr ?sell_thr] eqn:?Hadapt | ];
  prelude_simpl.

Ltac prelude self candles :=
  destruct candles as [?c|];
  [ match goal with c : DataFrame |- _ => prelude_some self c end
  | prelude_unfold; prelude_simpl ].

Lemma generate_signal_paused settings self s md candles :
  paused s = true ->
  generate_signal settings self s md candles =
    (Ok (hold (timestamp md) (mid md) (Lit "Paused: " :: show_opt (pause_reason s))),
     Spec.refresh_volatility self candles s).
Proof.
  intro Hp. prelude self candles; rewrite Hp; reflexivity.
Qed.

Lemma generate_signal_trend_blocked settings self s md c :
  paused s = false ->
  check_trend_filter settings c = false ->
  generate_signal settings self s md (Some c) =
    (Ok (hold (timestamp md) (mid md) [Lit "Trend filter: bearish trend"]),
     Spec.refresh_volatility self (Some c) s).
Proof.
  intros Hp Ht. prelude_some self c; rewrite Hp, Ht; reflexivity.
Qed.


Lemma peak_update_max (price lp : Decimal) :
  (if dec_gt price lp then price else lp) = Qmax lp price.
Proof.
  unfold Qmax, GenericMinMax.gmax.
  destruct (dec_gtP price lp) as [H|H];
    destruct (Qcompare_spec lp price) as [E|E|E]; try reflexivity; lra.
Qed.

(** FLAT branch: the peak is tracked first, then the drop from it decides. *)
Lemma generate_signal_flat settings self s md candles :
  paused s = false ->
  state s = FLAT ->
  Spec.trend_allows settings candles = true ->
  let price := mid md in
  let peak := match last_peak s with Some lp => Qmax lp price | None => price end in
  let threshold := fst (Spec.effective_thresholds self candles) in
  ~ peak == 0 ->
  exists sig s',
    generate_signal settings self s md candles = (Ok sig, s') /\
    last_peak s' = Some peak /\
    (threshold <= (peak - price) / peak * 100 -> signal_type sig = BUY) /\
    ((peak - price) / peak * 100 < threshold -> signal_type sig = HOLD).
Proof.
  intros Hp Hs Ht price peak threshold Hz. subst price threshold.
  prelude self candles; rewrite Hp; try rewrite Ht; cbn [negb]; rewrite Hs.
  all: subst peak; destruct (last_peak s) as [lp|] eqn:Elp;
    [ rewrite <- (peak_update_max (mid md) lp) in *;
      destruct (dec_gt (mid md) lp) | ];
    prelude_simpl; cbn [last_peak set_last_peak]; try rewrite Elp;
    rewrite dec_div_ok by assumption.
  all: dec_case; eexists; eexists; (split; [reflexivity|]);
    cbn [last_peak set_last_peak]; prelude_simpl; try rewrite Elp;
    (split; [reflexivity|]); cbn [signal_type hold];
    split; intro; try reflexivity; lra.
Qed.

(** With the tracked peak at zero the drop is a division by zero and the
    call raises. *)
Lemma generate_signal_flat_zero_peak settings self s md candles :
  paused s = false ->
  state s = FLAT ->
  Spec.trend_allows settings candles = true ->
  match last_peak s with Some lp => Qmax lp (mid md) | None => mid md end == 0 ->
  exists e s', generate_signal settings self s md candles = (Raise e, s').
Proof.
  intros Hp Hs Ht Hz.
  prelude self candles; rewrite Hp; try rewrite Ht; cbn [negb]; rewrite Hs.
  all: destruct (last_peak s) as [lp|] eqn:Elp;
    [ rewrite <- (peak_update_max (mid md) lp) in *;
      destruct (dec_gt (mid md) lp) | ];
    prelude_simpl; try rewrite Elp.
  all: match goal with
       | |- context [dec_div ?a ?b] =>
           destruct (dec_div_zero a b Hz) as [e ->]
       end; eauto.
Qed.

(** LONG branch: the trough is tracked first, then the rise from the
    entry price decides. *)
Lemma generate_signal_long settings self s md candles entry :
  paused s = false ->
  state s = LONG ->
  Spec.trend_allows settings candles = true ->
  last_buy_price s = Some entry ->
  ~ entry == 0 ->
  let price := mid md in
  let threshold := snd (Spec.effective_thresholds self candles) in
  exists sig s',
    generate_signal settings self s md candles = (Ok sig, s') /\
    (threshold <= (price - entry) / entry * 100 -> signal_type sig = SELL) /\
    ((price - entry) / entry * 100 < threshold -> signal_type sig = HOLD).
Proof.
  intros Hp Hs Ht He Hz price threshold. subst price threshold.
  prelude self candles; rewrite Hp; try rewrite Ht; cbn [negb]; rewrite Hs.
  all: destruct (last_trough s) as [lt|];
    [ destruct (dec_lt (mid md) lt) | ];
    prelude_simpl; try rewrite He;
    rewrite dec_div_ok by assumption.
  all: dec_case; eexists; eexists; (split; [reflexivity|]);
    cbn [signal_type hold]; split; intro; try reflexivity; lra.
Qed.

Lemma trend_filter_blocks_iff settings (c : DataFrame) :
  check_trend_filter settings c = false <->
  Config.use_trend_filter settings = true /\
  (Config.ma_long settings <= List.length c)%nat /\
  match rolling_mean_last (Config.ma_short settings) (map close c),
        rolling_mean_last (Config.ma_long settings) (map close c) with
  | Some ma_short, Some ma_long => ma_short <= ma_long
  | _, _ => True
  end.
Proof.
  unfold check_trend_filter.
  destruct (Config.use_trend_filter settings); cbn [negb].
  2:{ split; [discriminate | intros [H _]; discriminate]. }
  destruct (Nat.ltb_spec (List.length c) (Config.ma_long settings)) as [H|H].
  { split; [discriminate | intros (_ & H' & _); lia]. }
  destruct (rolling_mean_last (Config.ma_short settings) (map close c)) as [a|];
    destruct (rolling_mean_last (Config.ma_long settings) (map close c)) as [b|];
    try tauto.
  destruct (dec_gtP a b) as [G|G]; split; try tauto; try discriminate.
  - intros (_ & _ & L). lra.
  - intros _. repeat split; auto. lra.
Qed.

(** Without adaptation the configured thresholds come back whatever the
    ATR. *)
Lemma adapt_static (self : VolatilityHarvester) (a : Decimal) :
  adaptive self = false ->
  adapt_thresholds self a = (buy_threshold_pct self, sell_threshold_pct self).
Proof. intro H. unfold adapt_thresholds. now rewrite H. Qed.

(** C7, as stated, fails.  The engine of the unit tests is built with
    [adaptive=False] and the default swings [[2, 8]]: at a volatility of
    1.5 it returns its configured 5, not [min_swing_pct]; and an engine
    built that way with thresholds of 10 returns 10 at every volatility,
    which is outside the swings. *)
Lemma static_engine_ignores_volatility :
  adaptive Scenarios.static_engine = false /\
  min_swing_pct Scenarios.static_engine == 2 /\
  max_swing_pct Scenarios.static_engine == 8 /\
  adapt_thresholds Scenarios.static_engine (3 # 2) = (5, 5) /\
  ~ fst (adapt_thresholds Scenarios.static_engine (3 # 2))
    == min_swing_pct Scenarios.static_engine /\
  adapt_thresholds (new Config.defaults (Some 10) (Some 10) false None None) 7
    = (10, 10) /\
  ~ 10 <= max_swing_pct (new Config.defaults (Some 10) (Some 10) false None None).
Proof.
  split; [reflexivity|]. split; [reflexivity|]. split; [reflexivity|].
  split; [reflexivity|]. split; [vm_compute; discriminate|].
  split; [reflexivity|]. vm_compute. intro H. apply H. reflexivity.
Qed.



(** C9.  For positive capital and price, [calculate_position_size] called
    with a reserve that is zero returns what it returns with the reserve
    omitted: the zero is falsy and the configured reserve takes its place.
    Where that configured reserve is the default 8, the quantity is
    [available_capital * 92 / 100 / price], which is not
    [available_capital / price]. *)
Theorem zero_reserve_falls_back_to_default settings
    (available_capital current_price zero : Decimal) :
  0 < available_capital ->
  0 < current_price ->
  zero == 0 ->
  calculate_position_size settings available_capital current_price (Some zero)
    = calculate_position_size settings available_capital current_price None /\
  (Config.reserve_pct settings == 8 ->
   exists qty,
     calculate_position_size settings available_capital current_price (Some zero)
       = Ok qty /\
     qty == available_capital * (92 # 100) / current_price /\
     ~ qty == available_capital / current_price).
Proof.
  intros Hc Hp Hz.
  assert (E : or_else (Some zero) (Config.reserve_pct settings)
              = Config.reserve_pct settings).
  { unfold or_else, truthy. destruct (dec_eqP zero 0); [reflexivity|contradiction]. }
  unfold calculate_position_size. rewrite E. cbn [or_else].
  split; [reflexivity|]. intro H8.
  set (deployable := available_capital * (100 - Config.reserve_pct settings) / 100).
  assert (Hd : deployable == available_capital * (92 # 100)).
  { unfold deployable. rewrite H8. field. }
  assert (Hpos : 0 < deployable) by (rewrite Hd; nra).
  destruct (dec_leP deployable 0) as [L|L]; [lra|].
  rewrite dec_div_ok by lra.
  eexists; split; [reflexivity|]. split.
  - now rewrite Hd.
  - rewrite Hd. intro H.
    assert (H' : available_capital * (92 # 100) / current_price * current_price
                 == available_capital / current_price * current_price)
      by now rewrite H.
    assert (Hne : ~ current_price == 0) by lra.
    field_simplify in H'; try assumption. nra.
Qed.

Lemma zero_reserve_falls_back_to_default_witness :
  calculate_position_size Config.defaults 10000 50000 (Some 0)
    = calculate_position_size Config.defaults 10000 50000 None /\
  exists qty,
    calculate_position_size Config.defaults 10000 50000 (Some 0) = Ok qty /\
    qty == 10000 * (92 # 100) / 50000 /\ ~ qty == 10000 / 50000.
Proof.
  destruct (zero_reserve_falls_back_to_default Config.defaults 10000 50000 0)
    as [Hsame Hqty].
  - reflexivity.
  - reflexivity.
  - reflexivity.
  - split; [exact Hsame | apply Hqty; reflexivity].
Defined.

(** C10.  [update_state_after_sell] with a realized P&L of zero takes the
    loss branch: [consecutive_losses] grows by one, [consecutive_wins] is
    reset to 0, [winning_trades] is unchanged and [total_trades] grows by
    one; the consecutive-losses breaker then reads the advanced streak. *)
Theorem break_even_sell_counts_as_loss settings (s : StrategyStateData)
    (fill_price realized_pnl : Decimal) (timestamp : datetime) :
  realized_pnl == 0 ->
  let s' := update_state_after_sell s fill_price realized_pnl timestamp in
  consecutive_losses s' = (consecutive_losses s + 1)%Z /\
  consecutive_wins s' = 0%Z /\
  winning_trades s' = winning_trades s /\
  total_trades s' = (total_trades s + 1)%Z /\
  (fst (Risk.check_consecutive_losses settings s') = true <->
   (Config.max_consecutive_losses settings <= consecutive_losses s + 1)%Z).
Proof.
  intros Hz s'. subst s'. unfold update_state_after_sell.
  destruct (dec_gtP realized_pnl 0) as [H|H]; [lra|].
  cbn. repeat split; try reflexivity.
  - unfold Risk.check_consecutive_losses; cbn.
    destruct (Z.leb_spec (Config.max_consecutive_losses settings)
                (consecutive_losses s + 1)); cbn; [auto | discriminate].
  - intro L. unfold Risk.check_consecutive_losses; cbn.
    destruct (Z.leb_spec (Config.max_consecutive_losses settings)
                (consecutive_losses s + 1)); cbn; [auto | lia].
Qed.

Lemma break_even_sell_counts_as_loss_witness :
  let s' := update_state_after_sell Scenarios.long_state 100 0 0%Z in
  consecutive_losses s' = 1%Z /\ consecutive_wins s' = 0%Z /\
  winning_trades s' = 0%Z /\ total_trades s' = 1%Z.
Proof.
  destruct (break_even_sell_counts_as_loss Config.defaults Scenarios.long_state
              100 0 0%Z) as (H1 & H2 & H3 & H4 & _).
  - reflexivity.
  - repeat split; assumption.
Defined.

(** The two branches again, for [generate_signal_with]: the thresholds are
    adapted from whatever the estimate of the ATR is. *)
Ltac prelude_with estimate self candles :=
  unfold generate_signal_with, Spec.thresholds_with, Spec.trend_allows in *;
  destruct candles as [?c|];
  [ match goal with
    | c : DataFrame |- _ =>
        destruct (15 <=? List.length c)%nat eqn:?Hlen;
        [ destruct (adapt_thresholds self (estimate c 14%nat))
            as [?buy_thr ?sell_thr] eqn:?Hadapt | ]
    end
  | ];
  prelude_simpl.

Lemma generate_signal_with_flat estimate settings self s md candles :
  paused s = false ->
  state s = FLAT ->
  Spec.trend_allows settings candles = true ->
  let price := mid md in
  let peak := match last_peak s with Some lp => Qmax lp price | None => price end in
  let threshold := fst (Spec.thresholds_with estimate self candles) in
  ~ peak == 0 ->
  exists sig s',
    generate_signal_with settings estimate self s md candles = (Ok sig, s') /\
    last_peak s' = Some peak /\
    (threshold <= (peak - price) / peak * 100 -> signal_type sig = BUY) /\
    ((peak - price) / peak * 100 < threshold -> signal_type sig = HOLD).
Proof.
  intros Hp Hs Ht price peak threshold Hz. subst price threshold.
  prelude_with estimate self candles; rewrite Hp; try rewrite Ht; cbn [negb];
    rewrite Hs.
  all: subst peak; destruct (last_peak s) as [lp|] eqn:Elp;
    [ rewrite <- (peak_update_max (mid md) lp) in *;
      destruct (dec_gt (mid md) lp) | ];
    prelude_simpl; cbn [last_peak set_last_peak]; try rewrite Elp;
    rewrite dec_div_ok by assumption.
  all: dec_case; eexists; eexists; (split; [reflexivity|]);
    cbn [last_peak set_last_peak]; prelude_simpl; try rewrite Elp;
    (split; [reflexivity|]); cbn [signal_type hold];
    split; intro; try reflexivity; lra.
Qed.

Lemma trough_update_min (price lt : Decimal) :
  (if dec_lt price lt then price else lt) = Qmin lt price.
Proof.
  unfold Qmin, GenericMinMax.gmin.
  destruct (dec_ltP price lt) as [H|H];
    destruct (Qcompare_spec lt price) as [E|E|E]; try reflexivity; lra.
Qed.

Lemma generate_signal_with_long estimate settings self s md candles entry :
  paused s = false ->
  state s = LONG ->
  Spec.trend_allows settings candles = true ->
  last_buy_price s = Some entry ->
  ~ entry == 0 ->
  let price := mid md in
  let trough :=
    match last_trough s with Some lt => Qmin lt price | None => price end in
  let threshold := snd (Spec.thresholds_with estimate self candles) in
  exists sig s',
    generate_signal_with settings estimate self s md candles = (Ok sig, s') /\
    last_trough s' = Some trough /\
    (threshold <= (price - entry) / entry * 100 -> signal_type sig = SELL) /\
    ((price - entry) / entry * 100 < threshold -> signal_type sig = HOLD).
Proof.
  intros Hp Hs Ht He Hz price trough threshold. subst price trough threshold.
  prelude_with estimate self candles; rewrite Hp; try rewrite Ht; cbn [negb];
    rewrite Hs.
  all: destruct (last_trough s) as [lt|] eqn:Elt;
    [ rewrite <- (trough_update_min (mid md) lt) in *;
      destruct (dec_lt (mid md) lt) | ];
    prelude_simpl; try rewrite He; try rewrite Elt;
    rewrite dec_div_ok by assumption.
  all: dec_case; eexists; eexists; (split; [reflexivity|]);
    prelude_simpl; try rewrite Elt; (split; [reflexivity|]);
    cbn [signal_type hold]; split; intro; try reflexivity; lra.
Qed.

(** C8.  In FLAT mode, not paused and with the trend filter letting the
    evaluation through, [generate_signal] first sets [last_peak] to the
    larger of the previous peak (the price when there is none) and the
    price, then emits BUY when the drop from that peak, in percent,
    reaches the buy threshold, and HOLD otherwise.  The threshold is the
    configured one, or on a window of 15 bars or more the one adapted from
    the ATR estimate of the window, whatever that estimate is: the rule
    holds for the float64 value pandas computes as for the exact one.  With
    the peak at 50000 and a threshold of 5, BUY fires at every price up to
    47500 and not at 47501. *)
Theorem flat_buy_rule (estimate : DataFrame -> nat -> Decimal) settings self
    (s : StrategyStateData) (md : MarketData) (candles : option DataFrame) :
  paused s = false ->
  state s = FLAT ->
  Spec.trend_allows settings candles = true ->
  let price := mid md in
  let peak := match last_peak s with Some lp => Qmax lp price | None => price end in
  let threshold := fst (Spec.thresholds_with estimate self candles) in
  (~ peak == 0 ->
   exists sig s',
     generate_signal_with settings estimate self s md candles = (Ok sig, s') /\
     last_peak s' = Some peak /\
     (threshold <= (peak - price) / peak * 100 -> signal_type sig = BUY) /\
     ((peak - price) / peak * 100 < threshold -> signal_type sig = HOLD)) /\
  (forall lp, last_peak s = Some lp -> lp == 50000 -> threshold == 5 ->
     (price <= 47500 ->
      exists sig s',
        generate_signal_with settings estimate self s md candles = (Ok sig, s') /\
        signal_type sig = BUY) /\
     (price == 47501 ->
      exists sig s',
        generate_signal_with settings estimate self s md candles = (Ok sig, s') /\
        signal_type sig = HOLD)).
Proof.
  intros Hp Hs Ht price peak threshold.
  pose proof (generate_signal_with_flat estimate settings self s md candles
                Hp Hs Ht) as G.
  cbv zeta in G. fold price in G. fold peak in G. fold threshold in G.
  split; [exact G|].
  intros lp Elp Hlp Hthr.
  assert (Hpk : price <= 47501 -> peak == 50000).
  { intro L. subst peak. rewrite Elp. rewrite Q.max_l; [assumption | lra]. }
  split; intro Hprice.
  - assert (Hk : peak == 50000) by (apply Hpk; lra).
    destruct G as (sig & s' & E & _ & Hbuy & _); [lra|].
    exists sig, s'. split; [exact E|]. apply Hbuy.
    rewrite Hk, Hthr. clearbody price.
    assert (Ed : (50000 - price) / 50000 * 100 == (50000 - price) * (1 # 500))
      by (field; discriminate).
    rewrite Ed. lra.
  - assert (Hk : peak == 50000) by (apply Hpk; lra).
    destruct G as (sig & s' & E & _ & _ & Hhold); [lra|].
    exists sig, s'. split; [exact E|]. apply Hhold.
    rewrite Hk, Hthr, Hprice. reflexivity.
Qed.

Lemma flat_buy_rule_witness :
  (exists sig s',
     generate_signal Config.defaults Scenarios.static_engine Scenarios.flat_state
       (Scenarios.tick 47400 47600) None = (Ok sig, s') /\
     signal_type sig = BUY) /\
  (exists sig s',
     generate_signal Config.defaults Scenarios.static_engine Scenarios.flat_state
       (Scenarios.tick 47401 47601) None = (Ok sig, s') /\
     signal_type sig = HOLD) /\
  (Scenarios.unit_test_estimate Scenarios.unit_test_frame 14 == 2.0202020202020203 /\
   fst (Spec.thresholds_with Scenarios.unit_test_estimate
          Scenarios.adaptive_engine (Some Scenarios.unit_test_frame))
     == 2.03030303030303045 /\
   exists sig s',
     generate_signal_with Config.defaults Scenarios.unit_test_estimate
       Scenarios.adaptive_engine Scenarios.flat_at_3300
       (Scenarios.tick 3232 3234) (Some Scenarios.unit_test_frame)
     = (Ok sig, s') /\
     signal_type sig = HOLD).
Proof.
  split; [|split].
  - destruct (flat_buy_rule calculate_atr_pct Config.defaults
                Scenarios.static_engine
                Scenarios.flat_state (Scenarios.tick 47400 47600) None)
      as [_ H]; try reflexivity.
    apply (H 50000); try reflexivity. vm_compute. discriminate.
  - destruct (flat_buy_rule calculate_atr_pct Config.defaults
                Scenarios.static_engine
                Scenarios.flat_state (Scenarios.tick 47401 47601) None)
      as [_ H]; try reflexivity.
    apply (H 50000); reflexivity.
  - split; [vm_compute; reflexivity|]. split; [vm_compute; reflexivity|].
    destruct (flat_buy_rule Scenarios.unit_test_estimate Config.defaults
                Scenarios.adaptive_engine Scenarios.flat_at_3300
                (Scenarios.tick 3232 3234) (Some Scenarios.unit_test_frame))
      as [H _]; try reflexivity.
    destruct H as (sig & s' & E & _ & _ & Hhold); [vm_compute; discriminate|].
    exists sig, s'. split; [exact E|]. apply Hhold. vm_compute. reflexivity.
Defined.

(** C1, as stated, fails.  The default settings with the trend filter on,
    the 5%/5% engine, a position entered at 100, the market at 110 (a rise
    of 10%) and 200 bars whose 50-bar mean lies below the 200-bar mean: the
    filter fails and the signal is HOLD, not SELL. *)
Lemma trend_filter_blocks_sell :
  paused Scenarios.long_state = false /\
  state Scenarios.long_state = LONG /\
  last_buy_price Scenarios.long_state = Some 100 /\
  mid (Scenarios.tick 109 111) == 110 /\
  sell_threshold_pct Scenarios.static_engine <= (110 - 100) / 100 * 100 /\
  check_trend_filter Scenarios.trend_settings Scenarios.bearish_window = false /\
  fst (generate_signal Scenarios.trend_settings Scenarios.static_engine
         Scenarios.long_state (Scenarios.tick 109 111)
         (Some Scenarios.bearish_window))
    = Ok (hold 0%Z (mid (Scenarios.tick 109 111))
            [Lit "Trend filter: bearish trend"]).
Proof.
  repeat split; try reflexivity.
  all: vm_compute; try reflexivity; discriminate.
Qed.

(** C1, amended.  For a state that is not paused, a window on which the
    trend filter fails suppresses every signal, SELL included:
    [generate_signal] returns HOLD with the reason "Trend filter: bearish
    trend" and tracks neither peak nor trough.  A LONG state whose rise
    reaches the sell threshold gets SELL when no window is supplied or the
    filter lets the window through. *)
Theorem trend_filter_suppresses_every_signal settings self
    (s : StrategyStateData) (md : MarketData) :
  paused s = false ->
  (forall c, check_trend_filter settings c = false ->
     exists s',
       generate_signal settings self s md (Some c)
         = (Ok (hold (timestamp md) (mid md) [Lit "Trend filter: bearish trend"]),
            s') /\
       state s' = state s /\ last_peak s' = last_peak s /\
       last_trough s' = last_trough s) /\
  (forall candles entry,
     state s = LONG ->
     last_buy_price s = Some entry ->
     ~ entry == 0 ->
     Spec.trend_allows settings candles = true ->
     snd (Spec.effective_thresholds self candles)
       <= (mid md - entry) / entry * 100 ->
     exists sig s',
       generate_signal settings self s md candles = (Ok sig, s') /\
       signal_type sig = SELL).
Proof.
  intro Hp. split.
  - intros c Hc. eexists. split.
    + now apply generate_signal_trend_blocked.
    + pose proof (prelude_frame self (Some c) s) as F. cbv zeta in F. tauto.
  - intros candles entry Hs He Hz Ht Hrise.
    destruct (generate_signal_long settings self s md candles entry Hp Hs Ht He Hz)
      as (sig & s' & E & Hsell & _).
    exists sig, s'. split; [exact E | now apply Hsell].
Qed.

Lemma trend_filter_suppresses_every_signal_witness :
  (exists s',
     generate_signal Scenarios.trend_settings Scenarios.static_engine
       Scenarios.long_state (Scenarios.tick 109 111)
       (Some Scenarios.bearish_window)
     = (Ok (hold 0%Z (mid (Scenarios.tick 109 111))
              [Lit "Trend filter: bearish trend"]), s')) /\
  (exists sig s',
     generate_signal Scenarios.trend_settings Scenarios.static_engine
       Scenarios.long_state (Scenarios.tick 109 111)
       (Some Scenarios.bullish_window) = (Ok sig, s') /\
     signal_type sig = SELL).
Proof.
  destruct (trend_filter_suppresses_every_signal Scenarios.trend_settings
              Scenarios.static_engine Scenarios.long_state
              (Scenarios.tick 109 111)) as [Hblock Hsell].
  - reflexivity.
  - split.
    + destruct (Hblock Scenarios.bearish_window) as (s' & E & _).
      * vm_compute. reflexivity.
      * exists s'. exact E.
    + apply (Hsell (Some Scenarios.bullish_window) 100).
      * reflexivity.
      * reflexivity.
      * vm_compute. discriminate.
      * vm_compute. reflexivity.
      * vm_compute. discriminate.
Defined.

(** C3, as stated, fails.  A paused state with no ATR yet, evaluated by the
    adaptive engine on 15 bars: the signal is HOLD, but the state comes back
    with [atr_pct] 3.125 and both adaptive thresholds 3.6875. *)
Lemma paused_state_is_mutated :
  paused Scenarios.paused_state = true /\
  atr_pct Scenarios.paused_state = None /\
  adaptive_buy_threshold Scenarios.paused_state = None /\
  exists sig s' atr thr,
    generate_signal Config.defaults Scenarios.adaptive_engine
      Scenarios.paused_state (Scenarios.tick 109 111)
      (Some Scenarios.quiet_window) = (Ok sig, s') /\
    signal_type sig = HOLD /\
    atr_pct s' = Some atr /\ atr == 3.125 /\
    adaptive_buy_threshold s' = Some thr /\
    adaptive_sell_threshold s' = Some thr /\ thr == 3.6875 /\
    s' <> Scenarios.paused_state.
Proof.
  repeat split.
  do 4 eexists. split; [vm_compute; reflexivity|].
  repeat split; try reflexivity. discriminate.
Qed.

(** C3, amended.  For a paused state [generate_signal] returns HOLD with
    the reason "Paused: " followed by the pause reason.  With no window, or
    one of fewer than 15 bars, the state is unchanged; with 15 bars or more
    the state changes in [atr_pct], [adaptive_buy_threshold] and
    [adaptive_sell_threshold] only, which take the ATR of the window and the
    thresholds adapted to it. *)
Theorem paused_hold_refreshes_volatility_only settings self
    (s : StrategyStateData) (md : MarketData) (candles : option DataFrame) :
  paused s = true ->
  exists s',
    generate_signal settings self s md candles
      = (Ok (hold (timestamp md) (mid md)
               (Lit "Paused: " :: show_opt (pause_reason s))), s') /\
    (candles = None -> s' = s) /\
    (forall c, candles = Some c -> (List.length c < 15)%nat -> s' = s) /\
    (forall c, candles = Some c -> (15 <= List.length c)%nat ->
       let atr := calculate_atr_pct c 14 in
       s' = set_adaptive_sell_threshold (Some (snd (adapt_thresholds self atr)))
              (set_adaptive_buy_threshold (Some (fst (adapt_thresholds self atr)))
                 (set_atr_pct (Some atr) s))).
Proof.
  intro Hp. eexists. split; [now apply generate_signal_paused|].
  unfold Spec.refresh_volatility. repeat split.
  - intros ->. reflexivity.
  - intros c -> Hlen.
    destruct (Nat.leb_spec 15 (List.length c)); [lia | reflexivity].
  - intros c -> Hlen.
    destruct (Nat.leb_spec 15 (List.length c)); [reflexivity | lia].
Qed.

Lemma paused_hold_refreshes_volatility_only_witness :
  exists s',
    generate_signal Config.defaults Scenarios.adaptive_engine
      Scenarios.paused_state (Scenarios.tick 109 111) None
    = (Ok (hold 0%Z (mid (Scenarios.tick 109 111))
             (Lit "Paused: " :: show_opt (pause_reason Scenarios.paused_state))),
       s') /\
    s' = Scenarios.paused_state.
Proof.
  destruct (paused_hold_refreshes_volatility_only Config.defaults
              Scenarios.adaptive_engine Scenarios.paused_state
              (Scenarios.tick 109 111) None) as (s' & E & Hnone & _).
  - reflexivity.
  - exists s'. split; [exact E | now apply Hnone].
Defined.

End StrategyFacts.

(* ------------------------------------------------------------------ *)
(** ** The rounding of the decimal context *)

Module RoundingFacts.

Import Spec.

Lemma round_half_even_near x : Qabs (inject_Z (round_half_even x) - x) <= 1 # 2.
Proof.
  unfold round_half_even.
  pose proof (Qfloor_le x) as L. pose proof (Qlt_floor x) as U.
  rewrite inject_Z_plus in U. change (inject_Z 1) with 1 in U.
  set (f := Qfloor x) in *.
  apply Qabs_Qle_condition.
  destruct (Qcompare_spec (x - inject_Z f) (1 # 2)) as [E|E|E].
  - destruct (Z.even f);
      [|rewrite inject_Z_plus; change (inject_Z 1) with 1]; split; lra.
  - split; lra.
  - rewrite inject_Z_plus; change (inject_Z 1) with 1. split; lra.
Qed.

Lemma round_half_even_wd x y : x == y -> round_half_even x = round_half_even y.
Proof.
  intro H. unfold round_half_even.
  rewrite (Qfloor_comp x y H).
  assert (E : x - inject_Z (Qfloor y) == y - inject_Z (Qfloor y))
    by (rewrite H; reflexivity).
  rewrite (Qcompare_comp _ _ E (1 # 2) (1 # 2) (Qeq_refl _)). reflexivity.
Qed.

Lemma zlog10_loop_spec fuel : forall n,
  (1 <= n)%Z -> (Z.log2 n <= Z.of_nat fuel)%Z ->
  (0 <= zlog10_loop fuel n /\
   10 ^ zlog10_loop fuel n <= n < 10 ^ (zlog10_loop fuel n + 1))%Z.
Proof.
  induction fuel as [|fuel IH]; intros n Hn Hl.
  - cbn [zlog10_loop].
    assert (n = 1)%Z.
    { destruct (Z.eq_dec n 1) as [|N]; [assumption|].
      assert (0 < Z.log2 n)%Z by (apply Z.log2_pos; lia). lia. }
    subst. cbn. lia.
  - cbn [zlog10_loop]. destruct (Z.ltb_spec n 10) as [L|L].
    + cbn. lia.
    + assert (H1 : (1 <= n / 10)%Z) by (apply Z.div_le_lower_bound; lia).
      assert (Hl' : (Z.log2 (n / 10) <= Z.of_nat fuel)%Z).
      { assert (Z.log2 (n / 10) < Z.log2 n)%Z; [|lia].
        apply Z.log2_lt_pow2; [lia|].
        destruct (Z.log2_spec n ltac:(lia)) as [_ B].
        rewrite Z.pow_succ_r in B by apply Z.log2_nonneg.
        apply Z.div_lt_upper_bound; lia. }
      destruct (IH _ H1 Hl') as (P0 & P1 & P2).
      set (k := zlog10_loop fuel (n / 10)) in *.
      split; [lia|].
      replace (1 + k)%Z with (Z.succ k) by lia.
      replace (Z.succ k + 1)%Z with (Z.succ (k + 1)) by lia.
      rewrite !Z.pow_succ_r by lia.
      pose proof (Z.div_mod n 10 ltac:(lia)).
      pose proof (Z.mod_pos_bound n 10 ltac:(lia)). lia.
Qed.

Lemma zlog10_spec n :
  (1 <= n)%Z ->
  (0 <= zlog10 n /\ 10 ^ zlog10 n <= n < 10 ^ (zlog10 n + 1))%Z.
Proof.
  intro Hn. apply zlog10_loop_spec; [exact Hn|].
  pose proof (Z.log2_nonneg n). lia.
Qed.

Lemma pow10_pos e : 0 < pow10 e.
Proof. apply Qpower_0_lt. reflexivity. Qed.

Lemma pow10_inject k : (0 <= k)%Z -> pow10 k == inject_Z (10 ^ k).
Proof. intro H. unfold pow10. rewrite Zpower_Qpower by exact H. reflexivity. Qed.

Lemma pow10_mono i j : (i <= j)%Z -> pow10 i <= pow10 j.
Proof.
  intro H. apply Qpower_le_compat_l; [exact H|]. vm_compute. discriminate.
Qed.

Lemma Qabs_make x :
  Qabs x == inject_Z (Z.abs (Qnum x)) / inject_Z (Zpos (Qden x)).
Proof. destruct x as [n d]. cbn [Qabs Qnum Qden]. apply Qmake_Qdiv. Qed.

(** [ilog10 x] is the exponent of the leading digit of [x]. *)
Lemma ilog10_spec x :
  ~ x == 0 -> pow10 (ilog10 x) <= Qabs x /\ Qabs x < pow10 (ilog10 x + 1).
Proof.
  intro Hx. unfold ilog10.
  assert (Hn : (1 <= Z.abs (Qnum x))%Z).
  { destruct x as [n d]. cbn [Qnum]. unfold Qeq in Hx. cbn in Hx. lia. }
  destruct (zlog10_spec _ Hn) as (A0 & A1 & A2).
  destruct (zlog10_spec (Zpos (Qden x)) ltac:(lia)) as (B0 & B1 & B2).
  set (a := zlog10 (Z.abs (Qnum x))) in *.
  set (b := zlog10 (Zpos (Qden x))) in *.
  assert (Hd : 0 < inject_Z (Zpos (Qden x))) by reflexivity.
  destruct (Qle_bool (pow10 (a - b)) (Qabs x)) eqn:E.
  - split; [apply Qle_bool_iff; exact E|].
    rewrite Qabs_make. apply Qlt_shift_div_r; [exact Hd|].
    replace (a - b + 1)%Z with ((a + 1) - b)%Z by lia.
    unfold pow10. rewrite Qpower_minus by discriminate.
    fold (pow10 (a + 1)). fold (pow10 b).
    rewrite !pow10_inject by lia.
    assert (Hb : 0 < inject_Z (10 ^ b))
      by (rewrite <- pow10_inject by lia; apply pow10_pos).
    assert (E1 : inject_Z (10 ^ (a + 1)) / inject_Z (10 ^ b)
                 * inject_Z (Zpos (Qden x))
                 == inject_Z (10 ^ (a + 1)) * inject_Z (Zpos (Qden x))
                    / inject_Z (10 ^ b)) by (field; lra).
    rewrite E1. apply Qlt_shift_div_l; [exact Hb|].
    rewrite <- !inject_Z_mult. rewrite <- Zlt_Qlt. nia.
  - split.
    + rewrite Qabs_make. apply Qle_shift_div_l; [exact Hd|].
      replace (a - b - 1)%Z with (a - (b + 1))%Z by lia.
      unfold pow10. rewrite Qpower_minus by discriminate.
      fold (pow10 a). fold (pow10 (b + 1)).
      rewrite !pow10_inject by lia.
      assert (Hb : 0 < inject_Z (10 ^ (b + 1)))
        by (rewrite <- pow10_inject by lia; apply pow10_pos).
      assert (E1 : inject_Z (10 ^ a) / inject_Z (10 ^ (b + 1))
                   * inject_Z (Zpos (Qden x))
                   == inject_Z (10 ^ a) * inject_Z (Zpos (Qden x))
                      / inject_Z (10 ^ (b + 1))) by (field; lra).
      rewrite E1. apply Qle_shift_div_r; [exact Hb|].
      rewrite <- !inject_Z_mult. rewrite <- Zle_Qle. nia.
    + replace (a - b - 1 + 1)%Z with (a - b)%Z by lia.
      apply Qnot_le_lt. intro H. apply Qle_bool_iff in H. congruence.
Qed.

Lemma ilog10_unique x i :
  pow10 i <= Qabs x -> Qabs x < pow10 (i + 1) -> ilog10 x = i.
Proof.
  intros Hlo Hhi. pose proof (pow10_pos i) as Hp.
  assert (Hx : ~ x == 0).
  { intro H. rewrite H in Hlo. change (Qabs 0) with 0 in Hlo. lra. }
  destruct (ilog10_spec x Hx) as [Jlo Jhi].
  set (j := ilog10 x) in *.
  destruct (Z.lt_trichotomy j i) as [L|[L|L]]; [|exact L|].
  - pose proof (pow10_mono (j + 1) i ltac:(lia)). lra.
  - pose proof (pow10_mono (i + 1) j ltac:(lia)). lra.
Qed.

Lemma ilog10_wd x y : x == y -> ~ x == 0 -> ilog10 x = ilog10 y.
Proof.
  intros H Hx.
  assert (Hy : ~ y == 0) by (rewrite <- H; exact Hx).
  destruct (ilog10_spec y Hy) as [Jlo Jhi].
  apply ilog10_unique; rewrite H; assumption.
Qed.

(** The rounding of the context respects numeric equality. *)
Lemma ctx_wd x y : x == y -> ctx x == ctx y.
Proof.
  intro H. unfold ctx.
  destruct (Qeq_bool x 0) eqn:Ex, (Qeq_bool y 0) eqn:Ey.
  - reflexivity.
  - apply Qeq_bool_iff in Ex. rewrite H in Ex. apply Qeq_bool_iff in Ex.
    congruence.
  - apply Qeq_bool_iff in Ey. rewrite <- H in Ey. apply Qeq_bool_iff in Ey.
    congruence.
  - assert (Hx : ~ x == 0) by (intro E; apply Qeq_bool_iff in E; congruence).
    rewrite (ilog10_wd x y H Hx).
    set (e := (ilog10 y - (prec - 1))%Z).
    assert (E : x / pow10 e == y / pow10 e) by (rewrite H; reflexivity).
    rewrite (round_half_even_wd _ _ E). reflexivity.
Qed.

(** It moves a value by at most half a unit in the last place. *)
Lemma ctx_rounds : rounds ctx.
Proof.
  intro x. unfold ctx. destruct (Qeq_bool x 0) eqn:E.
  - apply Qeq_bool_iff in E. rewrite E. vm_compute. discriminate.
  - assert (Hx : ~ x == 0) by (intro H; apply Qeq_bool_iff in H; congruence).
    destruct (ilog10_spec x Hx) as [Hlo _].
    set (e := (ilog10 x - (prec - 1))%Z).
    pose proof (round_half_even_near (x / pow10 e)) as Hn.
    set (n := round_half_even (x / pow10 e)) in *.
    pose proof (pow10_pos e) as Hp.
    assert (Heq : inject_Z n * pow10 e - x
                  == (inject_Z n - x / pow10 e) * pow10 e) by (field; lra).
    rewrite Heq, Qabs_Qmult, (Qabs_pos (pow10 e)) by lra.
    assert (HP : pow10 e * inject_Z (10 ^ 27) == pow10 (ilog10 x)).
    { unfold e, pow10. rewrite Qpower_minus by discriminate.
      change (10 ^ (prec - 1)) with (inject_Z (10 ^ 27)). field. discriminate. }
    assert (Hu : unit_roundoff * inject_Z (10 ^ 27) == 1 # 2) by reflexivity.
    set (K := inject_Z (10 ^ 27)) in *.
    assert (HK : 0 < K) by reflexivity.
    set (d := Qabs (inject_Z n - x / pow10 e)) in *.
    set (P := pow10 e) in *. set (X := Qabs x) in *.
    set (L := pow10 (ilog10 x)) in *.
    assert (H1 : d * P <= (1 # 2) * P) by (apply Qmult_le_compat_r; lra).
    assert (H2 : unit_roundoff * (P * K) <= unit_roundoff * X).
    { apply Qmult_le_l; [reflexivity|]. lra. }
    assert (H3 : unit_roundoff * (P * K) == (1 # 2) * P).
    { rewrite <- Hu. ring. }
    lra.
Qed.

Lemma unrounded_rounds : rounds unrounded.
Proof.
  intro x. unfold unrounded.
  assert (E : x - x == 0) by ring. rewrite E. change (Qabs 0) with 0.
  apply Qmult_le_0_compat; [vm_compute; discriminate | apply Qabs_nonneg].
Qed.

Lemma unit_roundoff_range : 0 <= unit_roundoff <= 1.
Proof. split; vm_compute; discriminate. Qed.

(** *** Relative errors *)

Lemma within_refl a : within 0 a a.
Proof. unfold within. lra. Qed.

Lemma within_weaken r r' a b :
  0 <= b -> r <= r' -> within r a b -> within r' a b.
Proof. unfold within. intros Hb Hr [L U]. split; nra. Qed.

Lemma within_ext r a a' b b' :
  a == a' -> b == b' -> within r a b -> within r a' b'.
Proof. unfold within. intros Ea Eb [L U]. rewrite <- Ea, <- Eb. tauto. Qed.

Lemma within_pos r a b : 0 < b -> r < 1 -> within r a b -> 0 < a.
Proof. unfold within. intros Hb Hr [L U]. nra. Qed.

Lemma within_nonneg r a b : 0 <= b -> r <= 1 -> within r a b -> 0 <= a.
Proof. unfold within. intros Hb Hr [L U]. nra. Qed.

Lemma within_abs r a b : 0 <= b -> within r a b -> Qabs (a - b) <= r * b.
Proof.
  unfold within. intros Hb [L U]. apply Qabs_Qle_condition. split; lra.
Qed.

Lemma within_scale r k a b :
  0 <= k -> within r a b -> within r (k * a) (k * b).
Proof. unfold within. intros Hk [L U]. split; nra. Qed.

Lemma within_div_by r k a b :
  0 < k -> within r a b -> within r (a / k) (b / k).
Proof.
  intros Hk H.
  assert (Hi : 0 < / k) by (apply Qinv_lt_0_compat; exact Hk).
  apply (within_scale r (/ k)) in H; [|lra].
  unfold Qdiv. destruct H as [L U]. split; lra.
Qed.

Lemma within_add r a b c d :
  within r a b -> within r c d -> within r (a + c) (b + d).
Proof. unfold within. intros [L U] [L' U']. split; lra. Qed.

Lemma within_mul r1 r2 a b c d :
  0 <= b -> 0 <= d -> 0 <= r1 <= 1 -> 0 <= r2 <= 1 ->
  within r1 a b -> within r2 c d ->
  within (r1 + r2 + r1 * r2) (a * c) (b * d).
Proof.
  unfold within. intros Hb Hd [H1 H1'] [H2 H2'] [L U] [L' U'].
  assert (A0 : 0 <= b * (1 - r1)) by nra.
  assert (C0 : 0 <= d * (1 - r2)) by nra.
  assert (Lo : b * (1 - r1) * (d * (1 - r2)) <= a * c) by nra.
  assert (Hi : a * c <= b * (1 + r1) * (d * (1 + r2))) by nra.
  assert (Z0 : 0 <= b * d * (r1 * r2)) by nra.
  split; lra.
Qed.

Lemma within_one_minus r a b :
  0 <= r -> 0 <= b <= 1 # 2 -> within r a b -> within r (1 - a) (1 - b).
Proof. unfold within. intros Hr [Hb Hb'] [L U]. split; nra. Qed.

Lemma within_div r1 r2 a b c d :
  0 <= b -> 0 < d -> 0 <= r1 <= 1 -> 0 <= r2 -> r2 < 1 ->
  within r1 a b -> within r2 c d ->
  within ((r1 + r2) / (1 - r2)) (a / c) (b / d).
Proof.
  intros Hb Hd [H1 H1'] H2 H2' Ha Hc.
  assert (Ha0 : 0 <= a) by (apply (within_nonneg r1 a b); assumption).
  assert (Hcpos : 0 < c) by (apply (within_pos r2 c d); assumption).
  set (R := (r1 + r2) / (1 - r2)).
  assert (HR : R * (1 - r2) == r1 + r2) by (unfold R; field; lra).
  assert (HR0 : 0 <= R).
  { unfold R. apply Qle_shift_div_l; lra. }
  set (q := a / c). assert (Hq : q * c == a) by (unfold q; field; lra).
  set (B := b / d). assert (HB : B * d == b) by (unfold B; field; lra).
  assert (HB0 : 0 <= B) by (unfold B; apply Qle_shift_div_l; lra).
  unfold within in *. destruct Ha as [La Ua], Hc as [Lc Uc].
  rewrite <- Hq in La, Ua. rewrite <- HB in La, Ua.
  assert (Hq0 : 0 <= q).
  { assert (0 <= q * c) by lra.
    destruct (Qlt_le_dec q 0) as [N|N]; [|exact N]. exfalso. nra. }
  split.
  - assert (S1 : B * d * (1 - r1) <= q * (d * (1 + r2))) by nra.
    assert (S2 : B * (1 - r1) <= q * (1 + r2)) by nra.
    assert (S3 : (1 - R) * (1 + r2) <= 1 - r1) by nra.
    nra.
  - assert (S1 : q * (d * (1 - r2)) <= B * d * (1 + r1)) by nra.
    assert (S2 : q * (1 - r2) <= B * (1 + r1)) by nra.
    assert (S3 : (1 + R) * (1 - r2) == 1 + r1) by nra.
    nra.
Qed.

(** A comparison of two numerals. *)
Ltac numeral := apply Qle_bool_iff; vm_compute; reflexivity.
Ltac numerals := split; numeral.
Ltac numeral_lt :=
  let H := fresh "H" in
  apply Qnot_le_lt; intro H; apply Qle_bool_iff in H; vm_compute in H;
  discriminate.

Section Rounding.

Variable rnd : Decimal -> Decimal.
Hypothesis Hrnd : rounds rnd.

Lemma rounds_within r a b :
  0 <= b -> 0 <= r <= 1 -> within r a b -> within (rounded r) (rnd a) b.
Proof.
  intros Hb Hr Ha. pose proof (Hrnd a) as H.
  assert (Ha0 : 0 <= a) by (apply (within_nonneg r a b); tauto).
  rewrite (Qabs_pos a) in H by exact Ha0.
  apply Qabs_Qle_condition in H.
  pose proof unit_roundoff_range as Hu. unfold rounded.
  set (u := unit_roundoff) in *. clearbody u.
  unfold within in *. destruct Ha as [L U], H as [L' U'], Hr, Hu.
  assert (A0 : 0 <= b * (1 - r)) by nra.
  assert (Lo : b * (1 - r) * (1 - u) <= rnd a) by nra.
  assert (Hi : rnd a <= b * (1 + r) * (1 + u)) by nra.
  assert (Z0 : 0 <= b * (r * u)) by nra.
  split; nra.
Qed.

Lemma rounds_once x : 0 <= x -> within (rounded 0) (rnd x) x.
Proof.
  intro Hx. apply rounds_within; [exact Hx | numerals | apply within_refl].
Qed.

Lemma rounds_nonpos x : x <= 0 -> rnd x <= 0.
Proof.
  intro Hx. pose proof (Hrnd x) as H.
  rewrite (Qabs_neg x) in H by exact Hx.
  apply Qabs_Qle_condition in H.
  pose proof unit_roundoff_range as Hu.
  set (u := unit_roundoff) in *. clearbody u. nra.
Qed.

Lemma rounds_zero x : x == 0 -> rnd x == 0.
Proof.
  intro Hx. pose proof (Hrnd x) as H.
  rewrite (Qabs_pos x) in H by lra.
  apply Qabs_Qle_condition in H.
  pose proof unit_roundoff_range as Hu.
  set (u := unit_roundoff) in *. clearbody u. nra.
Qed.

End Rounding.

(** One part in [10 ^ 26] and in [10 ^ 25], as numerals. *)
Lemma parts_26 (b : Q) :
  b / inject_Z (10 ^ 26) == (1 # 100000000000000000000000000) * b.
Proof.
  unfold Qdiv.
  setoid_replace (/ inject_Z (10 ^ 26))
    with (1 # 100000000000000000000000000) by reflexivity.
  ring.
Qed.

Lemma parts_25 (b : Q) :
  b / inject_Z (10 ^ 25) == (1 # 10000000000000000000000000) * b.
Proof.
  unfold Qdiv.
  setoid_replace (/ inject_Z (10 ^ 25))
    with (1 # 10000000000000000000000000) by reflexivity.
  ring.
Qed.

Lemma within_parts (a b : Q) :
  0 <= b -> within (1 # 100000000000000000000000000) a b ->
  Qabs (a - b) <= b / inject_Z (10 ^ 26).
Proof.
  intros Hb H. rewrite parts_26. apply within_abs; assumption.
Qed.

(** *** The break-even move, to within one part in [10 ^ 26] *)

Lemma move_bounds (m e x : Q) :
  0 <= e <= 1 -> 0 <= x <= 1 ->
  within (1 # 100000000000000000000000000) m ((e + x) / (1 - x / 100)) ->
  0 <= m <= 3 /\
  within (1 # 100000000000000000000000000) ((1 - x / 100) * m) (e + x).
Proof.
  intros [He He'] [Hx Hx'] Hm.
  assert (Ek : x / 100 == x * (1 # 100)) by field.
  assert (Hk : 0 < 1 - x / 100) by lra.
  assert (Hm0 : 0 <= (e + x) / (1 - x / 100)) by (apply Qle_shift_div_l; lra).
  assert (Hmk : within (1 # 100000000000000000000000000)
                  ((1 - x / 100) * m) (e + x)).
  { apply (within_scale _ (1 - x / 100)) in Hm; [|lra].
    revert Hm. apply within_ext; [reflexivity | field; lra]. }
  split; [|exact Hmk].
  assert (Hm1 : 0 <= m).
  { apply (within_nonneg _ _ _ Hm0) in Hm; [exact Hm | numeral]. }
  split; [exact Hm1|].
  destruct Hmk as [_ U]. rewrite Ek in U. nra.
Qed.

Lemma break_even_arith (a m e x fe fx : Q) :
  0 <= a -> 0 <= e <= 1 -> 0 <= x <= 1 ->
  within (1 # 100000000000000000000000000) m ((e + x) / (1 - x / 100)) ->
  within (1 # 100000000000000000000000000) fe (a * (e / 100)) ->
  within (1 # 100000000000000000000000000) fx (a * (1 + m / 100) * (x / 100)) ->
  0 <= fe /\
  Qabs (a * m / 100 - fe - fx) <= (1 # 100000000000000000000000000) * a.
Proof.
  intros Ha He Hx Hm Hfe Hfx.
  destruct (move_bounds m e x He Hx Hm) as [[Hm0 Hm3] [Lk Uk]].
  destruct He as [He He'], Hx as [Hx Hx'].
  assert (Ee : e / 100 == e * (1 # 100)) by field.
  assert (Ex : x / 100 == x * (1 # 100)) by field.
  assert (Em : m / 100 == m * (1 # 100)) by field.
  assert (Eam : a * m / 100 == a * m * (1 # 100)) by field.
  unfold within in Hfe, Hfx. rewrite Ee in Hfe. rewrite Ex, Em in Hfx.
  rewrite Ex in Lk, Uk. rewrite Eam.
  destruct Hfe as [Lfe Ufe], Hfx as [Lfx Ufx].
  set (u := (1 - x * (1 # 100)) * m - (e + x)) in *.
  assert (Hu : - (2 # 100000000000000000000000000) <= u
               <= 2 # 100000000000000000000000000) by (unfold u; split; lra).
  assert (Hau : - (2 # 100000000000000000000000000) * a <= a * u
                <= (2 # 100000000000000000000000000) * a) by (split; nra).
  assert (Hae : 0 <= a * e <= a) by (split; nra).
  assert (Ham : 0 <= a * m <= 3 * a) by (split; nra).
  assert (Hamx : 0 <= a * (1 + m * (1 # 100)) * x <= (103 # 100) * a)
    by (split; nra).
  assert (Eid : a * m * (1 # 100) - a * (e * (1 # 100))
                - a * (1 + m * (1 # 100)) * (x * (1 # 100))
                == (1 # 100) * (a * u)) by (unfold u; ring).
  split; [nra|].
  apply Qabs_Qle_condition. split; lra.
Qed.

Lemma higher_exit_arith (a m e x fe H fxh : Q) :
  0 < a -> 0 <= e <= 1 -> 0 <= x <= 1 ->
  within (1 # 100000000000000000000000000) m ((e + x) / (1 - x / 100)) ->
  within (1 # 100000000000000000000000000) fe (a * (e / 100)) ->
  a * (1 + m / 100) * (1 + (1 # 10000000000000000000000000)) <= H ->
  within (1 # 100000000000000000000000000) fxh (H * (x / 100)) ->
  a + fe < H - fxh.
Proof.
  intros Ha He Hx Hm Hfe HH Hfx.
  destruct (move_bounds m e x He Hx Hm) as [[Hm0 Hm3] [Lk Uk]].
  destruct He as [He He'], Hx as [Hx Hx'].
  assert (Ee : e / 100 == e * (1 # 100)) by field.
  assert (Ex : x / 100 == x * (1 # 100)) by field.
  assert (Em : m / 100 == m * (1 # 100)) by field.
  unfold within in Hfe, Hfx. rewrite Ee in Hfe. rewrite Ex in Hfx, Lk, Uk.
  rewrite Em in HH.
  destruct Hfe as [Lfe Ufe], Hfx as [Lfx Ufx].
  set (k := 1 - x * (1 # 100)) in *.
  set (W := a * (1 + m * (1 # 100))) in *.
  assert (Hae : 0 <= a * e <= a) by (split; nra).
  assert (Ham : 0 <= a * m <= 3 * a) by (split; nra).
  assert (HW : a <= W <= (103 # 100) * a) by (unfold W; split; lra).
  assert (HH0 : 0 <= H) by nra.
  assert (HHx : 0 <= H * x <= H) by (split; nra).
  (* W k >= a (1 + e/100) - 0.02 eps a *)
  assert (Hakm : a * (e + x) * (1 - (1 # 100000000000000000000000000))
                 <= a * (k * m)).
  { assert (T : 0 <= a * (k * m
                          - (e + x) * (1 - (1 # 100000000000000000000000000))))
      by (apply Qmult_le_0_compat; lra).
    lra. }
  assert (HWk : a + a * e * (1 # 100)
                - (2 # 10000000000000000000000000000) * a <= W * k).
  { assert (E : W * k == a * k + (1 # 100) * (a * (k * m))) by (unfold W; ring).
    assert (Eak : a * k == a - (1 # 100) * (a * x)) by (unfold k; ring).
    assert (Hax : 0 <= a * x <= a) by (split; nra).
    rewrite E, Eak. lra. }
  (* c' = k - eps x / 100 *)
  set (c := k - (1 # 100000000000000000000000000) * (x * (1 # 100))).
  assert (Hc : (98 # 100) <= c <= 1) by (unfold c, k; split; lra).
  assert (Hlow : H * c <= H - fxh) by (unfold c, k; nra).
  assert (HWc : W * k - (103 # 10000000000000000000000000000) * a <= W * c).
  { unfold c. assert (0 <= W * x <= (103 # 100) * a) by (split; nra). nra. }
  assert (HHc : W * (1 + (1 # 10000000000000000000000000)) * c <= H * c) by nra.
  assert (HWc0 : (9 # 10) * a <= W * c) by nra.
  assert (Hexp : W * (1 + (1 # 10000000000000000000000000)) * c
                 == W * c + (1 # 10000000000000000000000000) * (W * c)) by ring.
  nra.
Qed.

End RoundingFacts.
Import RoundingFacts.

(** ** Risk manager *)

Module RiskFacts.

Import Risk.

Section Breakers.

Variable settings : Config.Settings.

(** When each breaker fires. *)
Lemma check_drawdown_fires (s : StrategyStateData) :
  fst (check_drawdown settings s) = true <->
  ~ peak_equity s == 0 /\
  Config.max_drawdown_pct settings <= current_drawdown_pct s.
Proof.
  unfold check_drawdown. repeat dec_case; cbn; split; try tauto; try discriminate.
  all: intros [? ?]; contradiction.
Qed.

Lemma check_consecutive_losses_fires (s : StrategyStateData) :
  fst (check_consecutive_losses settings s) = true <->
  (Config.max_consecutive_losses settings <= consecutive_losses s)%Z.
Proof.
  unfold check_consecutive_losses.
  destruct (Z.leb_spec (Config.max_consecutive_losses settings)
              (consecutive_losses s)); cbn; split; auto; try discriminate; lia.
Qed.

Lemma check_volatility_bounds_fires (atr : option Decimal) :
  fst (check_volatility_bounds settings atr) = true <->
  exists a, atr = Some a /\
    (a < Config.min_activity_pct settings \/ Config.max_activity_pct settings < a).
Proof.
  unfold check_volatility_bounds. destruct atr as [a|]; cbn.
  2:{ split; [discriminate | intros (a & E & _); discriminate]. }
  repeat dec_case; cbn; split; try discriminate; eauto.
  intros (a' & E & H). injection E as <-. destruct H; contradiction.
Qed.

Lemma check_spread_fires (md : MarketData) :
  fst (check_spread settings md) = true <->
  inject_Z (Config.max_spread_bps settings) < spread_bps md.
Proof.
  unfold check_spread. dec_case; cbn; split; auto; discriminate.
Qed.

Lemma check_stale_data_fires (now : datetime) (hb : option datetime) :
  fst (check_stale_data settings now hb) = true <->
  hb = None \/
  exists t, hb = Some t /\
    inject_Z (Config.max_ws_stale_seconds settings) < total_seconds now t.
Proof.
  unfold check_stale_data. destruct hb as [t|]; cbn; [|tauto].
  dec_case; cbn; split; eauto; try discriminate.
  intros [E | (t' & E & H)]; [discriminate|]. injection E as <-. contradiction.
Qed.

(** The tag of the volatility breaker follows the side of the band. *)
Lemma low_volatility_reason (a : Decimal) :
  a < Config.min_activity_pct settings ->
  check_volatility_bounds settings (Some a)
    = (true, Some [Lit "ATR "; Fixed 2 a; Lit "% below minimum ";
                   Fixed 2 (Config.min_activity_pct settings);
                   Lit "% (too choppy)"]).
Proof.
  intro H. unfold check_volatility_bounds. dec_case; [reflexivity|contradiction].
Qed.

Lemma high_volatility_reason (a : Decimal) :
  Config.max_activity_pct settings < a ->
  Config.min_activity_pct settings <= a ->
  check_volatility_bounds settings (Some a)
    = (true, Some [Lit "ATR "; Fixed 2 a; Lit "% above maximum ";
                   Fixed 2 (Config.max_activity_pct settings);
                   Lit "% (too volatile)"]).
Proof.
  intros H L. unfold check_volatility_bounds. dec_case; [lra|].
  dec_case; [reflexivity|contradiction].
Qed.

Lemma volatility_tag (atr : option Decimal) :
  fst (check_volatility_bounds settings atr) = true ->
  reason_mentions "too choppy" (snd (check_volatility_bounds settings atr))
  = match atr with
    | Some a => dec_lt a (Config.min_activity_pct settings)
    | None => false
    end.
Proof.
  unfold check_volatility_bounds. destruct atr as [a|]; cbn; [|discriminate].
  repeat dec_case; cbn [fst snd]; try discriminate; intros _; reflexivity.
Qed.

End Breakers.

Section Results.

Variable settings : Config.Settings.

(** What each breaker answers, from its condition. *)
Lemma check_drawdown_result (s : StrategyStateData) :
  (Spec.drawdown_breached settings s ->
   check_drawdown settings s
   = (true, Some [Lit "Drawdown "; Fixed 2 (current_drawdown_pct s);
                  Lit "% exceeds limit ";
                  Fixed 2 (Config.max_drawdown_pct settings); Lit "%"])) /\
  (~ Spec.drawdown_breached settings s ->
   check_drawdown settings s = (false, None)).
Proof.
  unfold Spec.drawdown_breached, check_drawdown.
  repeat dec_case; split; intro H; try reflexivity; tauto.
Qed.

Lemma check_consecutive_losses_result (s : StrategyStateData) :
  (Spec.losses_breached settings s ->
   check_consecutive_losses settings s
   = (true, Some [Lit "Consecutive losses "; IntP (consecutive_losses s);
                  Lit " exceeds limit ";
                  IntP (Config.max_consecutive_losses settings)])) /\
  (~ Spec.losses_breached settings s ->
   check_consecutive_losses settings s = (false, None)).
Proof.
  unfold Spec.losses_breached, check_consecutive_losses.
  destruct (Z.leb_spec (Config.max_consecutive_losses settings)
              (consecutive_losses s)); split; intro; try reflexivity; lia.
Qed.

Lemma check_daily_loss_limit_result (rm : RiskManager) (now : datetime)
    (s : StrategyStateData) :
  (Spec.daily_loss_breached settings rm now s ->
   fst (check_daily_loss_limit settings rm now s)
   = (true, Some [Lit "Daily loss ";
                  Fixed 2 (Qabs (daily_pnl rm / total_equity s * 100));
                  Lit "% exceeds limit ";
                  Fixed 2 (Config.daily_loss_limit_pct settings); Lit "%"])) /\
  (~ Spec.daily_loss_breached settings rm now s ->
   fst (check_daily_loss_limit settings rm now s) = (false, None)).
Proof.
  unfold Spec.daily_loss_breached, check_daily_loss_limit.
  destruct (daily_pnl_reset_time rm) as [t|].
  2:{ cbn [daily_pnl]. split.
      - intros ((t & E & _) & _). discriminate.
      - intros _. destruct (dec_eqP (total_equity s) 0); [reflexivity|].
        destruct (dec_ltP 0 0) as [L|L]; [lra | reflexivity]. }
  destruct (Z.ltb_spec (date t) (date now)) as [D|D].
  { cbn [daily_pnl]. split.
    - intros ((t' & E & Hd) & _). injection E as <-. lia.
    - intros _. destruct (dec_eqP (total_equity s) 0); [reflexivity|].
      destruct (dec_ltP 0 0) as [L|L]; [lra | reflexivity]. }
  destruct (dec_eqP (total_equity s) 0) as [Z0|Z0].
  { split; [intros (_ & H & _); contradiction | reflexivity]. }
  destruct (dec_ltP (daily_pnl rm) 0) as [L|L]; cbn [andb].
  2:{ split; [intros (_ & _ & H & _); contradiction | reflexivity]. }
  destruct (dec_geP (Qabs (daily_pnl rm / total_equity s * 100))
              (Config.daily_loss_limit_pct settings)) as [G|G].
  - split; [reflexivity|]. intro H. exfalso. apply H.
    split; [exists t; split; [reflexivity | lia]|]. tauto.
  - split; [intros (_ & _ & _ & H); contradiction | reflexivity].
Qed.

Lemma check_volatility_bounds_result (s : StrategyStateData) :
  (forall a, Spec.volatility_low settings s a ->
   check_volatility_bounds settings (atr_pct s)
   = (true, Some [Lit "ATR "; Fixed 2 a; Lit "% below minimum ";
                  Fixed 2 (Config.min_activity_pct settings);
                  Lit "% (too choppy)"])) /\
  (forall a, Spec.volatility_high settings s a ->
   check_volatility_bounds settings (atr_pct s)
   = (true, Some [Lit "ATR "; Fixed 2 a; Lit "% above maximum ";
                  Fixed 2 (Config.max_activity_pct settings);
                  Lit "% (too volatile)"])) /\
  (Spec.volatility_in_band settings s ->
   check_volatility_bounds settings (atr_pct s) = (false, None)).
Proof.
  unfold Spec.volatility_low, Spec.volatility_high, Spec.volatility_in_band.
  split; [|split].
  - intros a [-> H]. now apply low_volatility_reason.
  - intros a (-> & L & H). now apply high_volatility_reason.
  - destruct (atr_pct s) as [a|]; [|reflexivity].
    intros [L H]. unfold check_volatility_bounds.
    dec_case; [lra|]. dec_case; [lra | reflexivity].
Qed.

Lemma check_spread_result (md : MarketData) :
  (Spec.spread_breached settings md ->
   check_spread settings md
   = (true, Some [Lit "Spread "; Fixed 1 (spread_bps md);
                  Lit " bps exceeds limit ";
                  IntP (Config.max_spread_bps settings); Lit " bps"])) /\
  (~ Spec.spread_breached settings md ->
   check_spread settings md = (false, None)).
Proof.
  unfold Spec.spread_breached, check_spread.
  dec_case; split; intro; try reflexivity; tauto.
Qed.

Lemma check_stale_data_result (now : datetime) (hb : option datetime) :
  (Spec.heartbeat_stale settings now hb ->
   check_stale_data settings now hb
   = (true,
      match hb with
      | Some t => Some [Lit "Data stale for "; Fixed 1 (total_seconds now t);
                        Lit "s (limit ";
                        IntP (Config.max_ws_stale_seconds settings); Lit "s)"]
      | None => Some [Lit "No heartbeat received"]
      end)) /\
  (~ Spec.heartbeat_stale settings now hb ->
   check_stale_data settings now hb = (false, None)).
Proof.
  unfold Spec.heartbeat_stale, check_stale_data.
  destruct hb as [t|]; [|tauto].
  dec_case; split; intro; try reflexivity; tauto.
Qed.

End Results.

(** C5.  The six conditions are read off the state, the risk manager, the
    quote and the heartbeat: a drawdown at or above the limit (with a peak
    equity that is not zero); a losing streak at or above the limit; a
    negative daily P&L, on the day of its last reset, whose size in
    percent of a non-zero equity reaches the limit; an ATR below or above
    the activity band; a spread above the limit; a heartbeat that is
    missing or older than the limit.  [check_all_circuit_breakers] pauses
    with the tag and the reason of the first condition that holds in that
    order, whatever the later ones are; below the band the tag is
    LOW_VOLATILITY with the "too choppy" reason, above it HIGH_VOLATILITY
    with the "too volatile" reason; a missing heartbeat is stale at once;
    when none holds the answer is not to pause. *)
Theorem breakers_fire_in_priority_order settings (rm : RiskManager)
    (now_daily now_stale : datetime) (s : StrategyStateData)
    (md : MarketData) (hb : option datetime) :
  let outcome :=
    fst (check_all_circuit_breakers settings rm now_daily now_stale s md hb) in
  let drawdown := Spec.drawdown_breached settings s in
  let losses := Spec.losses_breached settings s in
  let daily := Spec.daily_loss_breached settings rm now_daily s in
  let in_band := Spec.volatility_in_band settings s in
  let spread := Spec.spread_breached settings md in
  let stale := Spec.heartbeat_stale settings now_stale hb in
  (drawdown ->
   outcome = (true, Some MAX_DRAWDOWN,
              Some [Lit "Drawdown "; Fixed 2 (current_drawdown_pct s);
                    Lit "% exceeds limit ";
                    Fixed 2 (Config.max_drawdown_pct settings); Lit "%"])) /\
  (~ drawdown -> losses ->
   outcome = (true, Some CONSECUTIVE_LOSSES,
              Some [Lit "Consecutive losses "; IntP (consecutive_losses s);
                    Lit " exceeds limit ";
                    IntP (Config.max_consecutive_losses settings)])) /\
  (~ drawdown -> ~ losses -> daily ->
   outcome = (true, Some DAILY_LOSS_LIMIT,
              Some [Lit "Daily loss ";
                    Fixed 2 (Qabs (daily_pnl rm / total_equity s * 100));
                    Lit "% exceeds limit ";
                    Fixed 2 (Config.daily_loss_limit_pct settings); Lit "%"])) /\
  (~ drawdown -> ~ losses -> ~ daily ->
   forall a, Spec.volatility_low settings s a ->
   outcome = (true, Some LOW_VOLATILITY,
              Some [Lit "ATR "; Fixed 2 a; Lit "% below minimum ";
                    Fixed 2 (Config.min_activity_pct settings);
                    Lit "% (too choppy)"])) /\
  (~ drawdown -> ~ losses -> ~ daily ->
   forall a, Spec.volatility_high settings s a ->
   outcome = (true, Some HIGH_VOLATILITY,
              Some [Lit "ATR "; Fixed 2 a; Lit "% above maximum ";
                    Fixed 2 (Config.max_activity_pct settings);
                    Lit "% (too volatile)"])) /\
  (~ drawdown -> ~ losses -> ~ daily -> in_band -> spread ->
   outcome = (true, Some SPREAD_TOO_WIDE,
              Some [Lit "Spread "; Fixed 1 (spread_bps md);
                    Lit " bps exceeds limit ";
                    IntP (Config.max_spread_bps settings); Lit " bps"])) /\
  (~ drawdown -> ~ losses -> ~ daily -> in_band -> ~ spread -> stale ->
   outcome = (true, Some STALE_DATA,
              match hb with
              | Some t =>
                  Some [Lit "Data stale for ";
                        Fixed 1 (total_seconds now_stale t); Lit "s (limit ";
                        IntP (Config.max_ws_stale_seconds settings); Lit "s)"]
              | None => Some [Lit "No heartbeat received"]
              end)) /\
  (~ drawdown -> ~ losses -> ~ daily -> in_band -> ~ spread -> ~ stale ->
   outcome = (false, None, None)) /\
  Spec.heartbeat_stale settings now_stale None.
Proof.
  cbv zeta. unfold check_all_circuit_breakers.
  pose proof (check_drawdown_result settings s) as [D1 D0].
  pose proof (check_consecutive_losses_result settings s) as [L1 L0].
  pose proof (check_daily_loss_limit_result settings rm now_daily s) as [Y1 Y0].
  pose proof (check_volatility_bounds_result settings s) as (Vlow & Vhigh & V0).
  pose proof (check_spread_result settings md) as [S1 S0].
  pose proof (check_stale_data_result settings now_stale hb) as [H1 H0].
  destruct (check_daily_loss_limit settings rm now_daily s) as [daily rm'].
  cbn [fst] in Y1, Y0.
  repeat split.
  - intro d. now rewrite (D1 d).
  - intros d l. now rewrite (D0 d), (L1 l).
  - intros d l y. now rewrite (D0 d), (L0 l), (Y1 y).
  - intros d l y a v. rewrite (D0 d), (L0 l), (Y0 y), (Vlow a v). reflexivity.
  - intros d l y a v. rewrite (D0 d), (L0 l), (Y0 y), (Vhigh a v). reflexivity.
  - intros d l y v p. now rewrite (D0 d), (L0 l), (Y0 y), (V0 v), (S1 p).
  - intros d l y v p h.
    now rewrite (D0 d), (L0 l), (Y0 y), (V0 v), (S0 p), (H1 h).
  - intros d l y v p h.
    now rewrite (D0 d), (L0 l), (Y0 y), (V0 v), (S0 p), (H0 h).
Qed.

Lemma breakers_fire_in_priority_order_witness :
  fst (check_all_circuit_breakers Config.defaults Risk.new 0%Z 0%Z
         Scenarios.distressed_state Scenarios.wide_tick None)
    = (true, Some MAX_DRAWDOWN,
       Some [Lit "Drawdown "; Fixed 2 25; Lit "% exceeds limit "; Fixed 2 20;
             Lit "%"]) /\
  fst (check_all_circuit_breakers Config.defaults Risk.new 0%Z 0%Z
         Scenarios.losing_state Scenarios.wide_tick None)
    = (true, Some CONSECUTIVE_LOSSES,
       Some [Lit "Consecutive losses "; IntP 7; Lit " exceeds limit "; IntP 5]) /\
  fst (check_all_circuit_breakers Config.defaults Scenarios.yesterdays_losses
         1%Z 0%Z Scenarios.healthy_state Scenarios.wide_tick None)
    = (true, Some DAILY_LOSS_LIMIT,
       Some [Lit "Daily loss "; Fixed 2 (Qabs (-700 / 5000 * 100));
             Lit "% exceeds limit "; Fixed 2 10; Lit "%"]) /\
  fst (check_all_circuit_breakers Config.defaults Risk.new 0%Z 0%Z
         Scenarios.healthy_state Scenarios.wide_tick None)
    = (true, Some SPREAD_TOO_WIDE,
       Some [Lit "Spread "; Fixed 1 (spread_bps Scenarios.wide_tick);
             Lit " bps exceeds limit "; IntP 10; Lit " bps"]) /\
  fst (check_all_circuit_breakers Config.defaults Risk.new 0%Z 0%Z
         Scenarios.healthy_state (Scenarios.tick 49999 50001) None)
    = (true, Some STALE_DATA, Some [Lit "No heartbeat received"]) /\
  fst (check_all_circuit_breakers Config.defaults Risk.new 0%Z 0%Z
         Scenarios.healthy_state (Scenarios.tick 49999 50001) (Some 0%Z))
    = (false, None, None).
Proof.
  split; [|split; [|split; [|split; [|split]]]].
  - destruct (breakers_fire_in_priority_order Config.defaults Risk.new 0%Z 0%Z
                Scenarios.distressed_state Scenarios.wide_tick None)
      as (H & _).
    apply H. split; vm_compute; discriminate.
  - destruct (breakers_fire_in_priority_order Config.defaults Risk.new 0%Z 0%Z
                Scenarios.losing_state Scenarios.wide_tick None)
      as (_ & H & _).
    apply H.
    + intros [_ H25]. vm_compute in H25. apply H25. reflexivity.
    + vm_compute. discriminate.
  - destruct (breakers_fire_in_priority_order Config.defaults
                Scenarios.yesterdays_losses 1%Z 0%Z
                Scenarios.healthy_state Scenarios.wide_tick None)
      as (_ & _ & H & _).
    apply H.
    + intros [_ H25]. vm_compute in H25. apply H25. reflexivity.
    + vm_compute. intro L. apply L. reflexivity.
    + split; [exists 0%Z; split; [reflexivity | vm_compute; discriminate]|].
      repeat split; vm_compute; discriminate.
  - destruct (breakers_fire_in_priority_order Config.defaults Risk.new 0%Z 0%Z
                Scenarios.healthy_state Scenarios.wide_tick None)
      as (_ & _ & _ & _ & _ & H & _).
    apply H.
    + intros [_ H25]. vm_compute in H25. apply H25. reflexivity.
    + vm_compute. intro L. apply L. reflexivity.
    + intros ((t & E & _) & _). discriminate.
    + split; vm_compute; discriminate.
    + vm_compute. reflexivity.
  - destruct (breakers_fire_in_priority_order Config.defaults Risk.new 0%Z 0%Z
                Scenarios.healthy_state (Scenarios.tick 49999 50001) None)
      as (_ & _ & _ & _ & _ & _ & H & _).
    apply H.
    + intros [_ H25]. vm_compute in H25. apply H25. reflexivity.
    + vm_compute. intro L. apply L. reflexivity.
    + intros ((t & E & _) & _). discriminate.
    + split; vm_compute; discriminate.
    + vm_compute. discriminate.
    + exact I.
  - destruct (breakers_fire_in_priority_order Config.defaults Risk.new 0%Z 0%Z
                Scenarios.healthy_state (Scenarios.tick 49999 50001) (Some 0%Z))
      as (_ & _ & _ & _ & _ & _ & _ & H & _).
    apply H.
    + intros [_ H25]. vm_compute in H25. apply H25. reflexivity.
    + vm_compute. intro L. apply L. reflexivity.
    + intros ((t & E & _) & _). discriminate.
    + split; vm_compute; discriminate.
    + vm_compute. discriminate.
    + vm_compute. discriminate.
Defined.

End RiskFacts.

(** ** Ledger and drawdown bookkeeping *)

Module LedgerFacts.

Import Portfolio.

Lemma opt_eq_refl (a : option Decimal) : Spec.opt_eq a a.
Proof. destruct a; cbn; [reflexivity | exact I]. Qed.

Lemma state_eq_refl (s : StrategyStateData) : Spec.state_eq s s.
Proof.
  unfold Spec.state_eq.
  repeat split; try reflexivity; apply opt_eq_refl.
Qed.

Lemma drawdown_pct_in_range (peak total : Decimal) :
  0 < peak -> 0 <= total -> total <= peak ->
  0 <= (peak - total) / peak * 100 <= 100.
Proof.
  intros Hp Ht Hle.
  assert (L : 0 <= (peak - total) / peak) by (apply Qle_shift_div_l; lra).
  assert (U : (peak - total) / peak <= 1) by (apply Qle_shift_div_r; lra).
  lra.
Qed.

Lemma drawdown_pct_at_peak (peak : Decimal) :
  0 < peak -> (peak - peak) / peak * 100 == 0.
Proof. intro H. field. lra. Qed.

(** [RiskManager.update_drawdown] *)
Section UpdateDrawdown.

Variable s : StrategyStateData.

Lemma update_drawdown_peak_monotone :
  peak_equity s <= peak_equity (Risk.update_drawdown s).
Proof.
  unfold Risk.update_drawdown. repeat dec_case; cbn; lra.
Qed.

Lemma update_drawdown_new_peak :
  peak_equity s < total_equity s ->
  peak_equity (Risk.update_drawdown s) = total_equity s /\
  current_drawdown_pct (Risk.update_drawdown s) = 0.
Proof.
  intro H. unfold Risk.update_drawdown.
  dec_case; [cbn; auto | contradiction].
Qed.

Lemma update_drawdown_idempotent :
  Spec.state_eq (Risk.update_drawdown (Risk.update_drawdown s))
                (Risk.update_drawdown s).
Proof.
  unfold Risk.update_drawdown at 2 3.
  destruct (dec_gtP (total_equity s) (peak_equity s)) as [G|G].
  - unfold Risk.update_drawdown; cbn.
    destruct (dec_gtP (total_equity s) (total_equity s)) as [A|A]; [lra|].
    destruct (dec_gtP (total_equity s) 0) as [B|B]; [|apply state_eq_refl].
    unfold Spec.state_eq; cbn.
    repeat split; try reflexivity; try apply opt_eq_refl.
    now apply drawdown_pct_at_peak.
  - destruct (dec_gtP (peak_equity s) 0) as [B|B].
    + unfold Risk.update_drawdown; cbn.
      destruct (dec_gtP (total_equity s) (peak_equity s)); [contradiction|].
      destruct (dec_gtP (peak_equity s) 0); [|contradiction].
      apply state_eq_refl.
    + unfold Risk.update_drawdown.
      destruct (dec_gtP (total_equity s) (peak_equity s)); [contradiction|].
      destruct (dec_gtP (peak_equity s) 0); [contradiction|].
      apply state_eq_refl.
Qed.

Lemma update_drawdown_in_range :
  0 <= total_equity s ->
  0 <= current_drawdown_pct s <= 100 ->
  0 <= current_drawdown_pct (Risk.update_drawdown s) <= 100.
Proof.
  intros Ht Hd. unfold Risk.update_drawdown.
  destruct (dec_gtP (total_equity s) (peak_equity s)) as [G|G]; [cbn; lra|].
  destruct (dec_gtP (peak_equity s) 0) as [B|B]; [|assumption].
  cbn. apply drawdown_pct_in_range; lra.
Qed.

End UpdateDrawdown.

(** [Portfolio.sync_state] *)
Section SyncState.

Variable self : Portfolio.
Variable s : StrategyStateData.
Variable btc_price : Decimal.

Lemma sync_state_total_equity :
  total_equity (sync_state self s btc_price) = get_equity self btc_price.
Proof. unfold sync_state. repeat dec_case; reflexivity. Qed.

Lemma sync_state_peak_monotone :
  peak_equity s <= peak_equity (sync_state self s btc_price).
Proof.
  unfold sync_state. cbn. repeat dec_case; cbn in *; lra.
Qed.

Lemma sync_state_new_peak :
  peak_equity s < get_equity self btc_price ->
  peak_equity (sync_state self s btc_price) = get_equity self btc_price /\
  current_drawdown_pct (sync_state self s btc_price) == 0.
Proof.
  intro H. unfold sync_state. cbn.
  destruct (dec_gtP (get_equity self btc_price) (peak_equity s)); [|contradiction].
  cbn. destruct (dec_gtP (get_equity self btc_price) 0) as [B|B]; cbn.
  - split; [reflexivity | now apply drawdown_pct_at_peak].
  - split; reflexivity.
Qed.

Lemma sync_state_idempotent :
  sync_state self (sync_state self s btc_price) btc_price
  = sync_state self s btc_price.
Proof.
  unfold sync_state. cbn.
  destruct (dec_gtP (get_equity self btc_price) (peak_equity s)) as [G|G]; cbn.
  - destruct (dec_gtP (get_equity self btc_price) 0) as [B|B]; cbn.
    + destruct (dec_gtP (get_equity self btc_price) (get_equity self btc_price));
        [lra|]. cbn.
      destruct (dec_gtP (get_equity self btc_price) 0); [reflexivity|contradiction].
    + destruct (dec_gtP (get_equity self btc_price) (get_equity self btc_price));
        [lra|]. cbn.
      destruct (dec_gtP (get_equity self btc_price) 0); [contradiction|reflexivity].
  - destruct (dec_gtP (peak_equity s) 0) as [B|B]; cbn.
    + destruct (dec_gtP (get_equity self btc_price) (peak_equity s));
        [contradiction|]. cbn.
      destruct (dec_gtP (peak_equity s) 0); [reflexivity|contradiction].
    + destruct (dec_gtP (get_equity self btc_price) (peak_equity s));
        [contradiction|]. cbn.
      destruct (dec_gtP (peak_equity s) 0); [contradiction|reflexivity].
Qed.

Lemma sync_state_in_range :
  0 <= get_equity self btc_price ->
  0 <= current_drawdown_pct (sync_state self s btc_price) <= 100.
Proof.
  intro Ht. unfold sync_state. cbn.
  destruct (dec_gtP (get_equity self btc_price) (peak_equity s)) as [G|G]; cbn.
  - destruct (dec_gtP (get_equity self btc_price) 0) as [B|B]; cbn; [|lra].
    apply drawdown_pct_in_range; lra.
  - destruct (dec_gtP (peak_equity s) 0) as [B|B]; cbn; [|lra].
    apply drawdown_pct_in_range; lra.
Qed.

End SyncState.

(** C6.  Neither [RiskManager.update_drawdown] nor [Portfolio.sync_state]
    lowers [peak_equity]; when the total equity exceeds the previous peak
    the peak becomes the total equity and the drawdown becomes 0; doing the
    update twice gives the state of doing it once; and with a total equity
    that is not negative the drawdown stays within [[0, 100]]. *)
Theorem drawdown_bookkeeping_invariant (s : StrategyStateData)
    (self : Portfolio) (btc_price : Decimal) :
  let u := Risk.update_drawdown s in
  let y := sync_state self s btc_price in
  (peak_equity s <= peak_equity u /\ peak_equity s <= peak_equity y) /\
  (peak_equity s < total_equity s ->
   peak_equity u = total_equity s /\ current_drawdown_pct u == 0) /\
  (peak_equity s < total_equity y ->
   peak_equity y = total_equity y /\ current_drawdown_pct y == 0) /\
  (Spec.state_eq (Risk.update_drawdown u) u /\ sync_state self y btc_price = y) /\
  (0 <= total_equity s -> 0 <= current_drawdown_pct s <= 100 ->
   0 <= current_drawdown_pct u <= 100) /\
  (0 <= total_equity y -> 0 <= current_drawdown_pct y <= 100).
Proof.
  cbv zeta. rewrite sync_state_total_equity.
  split; [split|split; [|split; [|split; [split|split]]]].
  - apply update_drawdown_peak_monotone.
  - apply sync_state_peak_monotone.
  - intro H. destruct (update_drawdown_new_peak s H) as [E1 E2].
    rewrite E2. split; [exact E1 | reflexivity].
  - now apply sync_state_new_peak.
  - apply update_drawdown_idempotent.
  - apply sync_state_idempotent.
  - now apply update_drawdown_in_range.
  - now apply sync_state_in_range.
Qed.

Lemma drawdown_bookkeeping_invariant_witness :
  0 <= current_drawdown_pct (Risk.update_drawdown Scenarios.distressed_state)
    <= 100 /\
  0 <= current_drawdown_pct
         (sync_state Scenarios.ledger_after_buy Scenarios.distressed_state 90)
    <= 100 /\
  peak_equity (sync_state Scenarios.ledger_after_buy Scenarios.long_state 90)
    = total_equity (sync_state Scenarios.ledger_after_buy Scenarios.long_state 90).
Proof.
  destruct (drawdown_bookkeeping_invariant Scenarios.distressed_state
              Scenarios.ledger_after_buy 90) as (_ & _ & _ & _ & Hu & Hy).
  destruct (drawdown_bookkeeping_invariant Scenarios.long_state
              Scenarios.ledger_after_buy 90) as (_ & _ & Hp & _).
  split; [|split].
  - apply Hu; [vm_compute; discriminate | split; vm_compute; discriminate].
  - apply Hy. vm_compute. discriminate.
  - apply Hp. vm_compute. reflexivity.
Defined.

(** The ledger after a round trip: the cash moved by the whole result of
    the trade, but the realized P&L on record is minus the sell fee. *)
Lemma ledger_round_trip (cash0 q p p' f1 f2 : Decimal) :
  q * p + f1 <= cash0 ->
  exists cost proceeds l1 l2,
    execute_buy (new cash0 0) q p f1 = (Ok cost, l1) /\
    execute_sell l1 q p' f2 = (Ok proceeds, l2) /\
    realized_pnl l2 == - f2 /\
    cash l2 - cash0 == q * (p' - p) - f1 - f2.
Proof.
  intro H.
  exists (q * p + f1), (q * p' - f2),
    {| cash := cash0 - (q * p + f1); btc := 0 + q; initial_equity := cash0;
       realized_pnl := 0 |},
    {| cash := cash0 - (q * p + f1) + (q * p' - f2); btc := 0 + q - q;
       initial_equity := cash0; realized_pnl := 0 + (q * p' - f2 - q * p') |}.
  split; [|split].
  - unfold execute_buy, new. cbn [cash btc initial_equity realized_pnl].
    destruct (dec_ltP cash0 (q * p + f1)) as [L|L]; [lra | reflexivity].
  - unfold execute_sell. cbn [cash btc initial_equity realized_pnl].
    destruct (dec_ltP (0 + q) q) as [L|L]; [lra | reflexivity].
  - cbn [cash btc initial_equity realized_pnl]. split; ring.
Qed.

(** The P&L the paper and live traders book for the same round trip leaves
    the buy fee out. *)
Lemma trader_round_trip (s : StrategyStateData) (q p : Decimal)
    (ts : datetime) (fill : OrderFill) :
  ~ p == 0 ->
  fill_qty fill = q ->
  Drivers.trader_realized_pnl (Strategy.update_state_after_buy s p q ts) fill
  == q * (fill_price fill - p) - fee fill.
Proof.
  intros Hp <-. unfold Drivers.trader_realized_pnl. cbn.
  destruct (dec_eqP p 0); [contradiction|]. cbn. ring.
Qed.

(** The backtester cannot book a sell at all: its P&L line subtracts a
    float from a Decimal. *)
Lemma backtester_sell_raises settings s portfolio rm price atr is_maker ts :
  0 < btc portfolio ->
  Drivers.backtester_sell settings s portfolio rm price atr is_maker ts
  = Raise TypeError.
Proof.
  intro H. unfold Drivers.backtester_sell.
  destruct (dec_gtP (btc portfolio) 0); [|contradiction].
  destruct (last_buy_price s); reflexivity.
Qed.

(** C2 at a concrete round trip: 1 unit bought at 100 for a fee of 1 and
    sold at 110 for a fee of 2 out of 10000 in cash.  The result of the
    trade is 7, which is what the cash moved by.  The ledger records -2,
    the traders book 8, [sync_state] then overwrites the state's realized
    P&L with the ledger's -2, and the backtester raises. *)
Theorem round_trip_pnl_example :
  Portfolio.execute_buy Scenarios.opening_ledger 1 100 1
    = (Ok (1 * 100 + 1), Scenarios.ledger_after_buy) /\
  Portfolio.execute_sell Scenarios.ledger_after_buy 1 110 2
    = (Ok (1 * 110 - 2), Scenarios.ledger_after_sell) /\
  1 * (110 - 100) - 1 - 2 == 7 /\
  cash Scenarios.ledger_after_sell - cash Scenarios.opening_ledger == 7 /\
  realized_pnl Scenarios.ledger_after_sell == -2 /\
  Drivers.trader_realized_pnl Scenarios.long_state Scenarios.sell_fill == 8 /\
  Models.realized_pnl
    (sync_state Scenarios.ledger_after_sell
       (fst (Drivers.trader_book_sell Scenarios.long_state Risk.new
               Scenarios.sell_fill)) 110) == -2 /\
  Drivers.backtester_sell Config.defaults Scenarios.long_state
    Scenarios.ledger_after_buy Risk.new 110 3 true 0%Z = Raise TypeError.
Proof.
  repeat split; vm_compute; reflexivity.
Qed.

End LedgerFacts.

(** ** Execution engine *)

Module ExecutionFacts.

Import Execution.
Import Spec.

Section Tasks.

Context {World : Type}.

Lemma ensures_ret {A} (a : A) (Q : result A -> Prop) :
  Q (Ok a) -> ensures (World:=World) (ret a) Q.
Proof. intros H w. exact H. Qed.

Lemma ensures_lift {A} (r : result A) (Q : result A -> Prop) :
  Q r -> ensures (World:=World) (lift r) Q.
Proof. intros H w. exact H. Qed.

Lemma ensures_draw {A} (op : World -> A * World) (Q : result A -> Prop) :
  (forall a, Q (Ok a)) -> ensures (draw op) Q.
Proof. intros H w. unfold draw. destruct (op w). apply H. Qed.

Lemma ensures_bind {A B} (t : Task World A) (k : A -> Task World B)
    (Q : result B -> Prop) :
  ensures t (fun r => match r with
                      | Ok a => ensures (k a) Q
                      | Raise e => Q (Raise e)
                      end) ->
  ensures (bind t k) Q.
Proof.
  intros H w. unfold bind. specialize (H w).
  destruct (t w) as [[[a|e] w']|]; [apply H | exact H | exact I].
Qed.

Lemma ensures_try {A} (body : Task World A) (handler : exn -> Task World A)
    (Q : result A -> Prop) :
  ensures body (fun r => match r with
                         | Ok a => Q (Ok a)
                         | Raise e => ensures (handler e) Q
                         end) ->
  ensures (try_except body handler) Q.
Proof.
  intros H w. unfold try_except. specialize (H w).
  destruct (body w) as [[[a|e] w']|]; [exact H | apply H | exact I].
Qed.

Lemma ensures_all {A} (t : Task World A) (Q : result A -> Prop) :
  (forall r, Q r) -> ensures t Q.
Proof. intros H w. destruct (t w) as [[r w']|]; [apply H | exact I]. Qed.

Lemma ensures_call {A} (op : World -> result A * World) (Q : result A -> Prop) :
  (forall w, Q (fst (op w))) -> ensures (call op) Q.
Proof.
  intros H w. unfold call. specialize (H w). now destruct (op w).
Qed.

Lemma ensures_weaken {A} (t : Task World A) (Q1 Q2 : result A -> Prop) :
  ensures t Q1 -> (forall r, Q1 r -> Q2 r) -> ensures t Q2.
Proof.
  intros H HQ w. specialize (H w).
  destruct (t w) as [[r w']|]; [now apply HQ | exact I].
Qed.

Lemma answers_intro {A} (t : Task World A) (Q : result A -> Prop) :
  ensures t Q -> terminates t -> answers t Q.
Proof.
  intros He Ht w. specialize (He w). specialize (Ht w).
  destruct (t w) as [[r w']|]; [eauto | contradiction].
Qed.

Lemma answers_ret {A} (a : A) (Q : result A -> Prop) :
  Q (Ok a) -> answers (World:=World) (ret a) Q.
Proof. intros H w. unfold ret. eauto. Qed.

Lemma answers_lift {A} (r : result A) (Q : result A -> Prop) :
  Q r -> answers (World:=World) (lift r) Q.
Proof. intros H w. unfold lift. eauto. Qed.

Lemma answers_draw {A} (op : World -> A * World) (Q : result A -> Prop) :
  (forall a, Q (Ok a)) -> answers (draw op) Q.
Proof. intros H w. unfold draw. destruct (op w). eauto. Qed.

Lemma answers_call {A} (op : World -> result A * World) (Q : result A -> Prop) :
  (forall w, Q (fst (op w))) -> answers (call op) Q.
Proof.
  intros H w. unfold call. specialize (H w). destruct (op w) as [r w']. eauto.
Qed.

Lemma answers_bind {A B} (t : Task World A) (k : A -> Task World B)
    (Q : result B -> Prop) :
  answers t (fun r => match r with
                      | Ok a => answers (k a) Q
                      | Raise e => Q (Raise e)
                      end) ->
  answers (bind t k) Q.
Proof.
  intros H w. unfold bind. destruct (H w) as ([a|e] & w' & -> & Hr).
  - apply Hr.
  - eauto.
Qed.

Lemma answers_try {A} (body : Task World A) (handler : exn -> Task World A)
    (Q : result A -> Prop) :
  answers body (fun r => match r with
                         | Ok a => Q (Ok a)
                         | Raise e => answers (handler e) Q
                         end) ->
  answers (try_except body handler) Q.
Proof.
  intros H w. unfold try_except. destruct (H w) as ([a|e] & w' & -> & Hr).
  - eauto.
  - apply Hr.
Qed.

Lemma terminates_ret {A} (a : A) : terminates (World:=World) (ret a).
Proof. intros w. discriminate. Qed.

Lemma terminates_lift {A} (r : result A) : terminates (World:=World) (lift r).
Proof. intros w. discriminate. Qed.

Lemma terminates_call {A} (op : World -> result A * World) :
  terminates (call op).
Proof. intros w. discriminate. Qed.

Lemma terminates_draw {A} (op : World -> A * World) :
  terminates (draw op).
Proof. intros w. unfold draw. destruct (op w). discriminate. Qed.

Lemma terminates_bind {A B} (t : Task World A) (k : A -> Task World B) :
  terminates t -> (forall a, terminates (k a)) -> terminates (bind t k).
Proof.
  intros Ht Hk w. unfold bind. specialize (Ht w).
  destruct (t w) as [[[a|e] w']|]; [apply Hk | discriminate | contradiction].
Qed.

Lemma terminates_try {A} (body : Task World A) (handler : exn -> Task World A) :
  terminates body -> (forall e, terminates (handler e)) ->
  terminates (try_except body handler).
Proof.
  intros Hb Hh w. unfold try_except. specialize (Hb w).
  destruct (body w) as [[[a|e] w']|]; [discriminate | apply Hh | contradiction].
Qed.

End Tasks.


Ltac ensures_step :=
  match goal with
  | |- ensures (ret _) _ => apply ensures_ret
  | |- ensures (lift _) _ => apply ensures_lift
  | |- ensures (bind _ _) _ => apply ensures_bind
  | |- ensures (try_except _ _) _ => apply ensures_try
  | |- ensures (draw _) _ => apply ensures_draw; intro
  | |- ensures (call _) _ => apply ensures_all; intros [?|?]
  | |- ensures (wait_for_fill _ _ _ _) _ => apply ensures_all; intros [[?|]|?]
  | |- ensures (if ?b then _ else _) _ => destruct b
  | |- True => exact I
  | |- _ => progress cbn [returns_outcome well_formed]
  end.

Ltac terminates_step :=
  match goal with
  | |- terminates (ret _) => apply terminates_ret
  | |- terminates (lift _) => apply terminates_lift
  | |- terminates (bind _ _) => apply terminates_bind; [|intro]
  | |- terminates (try_except _ _) => apply terminates_try; [|intro]
  | |- terminates (draw _) => apply terminates_draw
  | |- terminates (call _) => apply terminates_call
  | |- terminates (if ?b then _ else _) => destruct b
  | |- terminates (match ?x with _ => _ end) => destruct x
  end.

Section Engine.

Context {World : Type} {exchange : ExchangeAdapter World}
        {runtime : Runtime World}.
Variable settings : Config.Settings.
Variable self : ExecutionEngine.

(** When rounding the quantity raises. *)
Lemma round_quantity_ok (qty : Decimal) :
  ~ get_lot_size (symbol self) == 0 ->
  Qabs (qty / get_lot_size (symbol self)) < inject_Z (10 ^ prec) ->
  exists q, round_quantity (symbol self) qty = Ok q.
Proof.
  intros H L. unfold round_quantity. rewrite dec_floordiv_ok by assumption.
  eexists. reflexivity.
Qed.

Lemma round_quantity_zero_lot (qty : Decimal) :
  get_lot_size (symbol self) == 0 ->
  exists e, round_quantity (symbol self) qty = Raise e.
Proof.
  intro H. unfold round_quantity.
  destruct (dec_floordiv_zero qty _ H) as [e ->]. eauto.
Qed.

Lemma round_quantity_large (qty : Decimal) :
  ~ get_lot_size (symbol self) == 0 ->
  inject_Z (10 ^ prec) <= Qabs (qty / get_lot_size (symbol self)) ->
  round_quantity (symbol self) qty = Raise DivisionImpossible.
Proof.
  intros H L. unfold round_quantity. now rewrite dec_floordiv_large.
Qed.

(** A quantity that cannot be rounded makes either operation raise, before
    anything is asked of the exchange. *)
Lemma execute_buy_raises polls qty md maker_first e w :
  round_quantity (symbol self) qty = Raise e ->
  execute_buy settings polls self qty md maker_first w = Some (Raise e, w).
Proof. intro H. unfold execute_buy. rewrite H. reflexivity. Qed.

Lemma execute_sell_raises polls qty md maker_first e w :
  round_quantity (symbol self) qty = Raise e ->
  execute_sell settings polls self qty md maker_first w = Some (Raise e, w).
Proof. intro H. unfold execute_sell. rewrite H. reflexivity. Qed.

(** Once the quantity is rounded neither operation raises, whatever the
    exchange does, and the outcome has one of the two shapes. *)
Lemma execute_buy_ensures polls qty q md maker_first :
  round_quantity (symbol self) qty = Ok q ->
  ensures (execute_buy settings polls self qty md maker_first) returns_outcome.
Proof. intro H. unfold execute_buy. rewrite H. repeat ensures_step. Qed.

Lemma execute_sell_ensures polls qty q md maker_first :
  round_quantity (symbol self) qty = Ok q ->
  ensures (execute_sell settings polls self qty md maker_first) returns_outcome.
Proof. intro H. unfold execute_sell. rewrite H. repeat ensures_step. Qed.

(** *** Orders that are never filled *)

Lemma wait_loop_never_fills (polls : nat) :
  never_fills ->
  forall order_id start timeout w,
    match wait_loop polls self order_id start timeout w with
    | Some (Ok (Some _), _) => False
    | _ => True
    end.
Proof.
  intro Hnf. induction polls as [|n IH]; intros order_id start timeout w;
    cbn [wait_loop]; [exact I|].
  destruct (dec_lt (Risk.total_seconds (utcnow w) start) (inject_Z timeout));
    [|exact I].
  unfold bind, call. pose proof (Hnf (symbol self) order_id w) as Hst.
  destruct (get_order_status (symbol self) order_id w) as [[st|e] w1];
    cbn [fst] in Hst; [|exact I].
  destruct st; try exact I; try apply IH. congruence.
Qed.

Lemma wait_for_fill_never_fills polls order_id timeout :
  never_fills ->
  ensures (wait_for_fill polls self order_id timeout)
    (fun r => match r with Ok (Some _) => False | _ => True end).
Proof.
  intros Hnf w. unfold wait_for_fill.
  pose proof (wait_loop_never_fills polls Hnf order_id (utcnow w) timeout w) as H.
  destruct (wait_loop polls self order_id (utcnow w) timeout w)
    as [[[[f|]|e] w']|]; auto.
Qed.

(** Every status reported and none FILLED: the wait ends without a fill
    and without raising. *)
Lemma wait_loop_reports_unfilled (polls : nat) :
  reports_unfilled ->
  forall order_id start timeout w,
    match wait_loop polls self order_id start timeout w with
    | Some (r, _) => r = Ok None
    | None => True
    end.
Proof.
  intro Hru. induction polls as [|n IH]; intros order_id start timeout w;
    cbn [wait_loop]; [exact I|].
  destruct (dec_lt (Risk.total_seconds (utcnow w) start) (inject_Z timeout));
    [|reflexivity].
  unfold bind, call.
  destruct (Hru (symbol self) order_id w) as (st & Hst & Hun).
  destruct (get_order_status (symbol self) order_id w) as [r w1];
    cbn [fst] in Hst; subst r.
  destruct st; try discriminate; try reflexivity; apply IH.
Qed.

Lemma wait_for_fill_reports_unfilled polls order_id timeout :
  reports_unfilled ->
  ensures (wait_for_fill polls self order_id timeout) (fun r => r = Ok None).
Proof.
  intros Hru w. unfold wait_for_fill.
  apply (wait_loop_reports_unfilled polls Hru).
Qed.

End Engine.

(** One step through an operation of the engine when no order is ever
    reported filled. *)
Ltac unfilled_step Hnf :=
  match goal with
  | |- ensures (bind (wait_for_fill _ _ _ _) _) _ =>
      apply ensures_bind;
      apply (ensures_weaken _ _ _ (wait_for_fill_never_fills _ _ _ _ Hnf));
      intros [[?|]|?] ?; [contradiction | | ]
  | |- ensures (ret _) _ => apply ensures_ret
  | |- ensures (lift _) _ => apply ensures_lift
  | |- ensures (bind _ _) _ => apply ensures_bind
  | |- ensures (try_except _ _) _ => apply ensures_try
  | |- ensures (draw _) _ => apply ensures_draw; intro
  | |- ensures (call _) _ => apply ensures_all; intros [?|?]
  | |- ensures (if ?b then _ else _) _ => destruct b
  | |- True => exact I
  | |- _ => progress cbn [fails]
  end.

(** The same when every order is accepted and its status reported. *)
Ltac resting_step Hacc Hru :=
  match goal with
  | |- ensures (bind (wait_for_fill _ _ _ _) _) _ =>
      apply ensures_bind;
      apply (ensures_weaken _ _ _ (wait_for_fill_reports_unfilled _ _ _ _ Hru));
      intros ? ->
  | |- ensures (bind (call (place_order ?s ?o)) _) _ =>
      apply ensures_bind;
      let w := fresh "w" in
      let oid := fresh "oid" in
      let E := fresh "E" in
      apply ensures_call; intro w; destruct (Hacc s o w) as [oid E];
      rewrite E
  | |- ensures (ret _) _ => apply ensures_ret
  | |- ensures (lift _) _ => apply ensures_lift
  | |- ensures (bind _ _) _ => apply ensures_bind
  | |- ensures (try_except _ _) _ => apply ensures_try
  | |- ensures (draw _) _ => apply ensures_draw; intro
  | |- ensures (call _) _ => apply ensures_all; intros [?|?]
  | |- ensures (if ?b then _ else _) _ => destruct b
  | |- _ = _ => reflexivity
  end.

(** The same when every order is refused. *)
Ltac refused_step Href :=
  match goal with
  | |- answers (bind (call (place_order ?s ?o)) _) _ =>
      apply answers_bind; apply answers_call;
      let w := fresh "w" in
      let e := fresh "e" in
      let E := fresh "E" in
      intro w; destruct (Href s o w) as [e E]; rewrite E
  | |- answers (ret _) _ => apply answers_ret
  | |- answers (lift _) _ => apply answers_lift
  | |- answers (bind _ _) _ => apply answers_bind
  | |- answers (try_except _ _) _ => apply answers_try
  | |- answers (draw _) _ => apply answers_draw; intro
  | |- answers (if ?b then _ else _) _ => destruct b
  | |- exists _, _ = _ => eexists; reflexivity
  end.

Section Failures.

Context {World : Type} {exchange : ExchangeAdapter World}
        {runtime : Runtime World}.
Variable settings : Config.Settings.
Variable self : ExecutionEngine.

Lemma execute_buy_never_filled polls qty q md maker_first :
  never_fills ->
  round_quantity (symbol self) qty = Ok q ->
  ensures (execute_buy settings polls self qty md maker_first) fails.
Proof.
  intros Hnf H. unfold execute_buy. rewrite H. repeat unfilled_step Hnf.
Qed.

Lemma execute_sell_never_filled polls qty q md maker_first :
  never_fills ->
  round_quantity (symbol self) qty = Ok q ->
  ensures (execute_sell settings polls self qty md maker_first) fails.
Proof.
  intros Hnf H. unfold execute_sell. rewrite H. repeat unfilled_step Hnf.
Qed.

Lemma execute_buy_resting polls qty q md maker_first :
  accepts_orders -> reports_unfilled ->
  round_quantity (symbol self) qty = Ok q ->
  get_min_notional (symbol self) <= q * ask md ->
  ensures (execute_buy settings polls self qty md maker_first)
    (fun r => r = Ok (false, None, Some [Lit "Market order failed to fill"])).
Proof.
  intros Hacc Hru H Hmin. unfold execute_buy. rewrite H.
  apply ensures_bind, ensures_lift.
  destruct (dec_ltP (q * ask md) (get_min_notional (symbol self))); [lra|].
  repeat resting_step Hacc Hru.
Qed.

Lemma execute_sell_resting polls qty q md maker_first :
  accepts_orders -> reports_unfilled ->
  round_quantity (symbol self) qty = Ok q ->
  get_min_notional (symbol self) <= q * bid md ->
  ensures (execute_sell settings polls self qty md maker_first)
    (fun r => r = Ok (false, None, Some [Lit "Market order failed to fill"])).
Proof.
  intros Hacc Hru H Hmin. unfold execute_sell. rewrite H.
  apply ensures_bind, ensures_lift.
  destruct (dec_ltP (q * bid md) (get_min_notional (symbol self))); [lra|].
  repeat resting_step Hacc Hru.
Qed.

Lemma execute_buy_refused polls qty q md maker_first :
  refuses_orders ->
  round_quantity (symbol self) qty = Ok q ->
  get_min_notional (symbol self) <= q * ask md ->
  answers (execute_buy settings polls self qty md maker_first)
    (fun r => exists e,
       r = Ok (false, None, Some (Lit "Buy execution failed: " :: str_exn e))).
Proof.
  intros Href H Hmin. unfold execute_buy. rewrite H.
  apply answers_bind, answers_lift.
  destruct (dec_ltP (q * ask md) (get_min_notional (symbol self))); [lra|].
  repeat refused_step Href.
Qed.

Lemma execute_sell_refused polls qty q md maker_first :
  refuses_orders ->
  round_quantity (symbol self) qty = Ok q ->
  get_min_notional (symbol self) <= q * bid md ->
  answers (execute_sell settings polls self qty md maker_first)
    (fun r => exists e,
       r = Ok (false, None, Some (Lit "Sell execution failed: " :: str_exn e))).
Proof.
  intros Href H Hmin. unfold execute_sell. rewrite H.
  apply answers_bind, answers_lift.
  destruct (dec_ltP (q * bid md) (get_min_notional (symbol self))); [lra|].
  repeat refused_step Href.
Qed.

Lemma total_seconds_lt (a b : datetime) (t : Z) :
  Risk.total_seconds a b < inject_Z t <-> (a - b < t * 1000000)%Z.
Proof.
  unfold Risk.total_seconds, Qlt, Qdiv, Qmult, Qinv, inject_Z. cbn.
  rewrite !Z.mul_1_r. reflexivity.
Qed.

(** The polling loop comes to an end when sleeping moves the clock on and
    asking for a status does not move it back. *)
Section Clock.

Hypothesis sleep_advances :
  forall w, (utcnow w + 500000 <= utcnow (sleep (1 # 2) w))%Z.
Hypothesis status_keeps_time :
  forall sym order_id w,
    (utcnow w <= utcnow (snd (get_order_status sym order_id w)))%Z.

Lemma wait_loop_terminates (n : nat) :
  forall order_id start timeout w,
    (timeout * 1000000 - (utcnow w - start) <= Z.of_nat n * 500000)%Z ->
    wait_loop (S n) self order_id start timeout w <> None.
Proof.
  induction n as [|n IH]; intros order_id start timeout w Hrem;
    cbn [wait_loop];
    (destruct (dec_ltP (Risk.total_seconds (utcnow w) start) (inject_Z timeout))
       as [L|L]; [|discriminate]);
    apply total_seconds_lt in L;
    unfold bind, call;
    pose proof (status_keeps_time (symbol self) order_id w) as Hk;
    (destruct (get_order_status (symbol self) order_id w) as [[st|e] w1];
       [|discriminate]); cbn [snd] in Hk.
  - lia.
  - destruct st; try discriminate;
      try (apply IH; pose proof (sleep_advances w1); lia).
    destruct (get_order_fills (symbol self) order_id w1) as [[[|f fs]|e] w2];
      discriminate.
Qed.

Lemma wait_for_fill_terminates (polls : nat) order_id timeout :
  (0 < polls)%nat ->
  (2 * timeout < Z.of_nat polls)%Z ->
  terminates (wait_for_fill polls self order_id timeout).
Proof.
  intros Hpos H w. unfold wait_for_fill.
  destruct polls as [|n]; [lia|].
  apply wait_loop_terminates. lia.
Qed.

Lemma execute_buy_terminates polls qty md maker_first :
  (2 * Z.max (Config.order_timeout_seconds settings) 10 < Z.of_nat polls)%Z ->
  terminates (execute_buy settings polls self qty md maker_first).
Proof.
  intro H. unfold execute_buy.
  repeat (first [ apply wait_for_fill_terminates; cbn [timeout_seconds]; lia
                | terminates_step ]).
Qed.

Lemma execute_sell_terminates polls qty md maker_first :
  (2 * Z.max (Config.order_timeout_seconds settings) 10 < Z.of_nat polls)%Z ->
  terminates (execute_sell settings polls self qty md maker_first).
Proof.
  intro H. unfold execute_sell.
  repeat (first [ apply wait_for_fill_terminates; cbn [timeout_seconds]; lia
                | terminates_step ]).
Qed.

End Clock.

Lemma execute_buy_below_minimum polls qty q md maker_first w :
  round_quantity (symbol self) qty = Ok q ->
  q * ask md < get_min_notional (symbol self) ->
  execute_buy settings polls self qty md maker_first w
  = Some (Ok (false, None,
              Some [Lit "Order size $"; Fixed 2 (q * ask md);
                    Lit " below minimum $";
                    Fixed 2 (get_min_notional (symbol self))]), w).
Proof.
  intros Hq Hlt. unfold execute_buy. rewrite Hq. unfold bind, lift.
  destruct (dec_ltP (q * ask md) (get_min_notional (symbol self)));
    [reflexivity | contradiction].
Qed.

Lemma execute_sell_below_minimum polls qty q md maker_first w :
  round_quantity (symbol self) qty = Ok q ->
  q * bid md < get_min_notional (symbol self) ->
  execute_sell settings polls self qty md maker_first w
  = Some (Ok (false, None,
              Some [Lit "Order size $"; Fixed 2 (q * bid md);
                    Lit " below minimum $";
                    Fixed 2 (get_min_notional (symbol self))]), w).
Proof.
  intros Hq Hlt. unfold execute_sell. rewrite Hq. unfold bind, lift.
  destruct (dec_ltP (q * bid md) (get_min_notional (symbol self)));
    [reflexivity | contradiction].
Qed.

End Failures.

(** The ledger signals its two failures by raising. *)
Lemma ledger_buy_raises (ledger : Portfolio.Portfolio) (qty price fee : Decimal) :
  Portfolio.cash ledger < qty * price + fee ->
  Portfolio.execute_buy ledger qty price fee
  = (Raise (ValueError [Lit "Insufficient cash: have $";
                        Fixed 2 (Portfolio.cash ledger); Lit ", need $";
                        Fixed 2 (qty * price + fee)]), ledger).
Proof.
  intro H. unfold Portfolio.execute_buy.
  destruct (dec_ltP (Portfolio.cash ledger) (qty * price + fee));
    [reflexivity | contradiction].
Qed.

Lemma ledger_sell_raises (ledger : Portfolio.Portfolio) (qty price fee : Decimal) :
  Portfolio.btc ledger < qty ->
  Portfolio.execute_sell ledger qty price fee
  = (Raise (ValueError [Lit "Insufficient BTC: have ";
                        Fixed 8 (Portfolio.btc ledger); Lit ", need ";
                        Fixed 8 qty]), ledger).
Proof.
  intro H. unfold Portfolio.execute_sell.
  destruct (dec_ltP (Portfolio.btc ledger) qty); [reflexivity | contradiction].
Qed.

#[local] Existing Instance FakeExchange.adapter.
#[local] Existing Instance FakeExchange.runtime.

(** The simulated exchange keeps the clock as the engine needs it. *)
Lemma fake_sleep_advances (w : FakeExchange.World) :
  (utcnow w + 500000 <= utcnow (sleep (1 # 2) w))%Z.
Proof. cbn. lia. Qed.

Lemma fake_status_keeps_time (sym order_id : string) (w : FakeExchange.World) :
  (utcnow w <= utcnow (snd (get_order_status sym order_id w)))%Z.
Proof.
  cbn. unfold FakeExchange.get_order_status.
  destruct (FakeExchange.find_order order_id w); cbn; lia.
Qed.




End ExecutionFacts.

(** ** Strategy engine: volatility estimate, LONG branch, bookkeeping *)

Module StrategyMore.

Import Strategy.

(** *** [calculate_atr_pct] *)

Lemma true_ranges_length prev (cs : DataFrame) :
  List.length (true_ranges prev cs) = List.length cs.
Proof.
  revert prev. induction cs as [|c cs IH]; intro prev; cbn; [reflexivity|].
  now rewrite IH.
Qed.

Lemma true_range_nonneg (pc : Q) (c : Candle) : 0 <= true_range (Some pc) c.
Proof.
  unfold true_range.
  apply Qle_trans with (Qmax (Qabs (high c - pc)) (Qabs (low c - pc))).
  - apply Qle_trans with (Qabs (high c - pc)); [apply Qabs_nonneg | apply Q.le_max_l].
  - apply Q.le_max_r.
Qed.

Lemma true_ranges_nonneg (pc : Q) (cs : DataFrame) :
  Forall (fun x => 0 <= x) (true_ranges (Some pc) cs).
Proof.
  revert pc. induction cs as [|c cs IH]; intro pc; cbn; constructor.
  - apply true_range_nonneg.
  - apply IH.
Qed.

Lemma Forall_skipn {A} (P : A -> Prop) (n : nat) (l : list A) :
  Forall P l -> Forall P (skipn n l).
Proof.
  revert l. induction n as [|n IH]; intros l H; cbn; [assumption|].
  destruct l as [|x l]; [constructor|]. inversion H; subst. now apply IH.
Qed.

Lemma Qsum_nonneg (xs : list Q) : Forall (fun x => 0 <= x) xs -> 0 <= Qsum xs.
Proof.
  induction 1 as [|x xs Hx _ IH]; cbn; [apply Qle_refl|].
  change (0 <= x + Qsum xs). lra.
Qed.

(** The window of the rolling mean never reaches the first bar, the only
    one whose true range can be negative. *)
Lemma rolling_true_range_nonneg (period : nat) (cs : DataFrame) (atr : Q) :
  (period + 1 <= List.length cs)%nat ->
  rolling_mean_last period (true_ranges None cs) = Some atr ->
  0 <= atr.
Proof.
  intros Hlen. unfold rolling_mean_last. rewrite true_ranges_length.
  destruct ((period =? 0)%nat || (List.length cs <? period)%nat) eqn:E;
    [discriminate|].
  apply Bool.orb_false_iff in E. destruct E as [E0 _].
  apply Nat.eqb_neq in E0.
  intro H. injection H as <-.
  destruct cs as [|c cs]; [cbn in Hlen; lia|].
  cbn [true_ranges List.length] in *.
  replace (S (List.length cs) - period)%nat
    with (S (List.length cs - period))%nat by lia.
  cbn [skipn].
  apply Qle_shift_div_l.
  - change 0 with (inject_Z 0). rewrite <- Zlt_Qlt. lia.
  - rewrite Qmult_0_l. apply Qsum_nonneg, Forall_skipn, true_ranges_nonneg.
Qed.

Lemma last_close_in (cs : DataFrame) (p : Q) :
  List.last (map (fun c => Some (close c)) cs) None = Some p ->
  exists c, In c cs /\ close c = p.
Proof.
  induction cs as [|c cs IH]; cbn; [discriminate|].
  destruct cs as [|c' cs].
  - cbn. intro H. injection H as <-. eauto.
  - intro H. destruct (IH H) as (x & Hin & E). eauto.
Qed.

(** X1.  [calculate_atr_pct] is 0 for a frame of fewer than [period + 1]
    bars, and never negative on a frame whose closes are not negative,
    whatever its highs and lows. *)
Theorem atr_pct_zero_or_nonnegative (candles : DataFrame) (period : nat) :
  ((List.length candles < period + 1)%nat ->
   calculate_atr_pct candles period = 0) /\
  ((forall c, In c candles -> 0 <= close c) ->
   0 <= calculate_atr_pct candles period).
Proof.
  unfold calculate_atr_pct. split.
  - intro H. destruct (Nat.ltb_spec (List.length candles) (period + 1));
      [reflexivity | lia].
  - intro Hclose.
    destruct (Nat.ltb_spec (List.length candles) (period + 1)) as [H|H];
      [apply Qle_refl|].
    destruct (rolling_mean_last period (true_ranges None candles)) as [atr|] eqn:Ea;
      [|apply Qle_refl].
    destruct (List.last (map (fun c => Some (close c)) candles) None)
      as [p|] eqn:Ep; [|apply Qle_refl].
    destruct (dec_eqP p 0) as [Z|Z]; [apply Qle_refl|].
    pose proof (rolling_true_range_nonneg period candles atr H Ea) as Hatr.
    destruct (last_close_in candles p Ep) as (c & Hin & <-).
    pose proof (Hclose c Hin) as Hc.
    assert (Hq : 0 <= atr / close c) by (apply Qle_shift_div_l; lra).
    lra.
Qed.

Lemma atr_pct_zero_or_nonnegative_witness :
  0 <= calculate_atr_pct Scenarios.inverted_window 14 /\
  calculate_atr_pct (firstn 14 Scenarios.inverted_window) 14 = 0.
Proof.
  destruct (atr_pct_zero_or_nonnegative Scenarios.inverted_window 14) as [_ Hn].
  destruct (atr_pct_zero_or_nonnegative (firstn 14 Scenarios.inverted_window) 14)
    as [Hz _].
  split.
  - apply Hn. intros c Hin.
    apply repeat_spec in Hin. subst c. vm_compute. discriminate.
  - apply Hz. vm_compute. lia.
Defined.

(** *** [generate_signal] *)

Import StrategyFacts.

(** X2.  In LONG mode, not paused and with the trend filter letting the
    evaluation through, [generate_signal] first sets [last_trough] to the
    smaller of the previous trough (the price when there is none) and the
    price, then emits SELL when the rise from the entry price, in percent,
    reaches the sell threshold, and HOLD otherwise.  The threshold is the
    configured one, or on a window of 15 bars or more the one adapted from
    the ATR estimate of the window, whatever that estimate is.  With the
    entry at 47500 and a threshold of 5, SELL fires from 49875 upwards and
    not below. *)
Theorem long_sell_rule (estimate : DataFrame -> nat -> Decimal) settings self
    (s : StrategyStateData) (md : MarketData) (candles : option DataFrame)
    (entry : Decimal) :
  paused s = false ->
  state s = LONG ->
  Spec.trend_allows settings candles = true ->
  last_buy_price s = Some entry ->
  ~ entry == 0 ->
  let price := mid md in
  let trough :=
    match last_trough s with Some lt => Qmin lt price | None => price end in
  let threshold := snd (Spec.thresholds_with estimate self candles) in
  exists sig s',
    generate_signal_with settings estimate self s md candles = (Ok sig, s') /\
    last_trough s' = Some trough /\
    (threshold <= (price - entry) / entry * 100 -> signal_type sig = SELL) /\
    ((price - entry) / entry * 100 < threshold -> signal_type sig = HOLD) /\
    (entry == 47500 -> threshold == 5 ->
     (49875 <= price -> signal_type sig = SELL) /\
     (price < 49875 -> signal_type sig = HOLD)).
Proof.
  intros Hp Hs Ht He Hz price trough threshold.
  destruct (generate_signal_with_long estimate settings self s md candles entry
              Hp Hs Ht He Hz) as (sig & s' & E & Htr & Hsell & Hhold).
  fold price in Hsell, Hhold. fold threshold in Hsell, Hhold.
  exists sig, s'. repeat (split; [assumption|]).
  intros E47 E5.
  assert (Ed : (price - entry) / entry * 100 == (price - 47500) * (1 # 475)).
  { rewrite E47. field. }
  rewrite Ed, E5 in Hsell, Hhold. clearbody price.
  split; intro; [apply Hsell | apply Hhold]; lra.
Qed.

Lemma long_sell_rule_witness :
  (exists sig s',
     generate_signal Config.defaults Scenarios.static_engine Scenarios.long_state
       (Scenarios.tick 109 111) None = (Ok sig, s') /\
     last_trough s' = Some (Qmin 100 (mid (Scenarios.tick 109 111))) /\
     signal_type sig = SELL) /\
  (exists sig s',
     generate_signal_with Config.defaults Scenarios.unit_test_estimate
       Scenarios.adaptive_engine Scenarios.long_at_3300
       (Scenarios.tick 3366 3368) (Some Scenarios.unit_test_frame)
     = (Ok sig, s') /\
     signal_type sig = HOLD).
Proof.
  split.
  - destruct (long_sell_rule calculate_atr_pct Config.defaults
                Scenarios.static_engine
                Scenarios.long_state (Scenarios.tick 109 111) None 100)
      as (sig & s' & E & Ht & Hsell & _); try reflexivity.
    + vm_compute. discriminate.
    + exists sig, s'. split; [exact E|]. split; [exact Ht|].
      apply Hsell. vm_compute. discriminate.
  - destruct (long_sell_rule Scenarios.unit_test_estimate Config.defaults
                Scenarios.adaptive_engine Scenarios.long_at_3300
                (Scenarios.tick 3366 3368) (Some Scenarios.unit_test_frame) 3300)
      as (sig & s' & E & _ & _ & Hhold & _); try reflexivity.
    + vm_compute. discriminate.
    + exists sig, s'. split; [exact E|]. apply Hhold. vm_compute. reflexivity.
Defined.

(** X3.  A LONG state without an entry price is answered with HOLD and the
    reason "Missing buy price", the trough tracked all the same; an entry
    price of zero is not caught and the rise raises on the division. *)
Theorem long_without_entry_price settings self (s : StrategyStateData)
    (md : MarketData) (candles : option DataFrame) :
  paused s = false ->
  state s = LONG ->
  Spec.trend_allows settings candles = true ->
  let trough :=
    match last_trough s with Some lt => Qmin lt (mid md) | None => mid md end in
  (last_buy_price s = None ->
   exists s',
     generate_signal settings self s md candles
     = (Ok (hold (timestamp md) (mid md) [Lit "Missing buy price"]), s') /\
     last_trough s' = Some trough) /\
  (forall entry, last_buy_price s = Some entry -> entry == 0 ->
   exists e s',
     generate_signal settings self s md candles = (Raise e, s') /\
     last_trough s' = Some trough).
Proof.
  intros Hp Hs Ht trough. subst trough. split.
  - intro He.
    prelude self candles; rewrite Hp; try rewrite Ht; cbn [negb]; rewrite Hs.
    all: destruct (last_trough s) as [lt|] eqn:Elt;
      [ rewrite <- (trough_update_min (mid md) lt) in *;
        destruct (dec_lt (mid md) lt) | ];
      prelude_simpl; try rewrite He; try rewrite Elt.
    all: eexists; split; [reflexivity|]; prelude_simpl; try rewrite Elt;
      reflexivity.
  - intros entry He Hz.
    prelude self candles; rewrite Hp; try rewrite Ht; cbn [negb]; rewrite Hs.
    all: destruct (last_trough s) as [lt|] eqn:Elt;
      [ rewrite <- (trough_update_min (mid md) lt) in *;
        destruct (dec_lt (mid md) lt) | ];
      prelude_simpl; try rewrite He; try rewrite Elt.
    all: match goal with
         | |- context [dec_div ?a ?b] =>
             destruct (dec_div_zero a b Hz) as [e ->]
         end;
      eexists; eexists; (split; [reflexivity|]); prelude_simpl;
      try rewrite Elt; reflexivity.
Qed.

Lemma long_without_entry_price_witness :
  exists s',
    generate_signal Config.defaults Scenarios.static_engine
      (set_last_buy_price None Scenarios.long_state) (Scenarios.tick 109 111) None
    = (Ok (hold 0%Z (mid (Scenarios.tick 109 111)) [Lit "Missing buy price"]), s').
Proof.
  destruct (long_without_entry_price Config.defaults Scenarios.static_engine
              (set_last_buy_price None Scenarios.long_state)
              (Scenarios.tick 109 111) None) as [H _]; try reflexivity.
  destruct H as (s' & E & _); [reflexivity|].
  exists s'. exact E.
Defined.

Ltac signal_cases :=
  repeat match goal with
         | |- context [if ?b then _ else _] => destruct b eqn:?
         | |- context [match dec_div ?a ?b with _ => _ end] =>
             destruct (dec_div a b) eqn:?
         | |- context [match last_peak ?x with _ => _ end] =>
             destruct (last_peak x) eqn:?
         | |- context [match last_trough ?x with _ => _ end] =>
             destruct (last_trough x) eqn:?
         | |- context [match last_buy_price ?x with _ => _ end] =>
             destruct (last_buy_price x) eqn:?
         | |- context [match state ?x with _ => _ end] =>
             destruct (state x) eqn:?
         end.

(** X4.  Whatever the inputs and whatever the answer, [generate_signal]
    leaves the mode, the position, the prices of the last buy and sell, the
    P&L and equity figures, the drawdown, the streak and trade counters, the
    pause flag with its reason and the update time as they were: it writes
    the peak, the trough and the volatility fields only. *)
Theorem generate_signal_frame settings self (s : StrategyStateData)
    (md : MarketData) (candles : option DataFrame) :
  let s' := snd (generate_signal settings self s md candles) in
  state s' = state s /\
  last_buy_price s' = last_buy_price s /\
  last_sell_price s' = last_sell_price s /\
  current_position_qty s' = current_position_qty s /\
  realized_pnl s' = realized_pnl s /\
  unrealized_pnl s' = unrealized_pnl s /\
  total_equity s' = total_equity s /\
  peak_equity s' = peak_equity s /\
  current_drawdown_pct s' = current_drawdown_pct s /\
  consecutive_losses s' = consecutive_losses s /\
  consecutive_wins s' = consecutive_wins s /\
  total_trades s' = total_trades s /\
  winning_trades s' = winning_trades s /\
  paused s' = paused s /\
  pause_reason s' = pause_reason s /\
  last_update s' = last_update s.
Proof.
  cbv zeta. unfold generate_signal, generate_signal_with.
  destruct candles as [c|];
    [ destruct (15 <=? List.length c)%nat;
      [ destruct (adapt_thresholds self (calculate_atr_pct c 14)) | ] | ];
    prelude_simpl.
  all: destruct (paused s) eqn:Hp;
    [ cbn; rewrite ?Hp; repeat split; reflexivity | ].
  all: try (destruct (check_trend_filter settings c); cbn [negb]);
    try (cbn; rewrite ?Hp; repeat split; reflexivity).
  all: destruct (state s) eqn:Hs; prelude_simpl;
    try (cbn; rewrite ?Hp, ?Hs; repeat split; reflexivity).
  all: signal_cases; cbn; repeat split; try reflexivity; congruence.
Qed.

Ltac open_signal self s c :=
  cbv zeta; unfold generate_signal, generate_signal_with, Spec.trend_allows in *;
  [> destruct c as [?c|];
     [ destruct (15 <=? List.length c)%nat;
       [ destruct (adapt_thresholds self (calculate_atr_pct c 14)) | ] | ] .. ];
  prelude_simpl;
  (destruct (paused s) eqn:?Hpaused; [cbn | ]);
  try match goal with
      | |- context [check_trend_filter ?st ?w] =>
          destruct (check_trend_filter st w) eqn:?Htrend; cbn [negb]
      end.

(** X5.  Across a call of [generate_signal] a known peak never falls and a
    known trough never rises, whatever the mode and the answer; when the
    FLAT branch runs the peak ends at or above the price, and when the
    LONG branch runs the trough ends at or below it. *)
Theorem peak_and_trough_move_one_way settings self (s : StrategyStateData)
    (md : MarketData) (candles : option DataFrame) :
  let s' := snd (generate_signal settings self s md candles) in
  (forall lp, last_peak s = Some lp ->
     exists lp', last_peak s' = Some lp' /\ lp <= lp') /\
  (forall lt, last_trough s = Some lt ->
     exists lt', last_trough s' = Some lt' /\ lt' <= lt) /\
  (paused s = false -> Spec.trend_allows settings candles = true ->
   state s = FLAT ->
   exists lp', last_peak s' = Some lp' /\ mid md <= lp') /\
  (paused s = false -> Spec.trend_allows settings candles = true ->
   state s = LONG ->
   exists lt', last_trough s' = Some lt' /\ lt' <= mid md).
Proof.
  split; [|split; [|split]].
  - intros lp Hlp. open_signal self s candles.
    all: try (exists lp; split; [assumption | apply Qle_refl]).
    all: destruct (state s); prelude_simpl;
      try (exists lp; split; [cbn; assumption | apply Qle_refl]).
    all: try rewrite Hlp; try (destruct (dec_gtP (mid md) lp) as [G|G]);
      signal_cases; cbn; prelude_simpl;
      first [ exists lp; split; [congruence | apply Qle_refl]
            | exists (mid md); split; [congruence | lra] ].
  - intros lt Hlt. open_signal self s candles.
    all: try (exists lt; split; [assumption | apply Qle_refl]).
    all: destruct (state s); prelude_simpl;
      try (exists lt; split; [cbn; assumption | apply Qle_refl]).
    all: try rewrite Hlt; try (destruct (dec_ltP (mid md) lt) as [G|G]);
      signal_cases; cbn; prelude_simpl;
      first [ exists lt; split; [congruence | apply Qle_refl]
            | exists (mid md); split; [congruence | lra] ].
  - intros Hp Ht Hs. open_signal self s candles; try congruence.
    all: rewrite Hs.
    all: destruct (last_peak s) as [lp|] eqn:Hlp;
      [ destruct (dec_gtP (mid md) lp) as [G|G] | ];
      signal_cases; cbn; prelude_simpl;
      first [ exists (mid md); split; [congruence | apply Qle_refl]
            | exists lp; split; [congruence | lra] ].
  - intros Hp Ht Hs. open_signal self s candles; try congruence.
    all: rewrite Hs.
    all: destruct (last_trough s) as [lt|] eqn:Hlt;
      [ destruct (dec_ltP (mid md) lt) as [G|G] | ];
      signal_cases; cbn; prelude_simpl;
      first [ exists (mid md); split; [congruence | apply Qle_refl]
            | exists lt; split; [congruence | lra] ].
Qed.

Lemma peak_and_trough_move_one_way_witness :
  exists lp',
    last_peak (snd (generate_signal Config.defaults Scenarios.static_engine
                      Scenarios.flat_state (Scenarios.tick 50100 50300) None))
    = Some lp' /\ 50000 <= lp' /\ mid (Scenarios.tick 50100 50300) <= lp'.
Proof.
  destruct (peak_and_trough_move_one_way Config.defaults Scenarios.static_engine
              Scenarios.flat_state (Scenarios.tick 50100 50300) None)
    as (Hpeak & _ & Hflat & _).
  destruct (Hpeak 50000) as (lp' & E & Hle); [reflexivity|].
  destruct Hflat as (lp'' & E' & Hle'); try reflexivity.
  exists lp'. split; [exact E|]. split; [exact Hle|].
  rewrite E in E'. injection E' as ->. exact Hle'.
Defined.

(** *** Post-fill updates *)

(** X6.  After [update_state_after_sell] the state is FLAT with no position
    and the peak reset to the exit price; one of the two streak counters is
    zero; a positive P&L extends the winning streak and clears the losing
    one; and a win count between 0 and the trade count stays so. *)
Theorem sell_update_keeps_counters_consistent (s : StrategyStateData)
    (fill_price realized_pnl : Decimal) (timestamp : datetime) :
  let s' := update_state_after_sell s fill_price realized_pnl timestamp in
  state s' = FLAT /\
  current_position_qty s' = 0 /\
  last_peak s' = Some fill_price /\
  last_buy_price s' = last_buy_price s /\
  Models.realized_pnl s' = Models.realized_pnl s + realized_pnl /\
  total_trades s' = (total_trades s + 1)%Z /\
  (consecutive_wins s' = 0%Z \/ consecutive_losses s' = 0%Z) /\
  (0 < realized_pnl ->
   consecutive_wins s' = (consecutive_wins s + 1)%Z /\
   consecutive_losses s' = 0%Z /\
   winning_trades s' = (winning_trades s + 1)%Z) /\
  ((0 <= winning_trades s <= total_trades s)%Z ->
   (0 <= winning_trades s' <= total_trades s')%Z) /\
  ((0 <= consecutive_wins s)%Z -> (0 <= consecutive_losses s)%Z ->
   (0 <= consecutive_wins s')%Z /\ (0 <= consecutive_losses s')%Z).
Proof.
  cbv zeta. unfold update_state_after_sell.
  destruct (dec_gtP realized_pnl 0) as [G|G]; cbn;
    repeat split; try reflexivity; try tauto; try lia; try contradiction.
Qed.

Lemma sell_update_keeps_counters_consistent_witness :
  let s' := update_state_after_sell Scenarios.long_state 110 8 0%Z in
  consecutive_wins s' = 1%Z /\ consecutive_losses s' = 0%Z /\
  (0 <= winning_trades s' <= total_trades s')%Z.
Proof.
  destruct (sell_update_keeps_counters_consistent Scenarios.long_state 110 8 0%Z)
    as (_ & _ & _ & _ & _ & _ & _ & Hwin & Hcount & _).
  destruct Hwin as (Hw & Hl & _); [reflexivity|].
  split; [exact Hw|]. split; [exact Hl|].
  apply Hcount. vm_compute. split; discriminate.
Defined.

(** *** [calculate_position_size] *)

Lemma calculate_position_size_with_unrounded settings
    (available_capital current_price : Decimal) (reserve_pct : option Decimal) :
  calculate_position_size_with settings unrounded available_capital
    current_price reserve_pct
  = calculate_position_size settings available_capital current_price
      reserve_pct.
Proof. reflexivity. Qed.

Section Sizing.

Variable rnd : Decimal -> Decimal.
Hypothesis Hrnd : Spec.rounds rnd.
Variable settings : Config.Settings.

Let four_roundings : Q :=
  Spec.rounded (Spec.rounded (Spec.rounded (Spec.rounded 0))).

Lemma reserve_given (reserve : Decimal) :
  ~ reserve == 0 ->
  or_else (Some reserve) (Config.reserve_pct settings) = reserve.
Proof.
  intro Hr. unfold or_else, truthy.
  destruct (dec_eqP reserve 0); [contradiction|reflexivity].
Qed.

Lemma deployable_rounded (available_capital reserve : Decimal) :
  0 < available_capital -> reserve < 100 ->
  let deployable :=
    rnd (rnd (available_capital * rnd (100 - reserve)) / 100) in
  0 < deployable /\
  Spec.within (Spec.rounded (Spec.rounded (Spec.rounded 0))) deployable
    (available_capital * (100 - reserve) / 100).
Proof.
  intros Hc Hlt. cbv zeta.
  pose proof (rounds_once rnd Hrnd (100 - reserve) ltac:(lra)) as H1.
  set (t1 := rnd (100 - reserve)) in *.
  apply (within_scale _ available_capital) in H1; [|lra].
  apply (rounds_within rnd Hrnd) in H1; [|nra|numerals].
  set (t2 := rnd (available_capital * t1)) in *.
  apply (within_div_by _ 100) in H1; [|reflexivity].
  set (exact := available_capital * (100 - reserve) / 100) in *.
  assert (Hd : exact == available_capital * (100 - reserve) * (1 # 100))
    by (unfold exact; field).
  assert (Hpos : 0 < exact) by (rewrite Hd; nra).
  apply (rounds_within rnd Hrnd) in H1; [|lra|numerals].
  split; [|exact H1].
  apply (within_pos _ _ _ Hpos) in H1; [exact H1 | numeral_lt].
Qed.

Lemma position_size_rounded
    (available_capital current_price reserve : Decimal) :
  0 < available_capital -> ~ reserve == 0 ->
  0 < current_price -> reserve < 100 ->
  exists qty,
    calculate_position_size_with settings rnd available_capital current_price
      (Some reserve) = Ok qty /\
    0 < qty /\
    Spec.within four_roundings (qty * current_price)
      (available_capital * (100 - reserve) / 100).
Proof.
  intros Hc Hr Hp Hlt.
  unfold calculate_position_size_with. rewrite (reserve_given reserve Hr).
  destruct (deployable_rounded available_capital reserve Hc Hlt) as [H3 H1].
  set (t3 := rnd (rnd (available_capital * rnd (100 - reserve)) / 100)) in *.
  set (deployable := available_capital * (100 - reserve) / 100) in *.
  assert (Hd : deployable == available_capital * (100 - reserve) * (1 # 100))
    by (unfold deployable; field).
  assert (Hpos : 0 < deployable) by (rewrite Hd; nra).
  destruct (dec_leP t3 0); [lra|].
  unfold dec_div_with. destruct (dec_eqP current_price 0); [lra|].
  eexists. split; [reflexivity|].
  apply (within_div_by _ current_price) in H1; [|exact Hp].
  assert (Hq : 0 < deployable / current_price)
    by (apply Qlt_shift_div_l; lra).
  apply (rounds_within rnd Hrnd) in H1; [|lra|numerals].
  split.
  - apply (within_pos _ _ _ Hq) in H1; [exact H1 | numeral_lt].
  - apply (within_scale _ current_price) in H1; [|lra].
    revert H1. apply within_ext; [ring | field; lra].
Qed.

Lemma position_size_nothing
    (available_capital current_price reserve : Decimal) :
  0 < available_capital -> ~ reserve == 0 -> 100 <= reserve ->
  calculate_position_size_with settings rnd available_capital current_price
    (Some reserve) = Ok 0.
Proof.
  intros Hc Hr Hge.
  unfold calculate_position_size_with. rewrite (reserve_given reserve Hr).
  pose proof (rounds_nonpos rnd Hrnd (100 - reserve) ltac:(lra)) as H1.
  set (t1 := rnd (100 - reserve)) in *.
  pose proof (rounds_nonpos rnd Hrnd (available_capital * t1) ltac:(nra)) as H2.
  set (t2 := rnd (available_capital * t1)) in *.
  assert (H2' : t2 / 100 <= 0).
  { apply Qle_shift_div_r; [reflexivity | lra]. }
  pose proof (rounds_nonpos rnd Hrnd (t2 / 100) H2') as H3.
  destruct (dec_leP (rnd (t2 / 100)) 0); [reflexivity|contradiction].
Qed.

Lemma position_size_zero_price
    (available_capital current_price reserve : Decimal) :
  0 < available_capital -> ~ reserve == 0 ->
  current_price == 0 -> reserve < 100 ->
  exists e,
    calculate_position_size_with settings rnd available_capital current_price
      (Some reserve) = Raise e.
Proof.
  intros Hc Hr Hz Hlt.
  unfold calculate_position_size_with. rewrite (reserve_given reserve Hr).
  destruct (deployable_rounded available_capital reserve Hc Hlt) as [H3 _].
  set (t3 := rnd (rnd (available_capital * rnd (100 - reserve)) / 100)) in *.
  destruct (dec_leP t3 0); [lra|].
  unfold dec_div_with. destruct (dec_eqP current_price 0); [|contradiction].
  destruct (dec_eq t3 0); eauto.
Qed.

End Sizing.





End StrategyMore.

(** ** Risk manager: order sizes, flattening, daily counter, quotes *)

Module RiskMore.

Import Risk.

(** *** [validate_order_size] *)



(** *** [should_flatten_position] *)

(** X10.  [should_flatten_position] asks for liquidation exactly when the
    drawdown breaker fires, or the heartbeat is stale and no other breaker
    fires before it: stale data behind a losing streak, a daily loss, a
    volatility or a spread breach does not flatten.  The reason is the one
    of the breaker evaluation, which it leaves the risk manager with. *)
Theorem flatten_on_drawdown_or_unmasked_stale settings (rm : RiskManager)
    (now_daily now_stale : datetime) (s : StrategyStateData)
    (md : MarketData) (hb : option datetime) :
  let answer :=
    should_flatten_position settings rm now_daily now_stale s md hb in
  let breakers :=
    check_all_circuit_breakers settings rm now_daily now_stale s md hb in
  (fst (fst answer) = true <->
   fst (check_drawdown settings s) = true \/
   (fst (check_consecutive_losses settings s) = false /\
    fst (fst (check_daily_loss_limit settings rm now_daily s)) = false /\
    fst (check_volatility_bounds settings (atr_pct s)) = false /\
    fst (check_spread settings md) = false /\
    fst (check_stale_data settings now_stale hb) = true)) /\
  (fst (fst answer) = true -> snd (fst answer) = snd (fst breakers)) /\
  (fst (fst answer) = false -> snd (fst answer) = None) /\
  snd answer = snd breakers.
Proof.
  cbv zeta. unfold should_flatten_position, check_all_circuit_breakers.
  destruct (check_drawdown settings s) as [b1 r1].
  destruct (check_consecutive_losses settings s) as [b2 r2].
  destruct (check_daily_loss_limit settings rm now_daily s) as [[b3 r3] rm'].
  destruct (check_volatility_bounds settings (atr_pct s)) as [b4 r4].
  destruct (check_spread settings md) as [b5 r5].
  destruct (check_stale_data settings now_stale hb) as [b6 r6].
  destruct b1, b2, b3, b4, b5, b6; cbn;
    try destruct (reason_mentions "too choppy" r4); cbn;
    (split; [split; [try discriminate; tauto
                    | intros [H|H]; try discriminate;
                      try reflexivity; intuition discriminate]|]);
    (split; [try discriminate; reflexivity|]);
    (split; [try discriminate; reflexivity | reflexivity]).
Qed.

Lemma flatten_on_drawdown_or_unmasked_stale_witness :
  fst (fst (should_flatten_position Config.defaults Risk.new 0%Z 0%Z
              Scenarios.distressed_state Scenarios.wide_tick None)) = true /\
  fst (fst (should_flatten_position Config.defaults Risk.new 0%Z 0%Z
              Scenarios.losing_state Scenarios.wide_tick None)) = false.
Proof.
  destruct (flatten_on_drawdown_or_unmasked_stale Config.defaults Risk.new
              0%Z 0%Z Scenarios.distressed_state Scenarios.wide_tick None)
    as ([_ Hyes] & _).
  destruct (flatten_on_drawdown_or_unmasked_stale Config.defaults Risk.new
              0%Z 0%Z Scenarios.losing_state Scenarios.wide_tick None)
    as (_ & _ & _ & _).
  split.
  - apply Hyes. left. reflexivity.
  - reflexivity.
Defined.

(** *** The daily loss counter *)

(** X11.  On its first call, and on the first call of a later UTC day,
    [check_daily_loss_limit] sets the daily P&L to 0, remembers the time
    and does not fire.  Within the day of the last reset it leaves the
    counter alone and fires exactly when the equity is not zero, the daily
    P&L is negative and its size in percent of the equity reaches the
    limit; a daily P&L that is not negative never fires. *)
Theorem daily_loss_counter_resets_per_day settings (rm : RiskManager)
    (now : datetime) (s : StrategyStateData) :
  ((daily_pnl_reset_time rm = None \/
    exists t, daily_pnl_reset_time rm = Some t /\ (date t < date now)%Z) ->
   check_daily_loss_limit settings rm now s
   = ((false, None), {| daily_pnl_reset_time := Some now; daily_pnl := 0 |})) /\
  (forall t, daily_pnl_reset_time rm = Some t -> (date now <= date t)%Z ->
   snd (check_daily_loss_limit settings rm now s) = rm /\
   (fst (fst (check_daily_loss_limit settings rm now s)) = true <->
    ~ total_equity s == 0 /\ daily_pnl rm < 0 /\
    Config.daily_loss_limit_pct settings
      <= Qabs (daily_pnl rm / total_equity s * 100))) /\
  (0 <= daily_pnl rm ->
   fst (fst (check_daily_loss_limit settings rm now s)) = false).
Proof.
  unfold check_daily_loss_limit. split; [|split].
  - intros [E | (t & E & Hd)]; rewrite E.
    + cbn [andb fst snd daily_pnl daily_pnl_reset_time]. destruct (dec_eq (total_equity s) 0); [reflexivity|].
      destruct (dec_ltP 0 0) as [L|L]; [lra | reflexivity].
    + destruct (Z.ltb_spec (date t) (date now)); [|lia]. cbn [andb fst snd daily_pnl daily_pnl_reset_time].
      destruct (dec_eq (total_equity s) 0); [reflexivity|].
      destruct (dec_ltP 0 0) as [L|L]; [lra | reflexivity].
  - intros t E Hd. rewrite E.
    destruct (Z.ltb_spec (date t) (date now)); [lia|].
    destruct (dec_eqP (total_equity s) 0) as [Z0|Z0]; cbn [andb fst snd daily_pnl daily_pnl_reset_time].
    { split; [reflexivity|]. split; [discriminate | tauto]. }
    destruct (dec_ltP (daily_pnl rm) 0) as [L|L]; cbn [andb fst snd daily_pnl daily_pnl_reset_time].
    + destruct (dec_geP (Qabs (daily_pnl rm / total_equity s * 100))
                  (Config.daily_loss_limit_pct settings)) as [G|G]; cbn [andb fst snd daily_pnl daily_pnl_reset_time].
      * split; [reflexivity|]. split; [tauto | reflexivity].
      * split; [reflexivity|]. split; [discriminate | tauto].
    + split; [reflexivity|]. split; [discriminate | tauto].
  - intro Hpos.
    destruct (match daily_pnl_reset_time rm with
              | Some t => (date t <? date now)%Z
              | None => true
              end); cbn [andb fst snd daily_pnl daily_pnl_reset_time].
    + destruct (dec_eq (total_equity s) 0); [reflexivity|].
      destruct (dec_ltP 0 0) as [L|L]; [lra | reflexivity].
    + destruct (dec_eq (total_equity s) 0); [reflexivity|].
      destruct (dec_ltP (daily_pnl rm) 0) as [L|L]; [lra | reflexivity].
Qed.

Lemma daily_loss_counter_resets_per_day_witness :
  check_daily_loss_limit Config.defaults
    (update_daily_pnl Scenarios.yesterdays_losses (-500)) 90000000000%Z
    Scenarios.losing_state
  = ((false, None),
     {| daily_pnl_reset_time := Some 90000000000%Z; daily_pnl := 0 |}) /\
  fst (fst (check_daily_loss_limit Config.defaults
              (update_daily_pnl Scenarios.yesterdays_losses (-500)) 3600000000%Z
              Scenarios.losing_state)) = true.
Proof.
  destruct (daily_loss_counter_resets_per_day Config.defaults
              (update_daily_pnl Scenarios.yesterdays_losses (-500))
              90000000000%Z Scenarios.losing_state) as (Hreset & _).
  destruct (daily_loss_counter_resets_per_day Config.defaults
              (update_daily_pnl Scenarios.yesterdays_losses (-500))
              3600000000%Z Scenarios.losing_state) as (_ & Hsame & _).
  split.
  - apply Hreset. right. exists 0%Z. split; [reflexivity|]. reflexivity.
  - destruct (Hsame 0%Z) as [_ Hfire]; [reflexivity | vm_compute; discriminate|].
    apply Hfire. repeat split; vm_compute; discriminate.
Defined.

(** *** Quotes ([MarketData.mid], [MarketData.spread_bps]) and the spread
        and staleness breakers *)

(** X12.  For a quote with [bid <= ask] the mid lies between the two.  The
    spread in basis points is 0 for a zero mid (no division is attempted)
    and for an empty spread, and with a positive bid it lies in
    [[0, 20000)]; the spread breaker never fires on an empty spread when
    its limit is not negative. *)
Theorem quote_mid_and_spread settings (md : MarketData) :
  bid md <= ask md ->
  bid md <= mid md <= ask md /\
  (mid md == 0 -> spread_bps md = 0) /\
  (bid md == ask md -> spread_bps md == 0) /\
  (0 < bid md -> 0 <= spread_bps md /\ spread_bps md < 20000) /\
  (bid md == ask md -> (0 <= Config.max_spread_bps settings)%Z ->
   check_spread settings md = (false, None)).
Proof.
  intro Hba.
  assert (Em : mid md == (bid md + ask md) * (1 # 2)) by (unfold mid; field).
  assert (Hzero : bid md == ask md -> spread_bps md == 0).
  { intro E. unfold spread_bps.
    destruct (dec_eqP (mid md) 0) as [Z0|Z0]; [reflexivity|].
    rewrite E. field. exact Z0. }
  split; [rewrite Em; lra|]. split; [|split; [exact Hzero|split]].
  - intro Z0. unfold spread_bps.
    destruct (dec_eqP (mid md) 0); [reflexivity | contradiction].
  - intro Hb. unfold spread_bps.
    destruct (dec_eqP (mid md) 0) as [Z0|Z0]; [lra|].
    assert (Hm : 0 < mid md) by (rewrite Em; lra).
    assert (L : 0 <= (ask md - bid md) / mid md)
      by (apply Qle_shift_div_l; lra).
    assert (U : (ask md - bid md) / mid md < 2).
    { apply Qlt_shift_div_r; [exact Hm|]. rewrite Em. lra. }
    lra.
  - intros E Hlim. unfold check_spread.
    destruct (dec_gtP (spread_bps md) (inject_Z (Config.max_spread_bps settings)))
      as [G|G]; [|reflexivity].
    exfalso. rewrite (Hzero E) in G.
    assert (H0 : 0 <= inject_Z (Config.max_spread_bps settings))
      by (change 0 with (inject_Z 0); rewrite <- Zle_Qle; exact Hlim).
    lra.
Qed.

Lemma quote_mid_and_spread_witness :
  bid Scenarios.wide_tick <= mid Scenarios.wide_tick <= ask Scenarios.wide_tick /\
  0 <= spread_bps Scenarios.wide_tick /\ spread_bps Scenarios.wide_tick < 20000.
Proof.
  destruct (quote_mid_and_spread Config.defaults Scenarios.wide_tick)
    as (Hmid & _ & _ & Hspread & _).
  - vm_compute. discriminate.
  - split; [exact Hmid|]. apply Hspread. reflexivity.
Defined.

(** X13.  A missing heartbeat is stale at any time.  A heartbeat that is
    stale at one reading of the clock is stale at every later reading, and
    one no older than [max_ws_stale_seconds] is not stale. *)
Theorem stale_data_stays_stale settings (hb : option datetime)
    (now later : datetime) :
  (hb = None -> fst (check_stale_data settings now hb) = true) /\
  (fst (check_stale_data settings now hb) = true -> (now <= later)%Z ->
   fst (check_stale_data settings later hb) = true) /\
  (forall t, hb = Some t ->
     (now - t <= Config.max_ws_stale_seconds settings * 1000000)%Z ->
     check_stale_data settings now hb = (false, None)).
Proof.
  assert (Hgt : forall a t : Z,
    inject_Z (Config.max_ws_stale_seconds settings) < total_seconds a t <->
    (Config.max_ws_stale_seconds settings * 1000000 < a - t)%Z).
  { intros a t. unfold total_seconds, Qlt, Qdiv, Qmult, Qinv, inject_Z. cbn.
    rewrite !Z.mul_1_r. reflexivity. }
  split; [|split].
  - intros ->. reflexivity.
  - intros H Hle. apply RiskFacts.check_stale_data_fires in H.
    apply RiskFacts.check_stale_data_fires.
    destruct H as [H | (t & E & H)]; [left; exact H|].
    right. exists t. split; [exact E|].
    apply Hgt. apply Hgt in H. lia.
  - intros t -> Hfresh. unfold check_stale_data.
    destruct (dec_gtP (total_seconds now t)
                (inject_Z (Config.max_ws_stale_seconds settings))) as [G|G];
      [|reflexivity].
    apply Hgt in G. lia.
Qed.

Lemma stale_data_stays_stale_witness :
  fst (check_stale_data Config.defaults 6000000%Z (Some 0%Z)) = true /\
  fst (check_stale_data Config.defaults 9000000%Z (Some 0%Z)) = true /\
  check_stale_data Config.defaults 5000000%Z (Some 0%Z) = (false, None).
Proof.
  destruct (stale_data_stays_stale Config.defaults (Some 0%Z) 6000000%Z 9000000%Z)
    as (_ & Hlater & _).
  destruct (stale_data_stays_stale Config.defaults (Some 0%Z) 5000000%Z 5000000%Z)
    as (_ & _ & Hfresh).
  split; [reflexivity|]. split.
  - apply Hlater; [reflexivity | lia].
  - apply (Hfresh 0%Z); [reflexivity | vm_compute; discriminate].
Defined.

End RiskMore.

(** ** Ledger, fees and slippage *)

Module LedgerMore.

Import Portfolio.

(** X14.  A buy that goes through never overdraws the cash and a sell that
    goes through never oversells the position.  Marked at any price, the
    equity after a trade is the equity before, plus the quantity times the
    gap between the mark and the trade price (minus that for a sell), less
    the fee: at the trade price a trade costs exactly its fee.  A refused
    trade leaves the ledger as it was. *)
Theorem trade_costs_its_fee (self : Portfolio) (qty price fee mark : Decimal) :
  (forall cost ledger',
     execute_buy self qty price fee = (Ok cost, ledger') ->
     cost = qty * price + fee /\
     0 <= cash ledger' /\
     btc ledger' = btc self + qty /\
     get_equity ledger' mark == get_equity self mark + qty * (mark - price) - fee /\
     get_equity ledger' price == get_equity self price - fee) /\
  (forall proceeds ledger',
     execute_sell self qty price fee = (Ok proceeds, ledger') ->
     proceeds = qty * price - fee /\
     0 <= btc ledger' /\
     cash ledger' = cash self + (qty * price - fee) /\
     get_equity ledger' mark == get_equity self mark - qty * (mark - price) - fee /\
     get_equity ledger' price == get_equity self price - fee) /\
  (forall e ledger',
     execute_buy self qty price fee = (Raise e, ledger') -> ledger' = self) /\
  (forall e ledger',
     execute_sell self qty price fee = (Raise e, ledger') -> ledger' = self).
Proof.
  unfold execute_buy, execute_sell, get_equity.
  split; [|split; [|split]].
  - intros cost l'. destruct (dec_ltP (cash self) (qty * price + fee)) as [L|L];
      [discriminate|].
    intro H. injection H as <- <-. cbn.
    split; [reflexivity|]. split; [lra|]. split; [reflexivity|].
    unfold Decimal in *. split; ring.
  - intros proceeds l'. destruct (dec_ltP (btc self) qty) as [L|L];
      [discriminate|].
    intro H. injection H as <- <-. cbn.
    split; [reflexivity|]. split; [lra|]. split; [reflexivity|].
    unfold Decimal in *. split; ring.
  - intros e l'. destruct (dec_lt (cash self) (qty * price + fee));
      [|discriminate].
    intro H. now injection H.
  - intros e l'. destruct (dec_lt (btc self) qty); [|discriminate].
    intro H. now injection H.
Qed.

Lemma trade_costs_its_fee_witness :
  get_equity Scenarios.ledger_after_buy 100
    == get_equity Scenarios.opening_ledger 100 - 1 /\
  0 <= cash Scenarios.ledger_after_buy.
Proof.
  destruct (trade_costs_its_fee Scenarios.opening_ledger 1 100 1 100)
    as (Hbuy & _).
  destruct (Hbuy (1 * 100 + 1) Scenarios.ledger_after_buy)
    as (_ & Hcash & _ & _ & Heq); [reflexivity|].
  split; assumption.
Defined.

(** X15.  After [sync_state] the state carries the ledger's position,
    realized P&L and equity, and its three equity figures add up: total
    equity is initial equity plus realized plus unrealized P&L.  The
    drawdown fields are then already what [RiskManager.update_drawdown]
    computes: running it after [sync_state] changes nothing. *)
Theorem sync_state_makes_update_drawdown_idle (self : Portfolio)
    (s : StrategyStateData) (btc_price : Decimal) :
  let s' := sync_state self s btc_price in
  current_position_qty s' = btc self /\
  Models.realized_pnl s' = realized_pnl self /\
  total_equity s' = get_equity self btc_price /\
  total_equity s'
    == initial_equity self + Models.realized_pnl s' + unrealized_pnl s' /\
  total_equity s' <= peak_equity s' /\
  Risk.update_drawdown s' = s'.
Proof.
  cbv zeta.
  assert (Hfields : current_position_qty (sync_state self s btc_price) = btc self /\
                    Models.realized_pnl (sync_state self s btc_price)
                    = realized_pnl self /\
                    total_equity (sync_state self s btc_price)
                    = get_equity self btc_price /\
                    unrealized_pnl (sync_state self s btc_price)
                    = get_unrealized_pnl self btc_price).
  { unfold sync_state. repeat dec_case; cbn; repeat split; reflexivity. }
  destruct Hfields as (E1 & E2 & E3 & E4).
  split; [exact E1|]. split; [exact E2|]. split; [exact E3|].
  split; [rewrite E2, E3, E4; unfold get_unrealized_pnl, get_equity, Decimal in *;
          ring|].
  unfold sync_state, Risk.update_drawdown. cbn.
  destruct (dec_gtP (get_equity self btc_price) (peak_equity s)) as [G|G]; cbn.
  - destruct (dec_gtP (get_equity self btc_price) 0) as [B|B]; cbn.
    + split; [apply Qle_refl|].
      destruct (dec_gtP (get_equity self btc_price) (get_equity self btc_price));
        [lra|].
      destruct (dec_gtP (get_equity self btc_price) 0); [reflexivity|contradiction].
    + split; [apply Qle_refl|].
      destruct (dec_gtP (get_equity self btc_price) (get_equity self btc_price));
        [lra|].
      destruct (dec_gtP (get_equity self btc_price) 0); [contradiction|reflexivity].
  - destruct (dec_gtP (peak_equity s) 0) as [B|B]; cbn.
    + split; [lra|].
      destruct (dec_gtP (get_equity self btc_price) (peak_equity s));
        [contradiction|].
      destruct (dec_gtP (peak_equity s) 0); [reflexivity|contradiction].
    + split; [lra|].
      destruct (dec_gtP (get_equity self btc_price) (peak_equity s));
        [contradiction|].
      destruct (dec_gtP (peak_equity s) 0); [contradiction|reflexivity].
Qed.

(** *** Fees ([core/fees.py]) *)

Import Fees.

Lemma calculate_trading_fee_with_unrounded (settings : Config.Settings)
    (notional : Decimal) (is_maker : bool) :
  calculate_trading_fee_with unrounded settings notional is_maker
  = calculate_trading_fee settings notional is_maker.
Proof. reflexivity. Qed.

Section Rounded.

Variable rnd : Decimal -> Decimal.
Hypothesis Hrnd : Spec.rounds rnd.
Variable settings : Config.Settings.

Let rate (is_maker : bool) : Decimal :=
  if is_maker then Config.maker_fee_pct settings
  else Config.taker_fee_pct settings.

(** The fee on a notional known to within [r]. *)
Lemma trading_fee_rounded (r notional value : Q) (is_maker : bool) :
  0 <= rate is_maker -> 0 <= value -> 0 <= r <= 1 # 2 ->
  Spec.within r notional value ->
  Spec.within (Spec.rounded (r + Spec.rounded 0 + r * Spec.rounded 0))
    (calculate_trading_fee_with rnd settings notional is_maker)
    (value * (rate is_maker / 100)).
Proof.
  intros He Hv Hr Hn. unfold calculate_trading_fee_with. fold (rate is_maker).
  set (e := rate is_maker) in *.
  assert (He' : 0 <= e / 100) by (apply Qle_shift_div_l; lra).
  pose proof (rounds_once rnd Hrnd (e / 100) He') as H1.
  assert (Hrho : 0 <= Spec.rounded 0 <= 1 # 4) by numerals.
  set (rho := Spec.rounded 0) in *. clearbody rho.
  apply rounds_within; [exact Hrnd | nra | split; nra |].
  apply within_mul; try assumption; split; lra.
Qed.

Lemma round_trip_cost_rounded (entry_price qty : Decimal)
    (maker_entry maker_exit : bool) :
  0 < entry_price -> 0 < qty ->
  0 <= rate maker_entry -> 0 <= rate maker_exit ->
  exists total_fees total_fees_pct,
    calculate_round_trip_cost_with rnd settings entry_price qty maker_entry
      maker_exit = Ok (total_fees, total_fees_pct) /\
    Spec.within (1 # 100000000000000000000000000) total_fees
      (entry_price * qty * (rate maker_entry + rate maker_exit) / 100) /\
    Spec.within (1 # 100000000000000000000000000) total_fees_pct
      (rate maker_entry + rate maker_exit).
Proof.
  intros Hp Hq He Hx. unfold calculate_round_trip_cost_with.
  set (e := rate maker_entry) in *. set (x := rate maker_exit) in *.
  assert (Hv : 0 < entry_price * qty) by nra.
  pose proof (rounds_once rnd Hrnd (entry_price * qty) ltac:(lra)) as Hn.
  set (notional := rnd (entry_price * qty)) in *.
  set (value := entry_price * qty) in *.
  assert (Hnpos : 0 < notional).
  { apply (within_pos _ _ _ Hv) in Hn; [exact Hn | numeral_lt]. }
  pose proof (trading_fee_rounded (Spec.rounded 0) notional value maker_entry He
                ltac:(lra) ltac:(numerals) Hn) as Hfe.
  pose proof (trading_fee_rounded (Spec.rounded 0) notional value maker_exit Hx
                ltac:(lra) ltac:(numerals) Hn) as Hfx.
  fold e in Hfe. fold x in Hfx.
  set (entry_fee := calculate_trading_fee_with rnd settings notional maker_entry)
    in *.
  set (exit_fee := calculate_trading_fee_with rnd settings notional maker_exit)
    in *.
  assert (He' : 0 <= value * (e / 100)).
  { apply Qmult_le_0_compat; [lra | apply Qle_shift_div_l; lra]. }
  assert (Hx' : 0 <= value * (x / 100)).
  { apply Qmult_le_0_compat; [lra | apply Qle_shift_div_l; lra]. }
  pose proof (within_add _ _ _ _ _ Hfe Hfx) as Hsum.
  apply (rounds_within rnd Hrnd) in Hsum; [|lra|numerals].
  set (total_fees := rnd (entry_fee + exit_fee)) in *.
  unfold dec_div_with. destruct (dec_eqP notional 0); [lra|].
  do 2 eexists. split; [reflexivity|].
  split.
  - apply within_weaken with (r' := 1 # 100000000000000000000000000) in Hsum;
      [|lra|numeral].
    revert Hsum. apply within_ext; [reflexivity | field].
  - assert (Hb : 0 <= value * (e / 100) + value * (x / 100)) by lra.
    unshelve epose proof (within_div _ _ _ _ _ _ Hb Hv _ _ _ Hsum Hn)
      as Hquot; [numerals | numeral | numeral_lt |].
    assert (Eq : (value * (e / 100) + value * (x / 100)) / value
                 == (e + x) / 100) by (field; lra).
    assert (Hq0 : 0 <= (e + x) / 100) by (apply Qle_shift_div_l; lra).
    apply (within_ext _ _ _ _ _ (Qeq_refl _) Eq) in Hquot.
    apply (rounds_within rnd Hrnd) in Hquot; [|exact Hq0|numerals].
    apply (within_scale _ 100) in Hquot; [|discriminate].
    assert (E100 : 100 * ((e + x) / 100) == e + x) by field.
    assert (Ea : 100 * rnd (total_fees / notional)
                 == rnd (total_fees / notional) * 100) by ring.
    apply (within_ext _ _ _ _ _ Ea E100) in Hquot.
    apply (rounds_within rnd Hrnd) in Hquot; [|lra|numerals].
    apply within_weaken with (r' := 1 # 100000000000000000000000000) in Hquot;
      [exact Hquot | lra | numeral].
Qed.

Lemma round_trip_cost_zero_notional (entry_price qty : Decimal)
    (maker_entry maker_exit : bool) :
  entry_price * qty == 0 ->
  exists e,
    calculate_round_trip_cost_with rnd settings entry_price qty maker_entry
      maker_exit = Raise e.
Proof.
  intro Hz. unfold calculate_round_trip_cost_with.
  pose proof (rounds_zero rnd Hrnd _ Hz) as Hn.
  unfold dec_div_with.
  destruct (dec_eqP (rnd (entry_price * qty)) 0); [|contradiction].
  destruct (dec_eq _ 0); eauto.
Qed.

Lemma minimum_move_rounded (maker_entry maker_exit : bool) :
  0 <= rate maker_entry <= 1 -> 0 <= rate maker_exit <= 1 ->
  exists move,
    minimum_profitable_move_with rnd settings maker_entry maker_exit = Ok move /\
    Spec.within (1 # 100000000000000000000000000) move
      ((rate maker_entry + rate maker_exit) / (1 - rate maker_exit / 100)).
Proof.
  intros [He He'] [Hx Hx']. unfold minimum_profitable_move_with.
  fold (rate maker_entry). fold (rate maker_exit).
  set (e := rate maker_entry) in *. set (x := rate maker_exit) in *.
  pose proof (rounds_once rnd Hrnd (e + x) ltac:(lra)) as Ht.
  set (total := rnd (e + x)) in *.
  assert (Hd0 : 0 <= x / 100 <= 1 # 2).
  { split; [apply Qle_shift_div_l; lra | apply Qle_shift_div_r; lra]. }
  pose proof (rounds_once rnd Hrnd (x / 100) ltac:(tauto)) as Hd.
  apply within_one_minus in Hd; [|numeral|exact Hd0].
  assert (Hk : 0 < 1 - x / 100) by lra.
  apply (rounds_within rnd Hrnd) in Hd; [|lra|numerals].
  set (rest := rnd (1 - rnd (x / 100))) in *.
  assert (Hrest : 0 < rest).
  { apply (within_pos _ _ _ Hk) in Hd; [exact Hd | numeral_lt]. }
  unfold dec_div_with. destruct (dec_eqP rest 0); [lra|].
  eexists. split; [reflexivity|].
  assert (Hb : 0 <= e + x) by lra.
  unshelve epose proof (within_div _ _ _ _ _ _ Hb Hk _ _ _ Ht Hd)
    as Hquot; [numerals | numeral | numeral_lt |].
  assert (Hm0 : 0 <= (e + x) / (1 - x / 100))
    by (apply Qle_shift_div_l; lra).
  apply (rounds_within rnd Hrnd) in Hquot; [|exact Hm0|numerals].
  apply within_weaken with (r' := 1 # 100000000000000000000000000) in Hquot;
    [exact Hquot | exact Hm0 | numeral].
Qed.

End Rounded.

(** *** Slippage ([core/slippage.py]) *)

(** X18.  A maker order is filled at its price and has no slippage.  For a
    taker the fill price moves by the estimated slippage per unit, up for a
    buy and down for a sell; with a price, an ATR and a base slippage that
    are not negative the buyer never pays less and the seller never
    receives more than the price. *)
Theorem slippage_moves_price_against_taker (settings : Config.Settings)
    (price qty atr_pct : Q) (side : Side) :
  adjust_fill_price_for_slippage settings price side atr_pct true = price /\
  estimate_slippage settings price qty atr_pct true = 0 /\
  (adjust_fill_price_for_slippage settings price BUY_SIDE atr_pct false - price)
    * qty == estimate_slippage settings price qty atr_pct false /\
  (price - adjust_fill_price_for_slippage settings price SELL_SIDE atr_pct false)
    * qty == estimate_slippage settings price qty atr_pct false /\
  (0 <= price -> 0 <= atr_pct -> (0 <= Config.taker_slippage_bps settings)%Z ->
   adjust_fill_price_for_slippage settings price SELL_SIDE atr_pct false <= price /\
   price <= adjust_fill_price_for_slippage settings price BUY_SIDE atr_pct false).
Proof.
  unfold adjust_fill_price_for_slippage, estimate_slippage.
  split; [reflexivity|]. split; [reflexivity|].
  split; [field|]. split; [field|].
  intros Hp Ha Hb.
  assert (Hbase : 0 <= inject_Z (Config.taker_slippage_bps settings))
    by (change 0 with (inject_Z 0); rewrite <- Zle_Qle; exact Hb).
  set (b := inject_Z (Config.taker_slippage_bps settings)) in *. clearbody b.
  assert (E : (b + atr_pct / 5 * 5) / 10000 == (b + atr_pct) * (1 # 10000))
    by field.
  rewrite E. split; nra.
Qed.

Lemma slippage_moves_price_against_taker_witness :
  adjust_fill_price_for_slippage Config.defaults 50000 SELL_SIDE 3 false <= 50000 /\
  50000 <= adjust_fill_price_for_slippage Config.defaults 50000 BUY_SIDE 3 false.
Proof.
  destruct (slippage_moves_price_against_taker Config.defaults 50000 1 3 BUY_SIDE)
    as (_ & _ & _ & _ & H).
  apply H; vm_compute; discriminate.
Defined.

End LedgerMore.

(** ** Execution engine: lot rounding and the fill wait *)

Module ExecutionMore.

Import Execution.

Section Engine.

Context {World : Type} {exchange : ExchangeAdapter World}
        {runtime : Runtime World}.


Variable self : ExecutionEngine.

Lemma wait_loop_fill_origin (polls : nat) :
  forall order_id start timeout w f w',
    wait_loop polls self order_id start timeout w = Some (Ok (Some f), w') ->
    exists w1 w2 fills,
      get_order_status (symbol self) order_id w1 = (Ok FILLED, w2) /\
      get_order_fills (symbol self) order_id w2 = (Ok (f :: fills), w').
Proof.
  induction polls as [|polls IH]; intros order_id start timeout w f w';
    cbn [wait_loop]; [discriminate|].
  destruct (dec_lt (Risk.total_seconds (utcnow w) start) (inject_Z timeout));
    [|discriminate].
  unfold bind, call.
  destruct (get_order_status (symbol self) order_id w) as [[st|e] w1] eqn:Es;
    [|discriminate].
  destruct st; try discriminate; try (now apply IH).
  destruct (get_order_fills (symbol self) order_id w1) as [[[|f0 fs]|e] w2] eqn:Ef;
    try discriminate.
  unfold ret. intro H. injection H as <- <-. eauto.
Qed.

(** X20.  [_wait_for_fill] never makes a fill up: a fill it returns is the
    first of a non-empty list the exchange reported for the order right
    after reporting it FILLED.  With a timeout that is not positive it
    answers [None] at once, without asking the exchange. *)
Theorem fill_comes_from_the_exchange (polls : nat) (order_id : string)
    (timeout : Z) (w : World) :
  (forall f w',
     wait_for_fill polls self order_id timeout w = Some (Ok (Some f), w') ->
     exists w1 w2 fills,
       get_order_status (symbol self) order_id w1 = (Ok FILLED, w2) /\
       get_order_fills (symbol self) order_id w2 = (Ok (f :: fills), w')) /\
  ((0 < polls)%nat -> (timeout <= 0)%Z ->
   wait_for_fill polls self order_id timeout w = Some (Ok None, w)).
Proof.
  split.
  - intros f w'. unfold wait_for_fill. apply wait_loop_fill_origin.
  - intros Hp Ht. unfold wait_for_fill.
    destruct polls as [|polls]; [lia|]. cbn [wait_loop].
    destruct (dec_ltP (Risk.total_seconds (utcnow w) (utcnow w)) (inject_Z timeout))
      as [L|L]; [|reflexivity].
    apply ExecutionFacts.total_seconds_lt in L. lia.
Qed.

End Engine.

#[local] Existing Instance FakeExchange.adapter.
#[local] Existing Instance FakeExchange.runtime.


Lemma fill_comes_from_the_exchange_witness :
  wait_for_fill 1 FakeExchange.engine "0" 0 (FakeExchange.opened 50000)
  = Some (Ok None, FakeExchange.opened 50000).
Proof.
  destruct (fill_comes_from_the_exchange FakeExchange.engine 1 "0" 0
              (FakeExchange.opened 50000)) as [_ H].
  apply H; lia.
Defined.

End ExecutionMore.

(** ** The backtester around the core *)

Module DriversMore.

Import Drivers.

(** X21.  The quote the backtester builds around a close has that close as
    its mid and, for a positive close, a spread of exactly 5 basis points;
    the spread breaker stays silent on it when its limit is 5 or more. *)
Theorem backtester_quote_is_five_bps settings (symbol : string)
    (timestamp : datetime) (price : Q) :
  mid (backtester_quote symbol timestamp price) == price /\
  (0 < price ->
   bid (backtester_quote symbol timestamp price)
     < ask (backtester_quote symbol timestamp price) /\
   spread_bps (backtester_quote symbol timestamp price) == 5 /\
   ((5 <= Config.max_spread_bps settings)%Z ->
    Risk.check_spread settings (backtester_quote symbol timestamp price)
    = (false, None))).
Proof.
  assert (Em : mid (backtester_quote symbol timestamp price) == price)
    by (unfold mid, backtester_quote; cbn; field).
  split; [exact Em|]. intro Hp.
  assert (Es : spread_bps (backtester_quote symbol timestamp price) == 5).
  { unfold spread_bps.
    destruct (dec_eqP (mid (backtester_quote symbol timestamp price)) 0) as [Z0|Z0];
      [lra|].
    unfold mid, backtester_quote; cbn. field. lra. }
  assert (Eh : price * 0.0005 / 2 == price * (1 # 4000)) by field.
  split; [unfold backtester_quote; cbn [bid ask]; rewrite Eh; lra|].
  split; [exact Es|].
  intro Hlim. unfold Risk.check_spread.
  destruct (dec_gtP (spread_bps (backtester_quote symbol timestamp price))
              (inject_Z (Config.max_spread_bps settings))) as [G|G];
    [|reflexivity].
  exfalso. rewrite Es in G.
  assert (H5 : 5 <= inject_Z (Config.max_spread_bps settings))
    by (change 5 with (inject_Z 5); rewrite <- Zle_Qle; exact Hlim).
  lra.
Qed.

Lemma backtester_quote_is_five_bps_witness :
  spread_bps (backtester_quote "BTC-USD" 0%Z 50000) == 5 /\
  Risk.check_spread Config.defaults (backtester_quote "BTC-USD" 0%Z 50000)
  = (false, None).
Proof.
  destruct (backtester_quote_is_five_bps Config.defaults "BTC-USD" 0%Z 50000)
    as [_ H].
  destruct H as (_ & Hs & Hc); [reflexivity|].
  split; [exact Hs | apply Hc; vm_compute; discriminate].
Defined.

(** Any breaker that fires makes the evaluation pause. *)
Lemma stale_data_pauses settings rm now_daily now_stale s md hb :
  fst (Risk.check_stale_data settings now_stale hb) = true ->
  fst (fst (fst (Risk.check_all_circuit_breakers settings rm now_daily
                   now_stale s md hb))) = true.
Proof.
  intro H. unfold Risk.check_all_circuit_breakers.
  destruct (Risk.check_drawdown settings s) as [b1 r1].
  destruct (Risk.check_consecutive_losses settings s) as [b2 r2].
  destruct (Risk.check_daily_loss_limit settings rm now_daily s) as [[b3 r3] rm'].
  destruct (Risk.check_volatility_bounds settings (atr_pct s)) as [b4 r4].
  destruct (Risk.check_spread settings md) as [b5 r5].
  destruct (Risk.check_stale_data settings now_stale hb) as [b6 r6].
  cbn in H. subst b6.
  destruct b1, b2, b3, b4, b5; cbn;
    try destruct (Risk.reason_mentions "too choppy" r4); reflexivity.
Qed.

(** X22.  The backtester hands the candle's own timestamp to the breakers
    as the heartbeat.  For a candle more than [max_ws_stale_seconds] older
    than the clock the evaluation therefore pauses the state, and the
    signal for that candle is HOLD: such a candle is never traded on, and
    the mode and the position stay as they were. *)
Theorem backtester_pauses_on_past_candles settings
    (strategy : Strategy.VolatilityHarvester) (rm : Risk.RiskManager)
    (now_daily now_stale : datetime) (s : StrategyStateData)
    (symbol : string) (timestamp : datetime) (price : Decimal)
    (recent_candles : DataFrame) :
  (Config.max_ws_stale_seconds settings * 1000000 < now_stale - timestamp)%Z ->
  exists sig s' rm',
    backtester_observe settings strategy rm now_daily now_stale s symbol
      timestamp price recent_candles = (Ok sig, s', rm') /\
    paused s' = true /\
    signal_type sig = HOLD /\
    state s' = state s /\
    current_position_qty s' = current_position_qty s.
Proof.
  intro Hold. unfold backtester_observe.
  assert (Hstale : fst (Risk.check_stale_data settings now_stale (Some timestamp))
                   = true).
  { apply RiskFacts.check_stale_data_fires. right. exists timestamp.
    split; [reflexivity|].
    unfold Risk.total_seconds, Qlt, Qdiv, Qmult, Qinv, inject_Z. cbn.
    rewrite !Z.mul_1_r. exact Hold. }
  pose proof (stale_data_pauses settings rm now_daily now_stale
                (set_atr_pct (Some (Strategy.calculate_atr_pct recent_candles 14)) s)
                (backtester_quote symbol timestamp price) (Some timestamp) Hstale)
    as Hpause.
  destruct (Risk.check_all_circuit_breakers settings rm now_daily now_stale
              (set_atr_pct (Some (Strategy.calculate_atr_pct recent_candles 14)) s)
              (backtester_quote symbol timestamp price) (Some timestamp))
    as [[[should_pause tag] reason] rm'].
  cbn in Hpause. subst should_pause.
  set (s1 := if true && negb (paused (set_atr_pct
                 (Some (Strategy.calculate_atr_pct recent_candles 14)) s))
             then set_pause_reason reason
                    (set_paused true
                       (set_atr_pct
                          (Some (Strategy.calculate_atr_pct recent_candles 14)) s))
             else set_atr_pct
                    (Some (Strategy.calculate_atr_pct recent_candles 14)) s).
  assert (Hp1 : paused s1 = true /\ state s1 = state s /\
                current_position_qty s1 = current_position_qty s).
  { subst s1. cbn [paused set_atr_pct].
    destruct (paused s) eqn:Hp; cbn; repeat split; try reflexivity. exact Hp. }
  destruct Hp1 as (Hp1 & Hs1 & Hq1).
  rewrite (StrategyFacts.generate_signal_paused settings strategy s1
             (backtester_quote symbol timestamp price) (Some recent_candles) Hp1).
  do 3 eexists. split; [reflexivity|].
  pose proof (StrategyFacts.prelude_paused strategy (Some recent_candles) s1) as Pp.
  pose proof (StrategyFacts.prelude_frame strategy (Some recent_candles) s1) as Pf.
  cbv zeta in Pf. destruct Pf as (Pst & _).
  split; [rewrite Pp; exact Hp1|]. split; [reflexivity|].
  split; [rewrite Pst; exact Hs1|].
  rewrite <- Hq1. unfold Spec.refresh_volatility.
  destruct (15 <=? List.length recent_candles)%nat; reflexivity.
Qed.

Lemma backtester_pauses_on_past_candles_witness :
  exists sig s' rm',
    backtester_observe Config.defaults Scenarios.static_engine Risk.new
      3600000000%Z 3600000000%Z Scenarios.flat_state "BTC-USD" 0%Z 47000
      Scenarios.quiet_window = (Ok sig, s', rm') /\
    paused s' = true /\ signal_type sig = HOLD.
Proof.
  destruct (backtester_pauses_on_past_candles Config.defaults
              Scenarios.static_engine Risk.new 3600000000%Z 3600000000%Z
              Scenarios.flat_state "BTC-USD" 0%Z 47000 Scenarios.quiet_window)
    as (sig & s' & rm' & E & Hp & Hh & _).
  - vm_compute. reflexivity.
  - exists sig, s', rm'. repeat split; assumption.
Defined.

(** X23.  For a positive price the buy branch of the backtester never
    raises: a refusal of the ledger is swallowed and leaves state and
    ledger as they were; otherwise the state turns LONG with the bought
    quantity at the fill price, the ledger holds that much more, and its
    cash is not negative. *)
Theorem backtester_buy_never_raises settings (reserve_pct : Decimal)
    (s : StrategyStateData) (portfolio : Portfolio.Portfolio)
    (price atr_pct : Decimal) (is_maker : bool) (timestamp : datetime) :
  0 < price ->
  exists s' portfolio',
    backtester_buy settings reserve_pct s portfolio price atr_pct is_maker
      timestamp = Ok (s', portfolio') /\
    ((s' = s /\ portfolio' = portfolio) \/
     (exists qty,
        0 < qty /\
        s' = Strategy.update_state_after_buy s
               (Fees.adjust_fill_price_for_slippage settings price BUY_SIDE
                  atr_pct is_maker) qty timestamp /\
        state s' = LONG /\
        current_position_qty s' = qty /\
        Portfolio.btc portfolio' = Portfolio.btc portfolio + qty /\
        0 <= Portfolio.cash portfolio')).
Proof.
  intro Hp. unfold backtester_buy.
  assert (Hsize : exists qty,
    Strategy.calculate_position_size settings (Portfolio.cash portfolio) price
      (Some reserve_pct) = Ok qty).
  { unfold Strategy.calculate_position_size.
    destruct (dec_le _ 0); [eauto|]. rewrite dec_div_ok by lra. eauto. }
  destruct Hsize as [qty ->].
  destruct (dec_gtP qty 0) as [G|G]; [|eauto 6].
  unfold Portfolio.execute_buy.
  match goal with
  | |- context [dec_lt ?a ?b] => destruct (dec_ltP a b) as [L|L]
  end.
  - eauto 6.
  - do 2 eexists. split; [reflexivity|]. right. exists qty.
    split; [exact G|]. split; [reflexivity|]. cbn.
    repeat split; try reflexivity. lra.
Qed.

Lemma backtester_buy_never_raises_witness :
  exists s' portfolio',
    backtester_buy Config.defaults 8 Scenarios.flat_state Scenarios.opening_ledger
      47000 3 true 0%Z = Ok (s', portfolio') /\
    state s' = LONG /\ 0 <= Portfolio.cash portfolio'.
Proof.
  destruct (backtester_buy_never_raises Config.defaults 8 Scenarios.flat_state
              Scenarios.opening_ledger 47000 3 true 0%Z)
    as (s' & p' & E & H); [reflexivity|].
  exists s', p'. split; [exact E|].
  destruct H as [[-> ->] | (qty & _ & _ & Hs & _ & _ & Hc)].
  - vm_compute in E. discriminate.
  - split; assumption.
Defined.

End DriversMore.

(** ** The simulated exchange *)

Module FakeExchangeMore.

Import FakeExchange.

Lemma find_stored (o : Order) (w : World) :
  find_order (id o) (store_order o w) = Some o.
Proof.
  unfold find_order, store_order. cbn. now rewrite String.eqb_refl.
Qed.

Lemma store_keeps_balances (o : Order) (w : World) :
  usd (store_order o w) = usd w /\ btc (store_order o w) = btc w /\
  fills (store_order o w) = fills w.
Proof. repeat split. Qed.

(** X24.  An order that is not a market order is accepted as OPEN and
    moves no balance; cancelling it succeeds once and turns it CANCELLED,
    cancelling it again fails and changes nothing.  An order id the
    exchange does not know is reported REJECTED and cannot be cancelled. *)
Theorem resting_order_lifecycle (symbol : string) (order : OrderRequest)
    (w : World) :
  (order_type order <> MARKET ->
   exists order_id w1 w2,
     place_order symbol order w = (Ok order_id, w1) /\
     get_order_status symbol order_id w1 = (Ok OPEN, w1) /\
     cancel_order symbol order_id w1 = (Ok true, w2) /\
     get_order_status symbol order_id w2 = (Ok CANCELLED, w2) /\
     cancel_order symbol order_id w2 = (Ok false, w2) /\
     usd w2 = usd w /\ btc w2 = btc w /\ fills w2 = fills w) /\
  (forall order_id, find_order order_id w = None ->
     get_order_status symbol order_id w = (Ok REJECTED, w) /\
     cancel_order symbol order_id w = (Ok false, w)).
Proof.
  split.
  - intro Hk. unfold place_order. cbn [next_uuid].
    set (oid := NilEmpty.string_of_uint (Nat.to_uint (uuids w))).
    set (w0 := {| now := now w; current_price := current_price w; usd := usd w;
                  btc := btc w; orders := orders w; fills := fills w;
                  uuids := S (uuids w) |}).
    set (o := {| id := oid; order_side := side order; kind := order_type order;
                 order_qty := qty order; order_price := limit_price order;
                 status := OPEN |}).
    exists oid, (store_order o w0),
      (store_order (with_status CANCELLED o) (store_order o w0)).
    assert (Hplace : match order_type order with
                     | MARKET =>
                         match fill_order o (store_order o w0) with
                         | (Ok _, w') => (Ok oid, w')
                         | (Raise e, w') => (Raise e, w')
                         end
                     | _ => (Ok oid, store_order o w0)
                     end = (Ok oid, store_order o w0))
      by (destruct (order_type order); [contradiction | reflexivity | reflexivity]).
    split; [exact Hplace|].
    assert (F1 : find_order oid (store_order o w0) = Some o)
      by (apply (find_stored o w0)).
    assert (F2 : find_order oid (store_order (with_status CANCELLED o)
                                   (store_order o w0))
                 = Some (with_status CANCELLED o))
      by (apply (find_stored (with_status CANCELLED o) (store_order o w0))).
    unfold get_order_status, cancel_order. rewrite F1, F2. cbn [status with_status].
    repeat split; reflexivity.
  - intros order_id Hnone. unfold get_order_status, cancel_order.
    rewrite Hnone. split; reflexivity.
Qed.

Lemma resting_order_lifecycle_witness :
  exists order_id w1 w2,
    place_order "BTC-USD" Scenarios.resting_bid (opened 50000) = (Ok order_id, w1) /\
    cancel_order "BTC-USD" order_id w1 = (Ok true, w2) /\
    cancel_order "BTC-USD" order_id w2 = (Ok false, w2) /\
    usd w2 = 10000.
Proof.
  destruct (resting_order_lifecycle "BTC-USD" Scenarios.resting_bid (opened 50000))
    as [H _].
  destruct H as (oid & w1 & w2 & Ep & _ & Ec & _ & Ec2 & Hu & _);
    [discriminate|].
  exists oid, w1, w2. repeat split; assumption.
Defined.

(** X25.  A priced market order is settled on placement.  A buy whose
    cost plus taker fee the USD balance covers, or a sell the BTC balance
    covers, is FILLED: the balances move by quantity, notional and fee,
    neither goes below zero, and the fills reported for the order end with
    one of that quantity at that price.  Otherwise the order is REJECTED
    and balances and fills stay as they were. *)
Theorem market_order_settles_or_rejects (symbol : string)
    (order : OrderRequest) (price : Q) (w : World) :
  order_type order = MARKET ->
  limit_price order = Some price ->
  let notional : Q := qty order * price in
  let charge : Q := notional * taker_fee in
  exists order_id w1,
    place_order symbol order w = (Ok order_id, w1) /\
    (side order = BUY_SIDE -> notional + charge <= usd w ->
     get_order_status symbol order_id w1 = (Ok FILLED, w1) /\
     usd w1 = usd w - (notional + charge) /\ 0 <= usd w1 /\
     btc w1 = btc w + qty order /\
     exists earlier f,
       get_order_fills symbol order_id w1 = (Ok (earlier ++ [f]), w1) /\
       fill_qty f = qty order /\ fill_price f = price /\ fee f = charge) /\
    (side order = SELL_SIDE -> qty order <= btc w ->
     get_order_status symbol order_id w1 = (Ok FILLED, w1) /\
     usd w1 = usd w + (notional - charge) /\
     btc w1 = btc w - qty order /\ 0 <= btc w1 /\
     exists earlier f,
       get_order_fills symbol order_id w1 = (Ok (earlier ++ [f]), w1) /\
       fill_qty f = qty order /\ fill_price f = price /\ fee f = charge) /\
    ((side order = BUY_SIDE /\ usd w < notional + charge) \/
     (side order = SELL_SIDE /\ btc w < qty order) ->
     get_order_status symbol order_id w1 = (Ok REJECTED, w1) /\
     usd w1 = usd w /\ btc w1 = btc w /\ fills w1 = fills w).
Proof.
  intros Hk Hprice. cbv zeta. unfold place_order. cbn [next_uuid].
  set (oid := NilEmpty.string_of_uint (Nat.to_uint (uuids w))).
  set (w0 := {| now := now w; current_price := current_price w; usd := usd w;
                btc := btc w; orders := orders w; fills := fills w;
                uuids := S (uuids w) |}).
  set (o := {| id := oid; order_side := side order; kind := order_type order;
               order_qty := qty order; order_price := limit_price order;
               status := OPEN |}).
  rewrite Hk. unfold fill_order.
  cbn [order_side order_price order_qty kind o]. rewrite Hk, Hprice.
  cbn [usd btc store_order now].
  change (usd w0) with (usd w). change (btc w0) with (btc w).
  assert (Fills : forall f w',
    fills w' = fills w ++ [(oid, f)] ->
    get_order_fills symbol oid w'
    = (Ok (map snd (filter (fun p => String.eqb (fst p) oid) (fills w)) ++ [f]),
       w')).
  { intros f w' E. unfold get_order_fills. rewrite E, filter_app, map_app. cbn.
    now rewrite String.eqb_refl. }
  assert (Status : forall st w',
    get_order_status symbol oid (store_order (with_status st o) w')
    = (Ok st, store_order (with_status st o) w')).
  { intros st w'. unfold get_order_status.
    change oid with (id (with_status st o)) at 1. now rewrite find_stored. }
  destruct (side order) eqn:Hside.
  - destruct (dec_geP (usd w) (qty order * price + qty order * price * taker_fee))
      as [G|G].
    + do 2 eexists. split; [reflexivity|].
      split; [|split; [discriminate|]].
      * intros _ _. unfold settle.
        split; [apply Status|]. split; [reflexivity|].
        split; [cbn [usd store_order]; lra|]. split; [reflexivity|].
        do 2 eexists. split; [apply Fills; reflexivity|]. repeat split.
      * intros [[_ H] | [H _]]; [lra | discriminate].
    + do 2 eexists. split; [reflexivity|].
      split; [|split; [discriminate|]].
      * intros _ H. contradiction.
      * intros _. split; [apply Status|]. repeat split.
  - destruct (dec_geP (btc w) (qty order)) as [G|G].
    + do 2 eexists. split; [reflexivity|].
      split; [discriminate|]. split.
      * intros _ _. unfold settle.
        split; [apply Status|]. split; [reflexivity|]. split; [reflexivity|].
        split; [cbn [btc store_order]; lra|].
        do 2 eexists. split; [apply Fills; reflexivity|]. repeat split.
      * intros [[H _] | [_ H]]; [discriminate | lra].
    + do 2 eexists. split; [reflexivity|].
      split; [discriminate|]. split.
      * intros _ H. contradiction.
      * intros _. split; [apply Status|]. repeat split.
Qed.

Lemma market_order_settles_or_rejects_witness :
  exists order_id w1,
    place_order "BTC-USD" Scenarios.market_buy (opened 50000) = (Ok order_id, w1) /\
    get_order_status "BTC-USD" order_id w1 = (Ok FILLED, w1) /\
    usd w1 = 10000 - (0.1 * 50000 + 0.1 * 50000 * taker_fee) /\ 0 <= usd w1.
Proof.
  destruct (market_order_settles_or_rejects "BTC-USD" Scenarios.market_buy 50000
              (opened 50000)) as (oid & w1 & Ep & Hbuy & _); try reflexivity.
  destruct Hbuy as (Hs & Hu & H0 & _); [reflexivity | vm_compute; discriminate|].
  exists oid, w1. repeat split; assumption.
Defined.

(** X26.  A market order that carries no price makes placement raise
    TypeError when it is a buy, or a sell the BTC balance covers: the stored
    price entry is None, not absent, so the current price is never used in
    its place.  The order stays behind as OPEN with balances and fills
    untouched.  A sell the balance does not cover is REJECTED before the
    price is looked at. *)
Theorem market_order_without_price (symbol : string) (order : OrderRequest)
    (w : World) :
  order_type order = MARKET ->
  limit_price order = None ->
  let order_id := NilEmpty.string_of_uint (Nat.to_uint (uuids w)) in
  (side order = BUY_SIDE \/ qty order <= btc w ->
   exists w1,
     place_order symbol order w = (Raise TypeError, w1) /\
     get_order_status symbol order_id w1 = (Ok OPEN, w1) /\
     usd w1 = usd w /\ btc w1 = btc w /\ fills w1 = fills w) /\
  (side order = SELL_SIDE -> btc w < qty order ->
   exists w1,
     place_order symbol order w = (Ok order_id, w1) /\
     get_order_status symbol order_id w1 = (Ok REJECTED, w1) /\
     usd w1 = usd w /\ btc w1 = btc w /\ fills w1 = fills w).
Proof.
  intros Hk Hprice. cbv zeta. unfold place_order. cbn [next_uuid].
  set (oid := NilEmpty.string_of_uint (Nat.to_uint (uuids w))).
  set (w0 := {| now := now w; current_price := current_price w; usd := usd w;
                btc := btc w; orders := orders w; fills := fills w;
                uuids := S (uuids w) |}).
  set (o := {| id := oid; order_side := side order; kind := order_type order;
               order_qty := qty order; order_price := limit_price order;
               status := OPEN |}).
  rewrite Hk. unfold fill_order.
  cbn [order_side order_price order_qty kind o]. rewrite Hprice.
  cbn [usd btc store_order now].
  change (btc w0) with (btc w).
  assert (Status : forall o' w',
    id o' = oid ->
    get_order_status symbol oid (store_order o' w')
    = (Ok (status o'), store_order o' w')).
  { intros o' w' E. unfold get_order_status. rewrite <- E.
    now rewrite find_stored. }
  split.
  - intros Hcase.
    destruct (side order) eqn:Hside.
    + eexists. split; [reflexivity|]. split; [now apply Status|].
      repeat split.
    + destruct Hcase as [H|H]; [discriminate|].
      destruct (dec_geP (btc w) (qty order)) as [G|G]; [|contradiction].
      eexists. split; [reflexivity|]. split; [now apply Status|].
      repeat split.
  - intros Hside Hlt. rewrite Hside.
    destruct (dec_geP (btc w) (qty order)) as [G|G]; [lra|].
    eexists. split; [reflexivity|]. split; [now apply Status|].
    repeat split.
Qed.

Lemma market_order_without_price_witness :
  exists w1,
    place_order "BTC-USD" Scenarios.unpriced_market_buy (opened 50000)
    = (Raise TypeError, w1) /\
    usd w1 = 10000.
Proof.
  destruct (market_order_without_price "BTC-USD" Scenarios.unpriced_market_buy
              (opened 50000)) as (H & _); try reflexivity.
  destruct H as (w1 & E & _ & Hu & _); [left; reflexivity|].
  exists w1. split; assumption.
Defined.

End FakeExchangeMore.
